(** * jenkins-tui: the protocol client and the application controller

    A shallow embedding of the Go sources of jenkins-tui

    - [internal/jenkins/client.go]  (request pipeline, crumb negotiation,
      path encoding),
    - [internal/app/model.go]       (application controller),
    - [internal/app/dashboard.go], [views.go], [builds.go]
      (the three tab sub-controllers),
    - [internal/app/setup.go]       (first-run wizard),
    - [internal/jenkins/models]     (payload records and sort helpers),
    - package [jenkins]             (the API calls built on the client),
    - [internal/config]             (validation of a profile),
    - [internal/ui/components], [internal/ui/theme]  (bars and text helpers),

    followed by the properties of the design document that concern them
    and by further properties of the code.

    Conventions.  A Go [int]/[int64] is a [Z]; where the source can wrap
    around the wrap is written out ([wrap64]).  A Go [string] is a
    [string] of bytes.  A slice is an [option (list A)]: [None] is the nil
    slice, [Some []] an empty non-nil one, since the controllers test
    [!= nil].  A pointer to a record is an [option].  An [error] is an
    [option string] carrying the message.  A run-time panic (index out of
    range, nil dereference) is the [Panic] outcome of the handler. *)

From Stdlib Require Import ZArith List String Ascii Bool Lia Permutation.
From Stdlib Require Import DecimalString.
From Stdlib Require DecimalPos DecimalN DecimalZ DecimalFacts.
From stdpp Require Import base list gmap strings.
From Equations Require Import Equations.
Import ListNotations.

Open Scope string_scope.
Open Scope Z_scope.

(* ===================================================================== *)
(** * Fragments of the Go runtime and standard library                    *)
(* ===================================================================== *)

Module Go.

(** Two's-complement wrap-around of 64-bit signed arithmetic. *)
Definition wrap64 (z : Z) : Z := (z + 2 ^ 63) mod 2 ^ 64 - 2 ^ 63.

Definition MaxInt64 : Z := 2 ^ 63 - 1.
Definition MinInt64 : Z := - 2 ^ 63.

Definition error : Type := option string.

Definition slice (A : Type) : Type := option (list A).

(** The elements of a slice; [range] and [len] see a nil slice as empty. *)
Definition elems {A} (s : slice A) : list A :=
  match s with Some l => l | None => [] end.

Definition len {A} (s : slice A) : Z := Z.of_nat (length (elems s)).

(** A slice grown by [append] from nil: still nil when nothing was added. *)
Definition appended {A} (l : list A) : slice A :=
  match l with [] => None | _ => Some l end.

(** Outcome of a handler that may panic. *)
Inductive Outcome (A : Type) : Type :=
| Ok (a : A)
| Panic.
Arguments Ok {A} a.
Arguments Panic {A}.

Definition bind {A B} (o : Outcome A) (k : A -> Outcome B) : Outcome B :=
  match o with Ok a => k a | Panic => Panic end.

(** [s[i]]: panics unless [0 <= i < len(s)]. *)
Definition index {A} (s : slice A) (i : Z) : Outcome A :=
  if (i <? 0) || (len s <=? i) then Panic
  else match elems s !! Z.to_nat i with
       | Some a => Ok a
       | None => Panic
       end.

(** [p.field] through a pointer: panics on nil. *)
Definition deref {A} (p : option A) : Outcome A :=
  match p with Some a => Ok a | None => Panic end.

(** [for i, x := range l { s = f i x s }], started at index [i]. *)
Fixpoint range_loop {A St : Type} (f : nat -> A -> St -> St)
  (i : nat) (l : list A) (s : St) : St :=
  match l with
  | [] => s
  | x :: r => range_loop f (S i) r (f i x s)
  end.

(** ** package strings *)

(** [strings.Split(s, sep)] for a one-byte separator: the [count(sep)+1]
    pieces between the separators; never empty. *)
Fixpoint strings_Split (s : string) (sep : ascii) : list string :=
  match s with
  | EmptyString => [EmptyString]
  | String c r =>
      if Ascii.eqb c sep then EmptyString :: strings_Split r sep
      else match strings_Split r sep with
           | h :: t => String c h :: t
           | [] => [String c EmptyString]
           end
  end.

Fixpoint strings_Join (elems : list string) (sep : string) : string :=
  match elems with
  | [] => EmptyString
  | [x] => x
  | x :: rest => x ++ sep ++ strings_Join rest sep
  end.

Definition isUpper (c : ascii) : bool :=
  let n := nat_of_ascii c in (65 <=? n)%nat && (n <=? 90)%nat.

Definition isLower (c : ascii) : bool :=
  let n := nat_of_ascii c in (97 <=? n)%nat && (n <=? 122)%nat.

Definition isDigit (c : ascii) : bool :=
  let n := nat_of_ascii c in (48 <=? n)%nat && (n <=? 57)%nat.

Definition toLowerByte (c : ascii) : ascii :=
  if isUpper c then ascii_of_nat (nat_of_ascii c + 32) else c.

(** [strings.ToLower] on the ASCII range (bytes above 127 are kept). *)
Fixpoint strings_ToLower (s : string) : string :=
  match s with
  | EmptyString => EmptyString
  | String c r => String (toLowerByte c) (strings_ToLower r)
  end.

Fixpoint strings_HasPrefix (s p : string) : bool :=
  match p, s with
  | EmptyString, _ => true
  | String a p', String b s' => Ascii.eqb a b && strings_HasPrefix s' p'
  | String _ _, EmptyString => false
  end.

Fixpoint strings_Contains (s sub : string) : bool :=
  strings_HasPrefix s sub ||
  match s with
  | EmptyString => false
  | String _ r => strings_Contains r sub
  end.

Definition isSpace (c : ascii) : bool :=
  let n := nat_of_ascii c in
  (n =? 32)%nat || ((9 <=? n)%nat && (n <=? 13)%nat).

Fixpoint trimLeft (s : string) : string :=
  match s with
  | String c r => if isSpace c then trimLeft r else s
  | EmptyString => EmptyString
  end.

Fixpoint revString (s acc : string) : string :=
  match s with
  | EmptyString => acc
  | String c r => revString r (String c acc)
  end.

(** [strings.TrimSpace] on the ASCII white space. *)
Definition strings_TrimSpace (s : string) : string :=
  revString (trimLeft (revString (trimLeft s) EmptyString)) EmptyString.

(** [strings.TrimSuffix(s, "/")]. *)
Fixpoint trimSuffixSlash (s : string) : string :=
  match s with
  | EmptyString => EmptyString
  | String c EmptyString => if Ascii.eqb c "/" then EmptyString else s
  | String c r => String c (trimSuffixSlash r)
  end.

(** ** package net/url *)

Definition upperhex (n : nat) : ascii :=
  match get n "0123456789ABCDEF" with
  | Some c => c
  | None => "0"%char
  end.

Definition percentByte (c : ascii) : string :=
  let n := nat_of_ascii c in
  String "%" (String (upperhex (n / 16)) (String (upperhex (n mod 16)) EmptyString)).

Definition isUnreserved (c : ascii) : bool :=
  isLower c || isUpper c || isDigit c ||
  Ascii.eqb c "-" || Ascii.eqb c "_" || Ascii.eqb c "." || Ascii.eqb c "~".

(** [shouldEscape(c, encodePathSegment)]: of the reserved characters
    [$ & + , / : ; = ? @] a path segment keeps [$ & + : = @]. *)
Definition shouldEscape_pathSegment (c : ascii) : bool :=
  if isUnreserved c then false
  else if Ascii.eqb c "$" || Ascii.eqb c "&" || Ascii.eqb c "+" ||
          Ascii.eqb c ":" || Ascii.eqb c "=" || Ascii.eqb c "@" then false
  else true.

(** [shouldEscape(c, encodeQueryComponent)]: every reserved character. *)
Definition shouldEscape_queryComponent (c : ascii) : bool :=
  negb (isUnreserved c).

Fixpoint url_PathEscape (s : string) : string :=
  match s with
  | EmptyString => EmptyString
  | String c r =>
      if shouldEscape_pathSegment c then percentByte c ++ url_PathEscape r
      else String c (url_PathEscape r)
  end.

Fixpoint url_QueryEscape (s : string) : string :=
  match s with
  | EmptyString => EmptyString
  | String c r =>
      if Ascii.eqb c " " then String "+" (url_QueryEscape r)
      else if shouldEscape_queryComponent c then percentByte c ++ url_QueryEscape r
      else String c (url_QueryEscape r)
  end.

(** ** package fmt *)

(** The verb [%d]. *)
Definition fmt_d (n : Z) : string := NilEmpty.string_of_int (Z.to_int n).

(** ** package net/textproto and net/http *)

Fixpoint string_forallb (p : ascii -> bool) (s : string) : bool :=
  match s with
  | EmptyString => true
  | String c r => p c && string_forallb p r
  end.

Fixpoint string_existsb (p : ascii -> bool) (s : string) : bool :=
  match s with
  | EmptyString => false
  | String c r => p c || string_existsb p r
  end.

Definition toUpperByte (c : ascii) : ascii :=
  if isLower c then ascii_of_nat (nat_of_ascii c - 32) else c.

(** The bytes of an HTTP token. *)
Definition validHeaderFieldByte (c : ascii) : bool :=
  isLower c || isUpper c || isDigit c ||
  string_existsb (Ascii.eqb c) "!#$%&'*+-.^_`|~".

Fixpoint canonicalLoop (upper : bool) (s : string) : string :=
  match s with
  | EmptyString => EmptyString
  | String c r =>
      let c' := if upper then toUpperByte c else toLowerByte c in
      String c' (canonicalLoop (Ascii.eqb c' "-") r)
  end.

(** [textproto.CanonicalMIMEHeaderKey]: [accept-encoding] becomes
    [Accept-Encoding]; a key with a space or a non-token byte is kept. *)
Definition CanonicalMIMEHeaderKey (s : string) : string :=
  if string_forallb (fun c => validHeaderFieldByte c || Ascii.eqb c " ") s
  then if string_existsb (Ascii.eqb " ") s then s else canonicalLoop true s
  else s.

(** An [http.Header] with single-valued fields: the key of the map is the
    canonical field name. *)
Abbreviation Header := (gmap string string).

Definition Header_Set (key value : string) (h : Header) : Header :=
  <[CanonicalMIMEHeaderKey key := value]> h.

Definition Header_Get (key : string) (h : Header) : option string :=
  h !! CanonicalMIMEHeaderKey key.

(** ** package sort

    [sort.Slice] is not stable and its permutation of ties is not part of
    its contract, so the development is parametric in the routine. *)
Class SortSlice : Type :=
  sort_Slice : forall A : Type, (A -> A -> bool) -> list A -> list A.

Fixpoint insertBy {A} (less : A -> A -> bool) (x : A) (l : list A) : list A :=
  match l with
  | [] => [x]
  | y :: r => if less y x then y :: insertBy less x r else x :: l
  end.

(** A concrete routine, used to run the examples. *)
Definition insertionSort : SortSlice :=
  fun A less l => fold_right (insertBy less) [] l.

End Go.

Import Go.

(* ===================================================================== *)
(** * internal/config                                                     *)
(* ===================================================================== *)

Module Config.

Record Profile : Type := mkProfile {
  BaseURL : string;
  Username : string;
  APIToken : string;
  InsecureSkipTLSVerify : bool;
  TimeoutSeconds : Z;
  AutoRefreshSeconds : Z;
  MaxBuildsPerJob : Z;
  MaxLogBytes : Z;
  RateLimitRPS : Z
}.

Record Config : Type := mkConfig { Profile_ : Profile }.

Definition DefaultConfig : Config :=
  {| Profile_ := {| BaseURL := ""; Username := ""; APIToken := "";
                    InsecureSkipTLSVerify := false;
                    TimeoutSeconds := 15;
                    AutoRefreshSeconds := 10;
                    MaxBuildsPerJob := 200;
                    MaxLogBytes := 200000;
                    RateLimitRPS := 5 |} |}.

Definition nonEmpty (s : string) : bool :=
  match s with EmptyString => false | _ => true end.

Definition IsConfigured (c : Config) : bool :=
  nonEmpty (BaseURL (Profile_ c)) &&
  nonEmpty (Username (Profile_ c)) &&
  nonEmpty (APIToken (Profile_ c)).

End Config.

(* ===================================================================== *)
(** * internal/jenkins: the protocol client                               *)
(* ===================================================================== *)

Module Jenkins.

Definition MethodGet : string := "GET".
Definition MethodPost : string := "POST".

Definition StatusOK : Z := 200.
Definition StatusCreated : Z := 201.
Definition StatusUnauthorized : Z := 401.
Definition StatusForbidden : Z := 403.

(** The request handed to [httpClient.Do].  All call sites of [doRequest]
    pass a nil body, so the body is not part of the record; the
    [Authorization] header written by [SetBasicAuth] is kept as the pair
    it encodes. *)
Record Request : Type := mkRequest {
  reqMethod : string;
  reqURL : string;
  reqBasicAuth : string * string;
  reqHeader : Header
}.

(** What [httpClient.Do] returns. *)
Inductive RoundTrip : Type :=
| TransportError (e : string)
| Response (StatusCode : Z) (Body : string).

Inductive Result (A : Type) : Type :=
| Ret (a : A)
| Err (e : string).
Arguments Ret {A} a.
Arguments Err {A} e.

(** The surroundings of a client: the token bucket, the URL parser of
    [http.NewRequestWithContext], the remote server and the JSON decoder
    of the crumb body.  The server answers a request knowing the requests
    it has seen before (most recent first). *)
Record Env : Type := mkEnv {
  limiter_Wait : nat -> error;
  newRequest : string -> string -> error;
  transport : list Request -> Request -> RoundTrip;
  decodeCrumbResp : string -> Result (string * string)
}.

(** What the client has done to its surroundings so far: the number of
    tokens asked of the limiter and the requests sent, most recent first. *)
Record World : Type := mkWorld {
  waits : nat;
  sent : list Request
}.

Record Client : Type := mkClient {
  baseURL : string;
  username : string;
  apiToken : string;
  crumb : string;
  crumbField : string;
  crumbTested : bool
}.

Definition NewClient (cfg : Config.Config) : Client :=
  {| baseURL := trimSuffixSlash (Config.BaseURL (Config.Profile_ cfg));
     username := Config.Username (Config.Profile_ cfg);
     apiToken := Config.APIToken (Config.Profile_ cfg);
     crumb := ""; crumbField := ""; crumbTested := false |}.

Definition crumbIssuerPath : string := "/crumbIssuer/api/json".

Definition errUnauthorized : string := "authentication failed: invalid credentials".
Definition errForbidden : string := "access forbidden: check permissions".

(** The request [doRequest] builds: basic auth, the crumb header on a
    non-GET method when both cached strings are non-empty, then [Accept]. *)
Definition buildRequest (c : Client) (method path : string) : Request :=
  let h : Header := ∅ in
  let h := if negb (String.eqb method MethodGet)
           then if Config.nonEmpty (crumb c) && Config.nonEmpty (crumbField c)
                then Header_Set (crumbField c) (crumb c) h
                else h
           else h in
  let h := Header_Set "Accept" "application/json" h in
  {| reqMethod := method;
     reqURL := baseURL c ++ path;
     reqBasicAuth := (username c, apiToken c);
     reqHeader := h |}.

Section ClientOps.

Variable env : Env.

Definition Step (A : Type) : Type := option (A * Client * World).

(** [fetchCrumb], with the [doRequest] it calls back into as a parameter.
    The result is the returned [error]. *)
Definition fetchCrumb_with
  (doReq : string -> string -> Client -> World -> Step (Result (Z * string)))
  (c : Client) (w : World) : Step error :=
  let c := {| baseURL := baseURL c; username := username c;
              apiToken := apiToken c; crumb := crumb c;
              crumbField := crumbField c; crumbTested := true |} in
  match doReq MethodGet crumbIssuerPath c w with
  | None => None
  | Some (Err e, c, w) => Some (Some e, c, w)
  | Some (Ret (status, body), c, w) =>
      if negb (status =? StatusOK)
      then Some (Some ("crumb issuer returned status " ++ fmt_d status), c, w)
      else match decodeCrumbResp env body with
           | Err e => Some (Some ("error decoding crumb response: " ++ e), c, w)
           | Ret (cr, fld) =>
               Some (None,
                     {| baseURL := baseURL c; username := username c;
                        apiToken := apiToken c; crumb := cr;
                        crumbField := fld; crumbTested := crumbTested c |},
                     w)
           end
  end.

(** [doRequest].  The source recurses (directly for the retry, through
    [fetchCrumb] for the crumb); [fuel] bounds the depth of that
    recursion and [None] means the bound was hit. *)
Fixpoint doRequest (fuel : nat) (method path : string) (c : Client) (w : World)
  : Step (Result (Z * string)) :=
  match fuel with
  | O => None
  | S fuel' =>
      let fullURL := baseURL c ++ path in
      let n := waits w in
      let w := {| waits := S n; sent := sent w |} in
      match limiter_Wait env n with
      | Some e => Some (Err ("rate limiter error: " ++ e), c, w)
      | None =>
          match newRequest env method fullURL with
          | Some e => Some (Err ("error creating request: " ++ e), c, w)
          | None =>
              let req := buildRequest c method path in
              let resp := transport env (sent w) req in
              let w := {| waits := waits w; sent := req :: sent w |} in
              match resp with
              | TransportError e => Some (Err ("error making request: " ++ e), c, w)
              | Response status body =>
                  if status =? StatusUnauthorized then Some (Err errUnauthorized, c, w)
                  else if status =? StatusForbidden then
                    if negb (crumbTested c) && negb (String.eqb method MethodGet)
                    then match fetchCrumb_with (doRequest fuel') c w with
                         | None => None
                         | Some (None, c, w) => doRequest fuel' method path c w
                         | Some (Some _, c, w) => Some (Err errForbidden, c, w)
                         end
                    else Some (Err errForbidden, c, w)
                  else Some (Ret (status, body), c, w)
              end
          end
      end
  end.

Definition fetchCrumb (fuel : nat) : Client -> World -> Step error :=
  fetchCrumb_with (doRequest fuel).

(** The deepest chain of calls is [doRequest] -> [doRequest] (retry) or
    [doRequest] -> [fetchCrumb] -> [doRequest]. *)
Definition callDepth : nat := 2.

(** One call of the client by the application: a method and a path. *)
Record Call : Type := mkCall { callMethod : string; callPath : string }.

(** The calls of one client lifetime, in order. *)
Fixpoint session (calls : list Call) (c : Client) (w : World) : option (Client * World) :=
  match calls with
  | [] => Some (c, w)
  | k :: rest =>
      match doRequest callDepth (callMethod k) (callPath k) c w with
      | None => None
      | Some (_, c, w) => session rest c w
      end
  end.

End ClientOps.

(** The requests of a log that went to the crumb issuer of client [c]. *)
Definition isCrumbRequest (c : Client) (r : Request) : bool :=
  String.eqb (reqURL r) (baseURL c ++ crumbIssuerPath).

Definition crumbRequests (c : Client) (w : World) : nat :=
  length (filter (fun r => isCrumbRequest c r = true) (sent w)).

(** [buildTreeParam]. *)
Definition buildTreeParam (fields : list string) : string :=
  "tree=" ++ url_QueryEscape (strings_Join fields ",").

(** [encodeJobPath]: the loop fills a slice allocated at the length of
    [parts], index by index. *)
Definition encodeJobPath (jobName : string) : string :=
  let parts := strings_Split jobName "/" in
  let encoded := replicate (length parts) EmptyString in
  let encoded :=
    range_loop (fun i part (enc : list string) => <[i := url_PathEscape part]> enc)
               0%nat parts encoded in
  strings_Join encoded "/job/".

(** The claim's reading of [encodeJobPath]: split, escape each segment,
    join. *)
Definition encodeJobPath_spec (s : string) : string :=
  strings_Join (map url_PathEscape (strings_Split s "/")) "/job/".

(** The path [GetJob] requests. *)
Definition GetJob_path (jobName : string) : string :=
  "/job/" ++ encodeJobPath jobName ++ "/api/json?" ++
  buildTreeParam
    [ "name"; "url"; "color"; "description"; "buildable"; "inQueue";
      "lastBuild[number,result,timestamp,duration,url]";
      "lastSuccessfulBuild[number,timestamp]";
      "lastFailedBuild[number,timestamp]";
      "healthReport[description,score]";
      "builds[number,result,timestamp,duration,url]" ].

(** The path [TriggerBuild] posts to. *)
Definition TriggerBuild_path (jobName : string) : string :=
  "/job/" ++ encodeJobPath jobName ++ "/build".

End Jenkins.

(* ===================================================================== *)
(** * internal/jenkins/models: payloads                                   *)
(* ===================================================================== *)

(** The records keep the fields the controllers read or that identify an
    item; fields that only the renderer prints are left out. *)
Module Models.

Record RootInfo : Type := mkRootInfo {
  RootInfo_Mode : string;
  RootInfo_NodeDescription : string;
  RootInfo_NodeName : string;
  RootInfo_NumExecutors : Z;
  RootInfo_Description : string;
  RootInfo_UseCrumbs : bool;
  RootInfo_UseSecurity : bool
}.

Record JobRef : Type := mkJobRef { JobRef_Name : string }.

Record View : Type := mkView {
  View_Name : string;
  View_URL : string;
  View_Description : string;
  View_Jobs : slice JobRef
}.

Record Stage : Type := mkStage {
  Stage_ID : string;
  Stage_Name : string;
  Stage_Status : string;
  Stage_Result : string;
  Stage_StartTimeMillis : Z;
  Stage_DurationMillis : Z
}.

Record BuildRef : Type := mkBuildRef {
  BuildRef_Number : Z;
  BuildRef_Result : string;
  BuildRef_Timestamp : Z;
  BuildRef_Duration : Z;
  BuildRef_URL : string;
  BuildRef_Building : bool;
  BuildRef_Stages : slice Stage
}.

Record HealthReport : Type := mkHealthReport {
  HealthReport_Description : string;
  HealthReport_Score : Z
}.

Record Job : Type := mkJob {
  Job_Name : string;
  Job_URL : string;
  Job_Color : string;
  Job_LastBuild : option BuildRef;
  Job_HealthReport : slice HealthReport
}.

Record JobDetail : Type := mkJobDetail {
  JobDetail_Name : string;
  JobDetail_URL : string;
  JobDetail_Color : string;
  JobDetail_Description : string;
  JobDetail_Buildable : bool;
  JobDetail_InQueue : bool;
  JobDetail_LastBuild : option BuildRef;
  JobDetail_HealthReport : slice HealthReport;
  JobDetail_Builds : slice BuildRef
}.

Record Build : Type := mkBuild {
  Build_Number : Z;
  Build_Result : string;
  Build_Timestamp : Z;
  Build_Duration : Z;
  Build_EstimatedDuration : Z;
  Build_URL : string;
  Build_Building : bool;
  Build_DisplayName : string;
  Build_Description : string
}.

Record PipelineRun : Type := mkPipelineRun {
  PipelineRun_ID : string;
  PipelineRun_Name : string;
  PipelineRun_Status : string;
  PipelineRun_Result : string;
  PipelineRun_State : string;
  PipelineRun_StartTimeMillis : Z;
  PipelineRun_EndTimeMillis : Z;
  PipelineRun_DurationMillis : Z;
  PipelineRun_Stages : slice Stage
}.

Record QueueItem : Type := mkQueueItem {
  QueueItem_ID : Z;
  QueueItem_TaskName : string;
  QueueItem_TaskURL : string;
  QueueItem_Why : string;
  QueueItem_InQueueSince : Z;
  QueueItem_Buildable : bool;
  QueueItem_Blocked : bool;
  QueueItem_Stuck : bool
}.

Record Queue : Type := mkQueue { Queue_Items : slice QueueItem }.

Record ExecutableRef : Type := mkExecutableRef {
  ExecutableRef_URL : string;
  ExecutableRef_Number : Z;
  ExecutableRef_DisplayName : string;
  ExecutableRef_FullDisplayName : string;
  ExecutableRef_Timestamp : Z;
  ExecutableRef_EstimatedDuration : Z
}.

Record Executor : Type := mkExecutor {
  Executor_CurrentExecutable : ExecutableRef;
  Executor_Idle : bool;
  Executor_LikelyStuck : bool;
  Executor_Number : Z;
  Executor_Progress : Z
}.

Record Node : Type := mkNode {
  Node_DisplayName : string;
  Node_Offline : bool;
  Node_TemporarilyOffline : bool;
  Node_NumExecutors : Z;
  Node_Executors : slice Executor;
  Node_OfflineCauseReason : string;
  Node_Idle : bool
}.

(** The longest [time.Duration], in milliseconds: [time.Since] saturates. *)
Definition maxDurationMillis : Z := MaxInt64 / 1000000.

(** [time.Since(time.UnixMilli(ts)).Milliseconds()] at the clock reading
    [now] (milliseconds since the epoch). *)
Definition sinceMillis (now ts : Z) : Z :=
  Z.max (- maxDurationMillis) (Z.min maxDurationMillis (now - ts)).

(** [ExecutableRef.GetProgress]. *)
Definition ExecutableRef_GetProgress (now : Z) (e : ExecutableRef) : Z :=
  if (ExecutableRef_EstimatedDuration e =? 0) || (ExecutableRef_Timestamp e =? 0)
  then 0
  else
    let elapsed := sinceMillis now (ExecutableRef_Timestamp e) in
    let progress := Z.quot (wrap64 (elapsed * 100)) (ExecutableRef_EstimatedDuration e) in
    let progress := if progress >? 100 then 100 else progress in
    if progress <? 0 then 0 else progress.

Definition isAnimatedColor (color : string) : bool :=
  String.eqb color "blue_anime" || String.eqb color "red_anime" ||
  String.eqb color "yellow_anime" || String.eqb color "grey_anime" ||
  String.eqb color "aborted_anime" || String.eqb color "notbuilt_anime".

Definition Job_IsRunning (j : Job) : bool := isAnimatedColor (Job_Color j).

Definition lastBuildTimestamp (j : Job) : Z :=
  match Job_LastBuild j with
  | Some b => BuildRef_Timestamp b
  | None => 0
  end.

Section Sorting.

Context {sorter : SortSlice}.

(** In-place sorts: the result is the new content of the slice; a nil
    slice stays nil. *)
Definition SortJobsByLastBuild (jobs : slice Job) : slice Job :=
  option_map
    (sort_Slice Job (fun a b => lastBuildTimestamp a >? lastBuildTimestamp b))
    jobs.

Definition SortBuildsByNumber (builds : slice BuildRef) : slice BuildRef :=
  option_map
    (sort_Slice BuildRef (fun a b => BuildRef_Number a >? BuildRef_Number b))
    builds.

End Sorting.

Definition JobDetail_setBuilds (b : slice BuildRef) (j : JobDetail) : JobDetail :=
  {| JobDetail_Name := JobDetail_Name j; JobDetail_URL := JobDetail_URL j;
     JobDetail_Color := JobDetail_Color j;
     JobDetail_Description := JobDetail_Description j;
     JobDetail_Buildable := JobDetail_Buildable j;
     JobDetail_InQueue := JobDetail_InQueue j;
     JobDetail_LastBuild := JobDetail_LastBuild j;
     JobDetail_HealthReport := JobDetail_HealthReport j;
     JobDetail_Builds := b |}.

End Models.

(* ===================================================================== *)
(** * Bubble Tea: messages, commands and the widgets the tabs embed       *)
(* ===================================================================== *)

Module Tea.

Import Models.

(** A [tea.KeyMsg]: typed runes or a named key; [key_String] is its
    [String()]. *)
Inductive Key : Type :=
| KeyRunes (runes : string)
| KeyNamed (name : string).

Definition key_String (k : Key) : string :=
  match k with KeyRunes s => s | KeyNamed s => s end.

Record DashboardData : Type := mkDashboardData {
  DashboardData_RootInfo : option RootInfo;
  DashboardData_Nodes : slice Node;
  DashboardData_Queue : option Queue;
  DashboardData_Jobs : slice Job;
  DashboardData_Error : error
}.

Record ViewsData : Type := mkViewsData {
  ViewsData_Views : slice View;
  ViewsData_Jobs : slice Job;
  ViewsData_JobDetail : option JobDetail;
  ViewsData_Error : error
}.

Record BuildsData : Type := mkBuildsData {
  BuildsData_Jobs : slice Job;
  BuildsData_JobDetail : option JobDetail;
  BuildsData_BuildDetail : option Build;
  BuildsData_PipelineRun : option PipelineRun;
  BuildsData_LogContent : string;
  BuildsData_Error : error
}.

Inductive Msg : Type :=
| KeyMsg (k : Key)
| WindowSizeMsg (Width Height : Z)
| SetupCompleteMsg (cfg : Config.Config)
| ClientReadyMsg (client : Jenkins.Client)
| ClientErrorMsg (Error : error)
| AutoRefreshTickMsg
| SpinnerTickMsg
| BlinkMsg
| testConnectionResult (err : error)
| DashboardDataMsg (d : DashboardData)
| ViewsDataMsg (d : ViewsData)
| BuildsDataMsg (d : BuildsData).

(** A [tea.Cmd], as a description of the work it starts.  The fetch
    commands are the closures the tabs build around the protocol client. *)
#[warnings="-register-all"]
Inductive Cmd : Type :=
| CmdNil
| Quit
| Batch (cmds : list Cmd)
| Tick (d : Z) (m : Msg)
| Emit (m : Msg)
| SpinnerTick
| Blink
| initializeClient (cfg : Config.Config)
| testConnection (url username token : string)
| Dashboard_fetchRootInfo
| Dashboard_fetchNodes
| Dashboard_fetchQueue
| Dashboard_fetchJobs
| Views_fetchViews
| Views_fetchViewJobs (viewName : string)
| Views_fetchJobDetail (jobName : string)
| Builds_fetchJobs
| Builds_fetchJobDetail (jobName : string)
| Builds_fetchBuildDetail (jobName : string) (buildNum : Z)
| Builds_fetchBuildLog (jobName : string) (buildNum : Z)
| Builds_fetchStageLog (jobName : string) (buildNum : Z) (stageID : string).

Definition isNil (c : Cmd) : bool :=
  match c with CmdNil => true | _ => false end.

(** [tea.Batch]: nil commands are dropped; nothing left is nil. *)
Definition tea_Batch (cmds : list Cmd) : Cmd :=
  match List.filter (fun c => negb (isNil c)) cmds with
  | [] => CmdNil
  | l => Batch l
  end.

(** ** bubbles/spinner: the frame counter advances on its tick. *)
Record Spinner : Type := mkSpinner { frame : Z }.

Definition spinner_New : Spinner := {| frame := 0 |}.

Definition spinner_Update (msg : Msg) (s : Spinner) : Spinner * Cmd :=
  match msg with
  | SpinnerTickMsg => ({| frame := frame s + 1 |}, SpinnerTick)
  | _ => (s, CmdNil)
  end.

(** ** bubbles/textinput: the value and the focus.  The cursor stays at
    the end of the value; cursor keys, paste and the character limit are
    not modelled. *)
Record TextInput : Type := mkTextInput {
  Value : string;
  focus : bool
}.

Definition textinput_New : TextInput := {| Value := ""; focus := false |}.
Definition Focus (t : TextInput) : TextInput := {| Value := Value t; focus := true |}.
Definition Blur (t : TextInput) : TextInput := {| Value := Value t; focus := false |}.
Definition SetValue (s : string) (t : TextInput) : TextInput :=
  {| Value := s; focus := focus t |}.

Fixpoint dropLast (s : string) : string :=
  match s with
  | EmptyString => EmptyString
  | String c EmptyString => EmptyString
  | String c r => String c (dropLast r)
  end.

Definition textinput_Update (msg : Msg) (t : TextInput) : TextInput * Cmd :=
  if focus t then
    match msg with
    | KeyMsg (KeyRunes r) => (SetValue (Value t ++ r) t, CmdNil)
    | KeyMsg (KeyNamed "backspace") => (SetValue (dropLast (Value t)) t, CmdNil)
    | _ => (t, CmdNil)
    end
  else (t, CmdNil).

(** ** bubbles/viewport and bubbles/paginator, reduced to the state the
    builds tab writes. *)
Record Viewport : Type := mkViewport {
  vpWidth : Z;
  vpHeight : Z;
  vpContent : string;
  vpAtBottom : bool;
  vpYOffset : Z
}.

Definition viewport_New (w h : Z) : Viewport :=
  {| vpWidth := w; vpHeight := h; vpContent := ""; vpAtBottom := false; vpYOffset := 0 |}.

Definition viewport_SetSize (w h : Z) (v : Viewport) : Viewport :=
  {| vpWidth := w; vpHeight := h; vpContent := vpContent v;
     vpAtBottom := vpAtBottom v; vpYOffset := vpYOffset v |}.

Definition SetContent (s : string) (v : Viewport) : Viewport :=
  {| vpWidth := vpWidth v; vpHeight := vpHeight v; vpContent := s;
     vpAtBottom := false; vpYOffset := vpYOffset v |}.

Definition GotoBottom (v : Viewport) : Viewport :=
  {| vpWidth := vpWidth v; vpHeight := vpHeight v; vpContent := vpContent v;
     vpAtBottom := true; vpYOffset := vpYOffset v |}.

Definition GotoTop (v : Viewport) : Viewport :=
  {| vpWidth := vpWidth v; vpHeight := vpHeight v; vpContent := vpContent v;
     vpAtBottom := false; vpYOffset := 0 |}.

Definition ViewDown (v : Viewport) : Viewport :=
  {| vpWidth := vpWidth v; vpHeight := vpHeight v; vpContent := vpContent v;
     vpAtBottom := vpAtBottom v; vpYOffset := vpYOffset v + vpHeight v |}.

Definition ViewUp (v : Viewport) : Viewport :=
  {| vpWidth := vpWidth v; vpHeight := vpHeight v; vpContent := vpContent v;
     vpAtBottom := false; vpYOffset := Z.max 0 (vpYOffset v - vpHeight v) |}.

Record Paginator : Type := mkPaginator {
  PerPage : Z;
  Page : Z;
  TotalPages : Z
}.

Definition paginator_New : Paginator := {| PerPage := 1; Page := 0; TotalPages := 1 |}.

(** Divides by [PerPage]: a zero there is a run-time panic. *)
Definition SetTotalPages (items : Z) (p : Paginator) : Outcome Paginator :=
  if items <? 1 then Ok p
  else if PerPage p =? 0 then Panic
  else
    let n := Z.quot items (PerPage p) + (if Z.rem items (PerPage p) >? 0 then 1 else 0) in
    Ok {| PerPage := PerPage p; Page := Page p; TotalPages := n |}.

(** What a handler reads from outside the model: the clock
    ([time.Now], milliseconds) and the outcome [Config.Save] would
    have on the file system. *)
Record Sys : Type := mkSys {
  now : Z;
  Save : Config.Config -> error
}.

End Tea.

(* ===================================================================== *)
(** * internal/app: the dashboard tab                                     *)
(* ===================================================================== *)

Module Dashboard.

Import Models Tea.

Record RunningBuildInfo : Type := mkRunningBuildInfo {
  Running_JobName : string;
  Running_BuildNum : Z;
  Running_NodeName : string;
  Running_Progress : Z;
  Running_URL : string
}.

Record RecentBuildInfo : Type := mkRecentBuildInfo {
  Recent_JobName : string;
  Recent_BuildNum : Z;
  Recent_Result : string;
  Recent_Color : string;
  Recent_Timestamp : Z;
  Recent_Duration : Z;
  Recent_URL : string
}.

Definition PanelRunning : Z := 0.
Definition PanelNodes : Z := 1.
Definition PanelQueue : Z := 2.
Definition PanelRecent : Z := 3.

Record DashboardModel : Type := mkDashboardModel {
  width : Z;
  height : Z;
  rootInfo : option RootInfo;
  nodes : slice Node;
  queue : option Queue;
  runningBuilds : slice RunningBuildInfo;
  recentBuilds : slice RecentBuildInfo;
  selectedPanel : Z;
  selectedRunning : Z;
  selectedNode : Z;
  selectedQueueItem : Z;
  selectedBuild : Z;
  loading : bool;
  lastError : error;
  lastUpdate : option Z;
  spinner : Spinner
}.

Definition set_width (v : Z) (m : DashboardModel) : DashboardModel :=
  {| width := v; height := height m; rootInfo := rootInfo m;
     nodes := nodes m; queue := queue m; runningBuilds := runningBuilds m;
     recentBuilds := recentBuilds m; selectedPanel := selectedPanel m;
     selectedRunning := selectedRunning m; selectedNode := selectedNode m;
     selectedQueueItem := selectedQueueItem m;
     selectedBuild := selectedBuild m; loading := loading m;
     lastError := lastError m; lastUpdate := lastUpdate m;
     spinner := spinner m |}.

Definition set_height (v : Z) (m : DashboardModel) : DashboardModel :=
  {| width := width m; height := v; rootInfo := rootInfo m; nodes := nodes m;
     queue := queue m; runningBuilds := runningBuilds m;
     recentBuilds := recentBuilds m; selectedPanel := selectedPanel m;
     selectedRunning := selectedRunning m; selectedNode := selectedNode m;
     selectedQueueItem := selectedQueueItem m;
     selectedBuild := selectedBuild m; loading := loading m;
     lastError := lastError m; lastUpdate := lastUpdate m;
     spinner := spinner m |}.

Definition set_rootInfo (v : option RootInfo) (m : DashboardModel) : DashboardModel :=
  {| width := width m; height := height m; rootInfo := v; nodes := nodes m;
     queue := queue m; runningBuilds := runningBuilds m;
     recentBuilds := recentBuilds m; selectedPanel := selectedPanel m;
     selectedRunning := selectedRunning m; selectedNode := selectedNode m;
     selectedQueueItem := selectedQueueItem m;
     selectedBuild := selectedBuild m; loading := loading m;
     lastError := lastError m; lastUpdate := lastUpdate m;
     spinner := spinner m |}.

Definition set_nodes (v : slice Node) (m : DashboardModel) : DashboardModel :=
  {| width := width m; height := height m; rootInfo := rootInfo m;
     nodes := v; queue := queue m; runningBuilds := runningBuilds m;
     recentBuilds := recentBuilds m; selectedPanel := selectedPanel m;
     selectedRunning := selectedRunning m; selectedNode := selectedNode m;
     selectedQueueItem := selectedQueueItem m;
     selectedBuild := selectedBuild m; loading := loading m;
     lastError := lastError m; lastUpdate := lastUpdate m;
     spinner := spinner m |}.

Definition set_queue (v : option Queue) (m : DashboardModel) : DashboardModel :=
  {| width := width m; height := height m; rootInfo := rootInfo m;
     nodes := nodes m; queue := v; runningBuilds := runningBuilds m;
     recentBuilds := recentBuilds m; selectedPanel := selectedPanel m;
     selectedRunning := selectedRunning m; selectedNode := selectedNode m;
     selectedQueueItem := selectedQueueItem m;
     selectedBuild := selectedBuild m; loading := loading m;
     lastError := lastError m; lastUpdate := lastUpdate m;
     spinner := spinner m |}.

Definition set_runningBuilds (v : slice RunningBuildInfo) (m : DashboardModel) : DashboardModel :=
  {| width := width m; height := height m; rootInfo := rootInfo m;
     nodes := nodes m; queue := queue m; runningBuilds := v;
     recentBuilds := recentBuilds m; selectedPanel := selectedPanel m;
     selectedRunning := selectedRunning m; selectedNode := selectedNode m;
     selectedQueueItem := selectedQueueItem m;
     selectedBuild := selectedBuild m; loading := loading m;
     lastError := lastError m; lastUpdate := lastUpdate m;
     spinner := spinner m |}.

Definition set_recentBuilds (v : slice RecentBuildInfo) (m : DashboardModel) : DashboardModel :=
  {| width := width m; height := height m; rootInfo := rootInfo m;
     nodes := nodes m; queue := queue m; runningBuilds := runningBuilds m;
     recentBuilds := v; selectedPanel := selectedPanel m;
     selectedRunning := selectedRunning m; selectedNode := selectedNode m;
     selectedQueueItem := selectedQueueItem m;
     selectedBuild := selectedBuild m; loading := loading m;
     lastError := lastError m; lastUpdate := lastUpdate m;
     spinner := spinner m |}.

Definition set_selectedPanel (v : Z) (m : DashboardModel) : DashboardModel :=
  {| width := width m; height := height m; rootInfo := rootInfo m;
     nodes := nodes m; queue := queue m; runningBuilds := runningBuilds m;
     recentBuilds := recentBuilds m; selectedPanel := v;
     selectedRunning := selectedRunning m; selectedNode := selectedNode m;
     selectedQueueItem := selectedQueueItem m;
     selectedBuild := selectedBuild m; loading := loading m;
     lastError := lastError m; lastUpdate := lastUpdate m;
     spinner := spinner m |}.

Definition set_selectedRunning (v : Z) (m : DashboardModel) : DashboardModel :=
  {| width := width m; height := height m; rootInfo := rootInfo m;
     nodes := nodes m; queue := queue m; runningBuilds := runningBuilds m;
     recentBuilds := recentBuilds m; selectedPanel := selectedPanel m;
     selectedRunning := v; selectedNode := selectedNode m;
     selectedQueueItem := selectedQueueItem m;
     selectedBuild := selectedBuild m; loading := loading m;
     lastError := lastError m; lastUpdate := lastUpdate m;
     spinner := spinner m |}.

Definition set_selectedNode (v : Z) (m : DashboardModel) : DashboardModel :=
  {| width := width m; height := height m; rootInfo := rootInfo m;
     nodes := nodes m; queue := queue m; runningBuilds := runningBuilds m;
     recentBuilds := recentBuilds m; selectedPanel := selectedPanel m;
     selectedRunning := selectedRunning m; selectedNode := v;
     selectedQueueItem := selectedQueueItem m;
     selectedBuild := selectedBuild m; loading := loading m;
     lastError := lastError m; lastUpdate := lastUpdate m;
     spinner := spinner m |}.

Definition set_selectedQueueItem (v : Z) (m : DashboardModel) : DashboardModel :=
  {| width := width m; height := height m; rootInfo := rootInfo m;
     nodes := nodes m; queue := queue m; runningBuilds := runningBuilds m;
     recentBuilds := recentBuilds m; selectedPanel := selectedPanel m;
     selectedRunning := selectedRunning m; selectedNode := selectedNode m;
     selectedQueueItem := v; selectedBuild := selectedBuild m;
     loading := loading m; lastError := lastError m;
     lastUpdate := lastUpdate m; spinner := spinner m |}.

Definition set_selectedBuild (v : Z) (m : DashboardModel) : DashboardModel :=
  {| width := width m; height := height m; rootInfo := rootInfo m;
     nodes := nodes m; queue := queue m; runningBuilds := runningBuilds m;
     recentBuilds := recentBuilds m; selectedPanel := selectedPanel m;
     selectedRunning := selectedRunning m; selectedNode := selectedNode m;
     selectedQueueItem := selectedQueueItem m; selectedBuild := v;
     loading := loading m; lastError := lastError m;
     lastUpdate := lastUpdate m; spinner := spinner m |}.

Definition set_loading (v : bool) (m : DashboardModel) : DashboardModel :=
  {| width := width m; height := height m; rootInfo := rootInfo m;
     nodes := nodes m; queue := queue m; runningBuilds := runningBuilds m;
     recentBuilds := recentBuilds m; selectedPanel := selectedPanel m;
     selectedRunning := selectedRunning m; selectedNode := selectedNode m;
     selectedQueueItem := selectedQueueItem m;
     selectedBuild := selectedBuild m; loading := v;
     lastError := lastError m; lastUpdate := lastUpdate m;
     spinner := spinner m |}.

Definition set_lastError (v : error) (m : DashboardModel) : DashboardModel :=
  {| width := width m; height := height m; rootInfo := rootInfo m;
     nodes := nodes m; queue := queue m; runningBuilds := runningBuilds m;
     recentBuilds := recentBuilds m; selectedPanel := selectedPanel m;
     selectedRunning := selectedRunning m; selectedNode := selectedNode m;
     selectedQueueItem := selectedQueueItem m;
     selectedBuild := selectedBuild m; loading := loading m; lastError := v;
     lastUpdate := lastUpdate m; spinner := spinner m |}.

Definition set_lastUpdate (v : option Z) (m : DashboardModel) : DashboardModel :=
  {| width := width m; height := height m; rootInfo := rootInfo m;
     nodes := nodes m; queue := queue m; runningBuilds := runningBuilds m;
     recentBuilds := recentBuilds m; selectedPanel := selectedPanel m;
     selectedRunning := selectedRunning m; selectedNode := selectedNode m;
     selectedQueueItem := selectedQueueItem m;
     selectedBuild := selectedBuild m; loading := loading m;
     lastError := lastError m; lastUpdate := v; spinner := spinner m |}.

Definition set_spinner (v : Spinner) (m : DashboardModel) : DashboardModel :=
  {| width := width m; height := height m; rootInfo := rootInfo m;
     nodes := nodes m; queue := queue m; runningBuilds := runningBuilds m;
     recentBuilds := recentBuilds m; selectedPanel := selectedPanel m;
     selectedRunning := selectedRunning m; selectedNode := selectedNode m;
     selectedQueueItem := selectedQueueItem m;
     selectedBuild := selectedBuild m; loading := loading m;
     lastError := lastError m; lastUpdate := lastUpdate m; spinner := v |}.

Definition NewDashboardModel (width height : Z) : DashboardModel :=
  {| width := width; height := height;
     rootInfo := None; nodes := None; queue := None;
     runningBuilds := None; recentBuilds := None;
     selectedPanel := PanelRunning; selectedRunning := 0; selectedNode := 0;
     selectedQueueItem := 0; selectedBuild := 0;
     loading := true; lastError := None; lastUpdate := None;
     spinner := spinner_New |}.

Definition SetSize (w h : Z) (m : DashboardModel) : DashboardModel :=
  set_height h (set_width w m).

Definition LoadData (m : DashboardModel) : DashboardModel * Cmd :=
  (set_loading true m,
   tea_Batch [Dashboard_fetchRootInfo; Dashboard_fetchNodes;
              Dashboard_fetchQueue; Dashboard_fetchJobs; SpinnerTick]).

Definition runningOfExecutor (now : Z) (node : Node) (exec : Executor)
  : list RunningBuildInfo :=
  let cur := Executor_CurrentExecutable exec in
  if Config.nonEmpty (ExecutableRef_URL cur) then
    let jobName := ExecutableRef_FullDisplayName cur in
    let jobName := if Config.nonEmpty jobName then jobName
                   else ExecutableRef_DisplayName cur in
    let jobName := if Config.nonEmpty jobName then jobName else "Unknown" in
    let progress := Executor_Progress exec in
    let progress :=
      if (progress =? 0) && (ExecutableRef_EstimatedDuration cur >? 0)
         && (ExecutableRef_Timestamp cur >? 0)
      then ExecutableRef_GetProgress now cur
      else progress in
    [ {| Running_JobName := jobName;
         Running_BuildNum := ExecutableRef_Number cur;
         Running_NodeName := Node_DisplayName node;
         Running_Progress := progress;
         Running_URL := ExecutableRef_URL cur |} ]
  else [].

(** [extractRunningBuilds]; the progress of an executor that reports none
    is estimated from the clock. *)
Definition extractRunningBuilds (now : Z) (m : DashboardModel) : slice RunningBuildInfo :=
  appended
    (flat_map (fun node => flat_map (runningOfExecutor now node)
                                    (elems (Node_Executors node)))
              (elems (nodes m))).

Definition recentOfJob (job : Job) : list RecentBuildInfo :=
  match Job_LastBuild job with
  | Some lb =>
      let result := BuildRef_Result lb in
      let result := if negb (Config.nonEmpty result) && Job_IsRunning job
                    then "RUNNING" else result in
      [ {| Recent_JobName := Job_Name job;
           Recent_BuildNum := BuildRef_Number lb;
           Recent_Result := result;
           Recent_Color := Job_Color job;
           Recent_Timestamp := BuildRef_Timestamp lb;
           Recent_Duration := wrap64 (BuildRef_Duration lb * 1000000);
           Recent_URL := Job_URL job |} ]
  | None => []
  end.

Section Handlers.

Context {sorter : SortSlice}.

Definition processJobs (jobs : slice Job) (m : DashboardModel) : DashboardModel :=
  let jobs := SortJobsByLastBuild jobs in
  set_recentBuilds (appended (flat_map recentOfJob (elems jobs))) m.

Definition nextPanel (m : DashboardModel) : DashboardModel :=
  set_selectedPanel (Z.rem (selectedPanel m + 1) 4) m.

Definition prevPanel (m : DashboardModel) : DashboardModel :=
  set_selectedPanel (Z.rem (selectedPanel m + 3) 4) m.

Definition queueItems (m : DashboardModel) : Z :=
  match queue m with Some q => len (Queue_Items q) | None => 0 end.

Definition navigateDown (m : DashboardModel) : DashboardModel :=
  if selectedPanel m =? PanelRunning then
    if selectedRunning m <? len (runningBuilds m) - 1
    then set_selectedRunning (selectedRunning m + 1) m else m
  else if selectedPanel m =? PanelNodes then
    if selectedNode m <? len (nodes m) - 1
    then set_selectedNode (selectedNode m + 1) m else m
  else if selectedPanel m =? PanelQueue then
    match queue m with
    | Some q => if selectedQueueItem m <? len (Queue_Items q) - 1
                then set_selectedQueueItem (selectedQueueItem m + 1) m else m
    | None => m
    end
  else if selectedPanel m =? PanelRecent then
    if selectedBuild m <? len (recentBuilds m) - 1
    then set_selectedBuild (selectedBuild m + 1) m else m
  else m.

Definition navigateUp (m : DashboardModel) : DashboardModel :=
  if selectedPanel m =? PanelRunning then
    if selectedRunning m >? 0 then set_selectedRunning (selectedRunning m - 1) m else m
  else if selectedPanel m =? PanelNodes then
    if selectedNode m >? 0 then set_selectedNode (selectedNode m - 1) m else m
  else if selectedPanel m =? PanelQueue then
    if selectedQueueItem m >? 0 then set_selectedQueueItem (selectedQueueItem m - 1) m else m
  else if selectedPanel m =? PanelRecent then
    if selectedBuild m >? 0 then set_selectedBuild (selectedBuild m - 1) m else m
  else m.

Definition goToTop (m : DashboardModel) : DashboardModel :=
  if selectedPanel m =? PanelRunning then set_selectedRunning 0 m
  else if selectedPanel m =? PanelNodes then set_selectedNode 0 m
  else if selectedPanel m =? PanelQueue then set_selectedQueueItem 0 m
  else if selectedPanel m =? PanelRecent then set_selectedBuild 0 m
  else m.

Definition goToBottom (m : DashboardModel) : DashboardModel :=
  if selectedPanel m =? PanelRunning then
    if len (runningBuilds m) >? 0
    then set_selectedRunning (len (runningBuilds m) - 1) m else m
  else if selectedPanel m =? PanelNodes then
    if len (nodes m) >? 0 then set_selectedNode (len (nodes m) - 1) m else m
  else if selectedPanel m =? PanelQueue then
    match queue m with
    | Some q => if len (Queue_Items q) >? 0
                then set_selectedQueueItem (len (Queue_Items q) - 1) m else m
    | None => m
    end
  else if selectedPanel m =? PanelRecent then
    if len (recentBuilds m) >? 0
    then set_selectedBuild (len (recentBuilds m) - 1) m else m
  else m.

(** The merge of one [DashboardDataMsg]: a field absent from the message
    ([nil]) is not written. *)
Definition merge (now : Z) (d : DashboardData) (m : DashboardModel) : DashboardModel :=
  let m := set_loading false m in
  let m := set_lastUpdate (Some now) m in
  let m := match DashboardData_RootInfo d with
           | Some r => set_rootInfo (Some r) m
           | None => m
           end in
  let m := match DashboardData_Nodes d with
           | Some ns =>
               let m := set_nodes (Some ns) m in
               set_runningBuilds (extractRunningBuilds now m) m
           | None => m
           end in
  let m := match DashboardData_Queue d with
           | Some q => set_queue (Some q) m
           | None => m
           end in
  let m := match DashboardData_Jobs d with
           | Some js => processJobs (Some js) m
           | None => m
           end in
  match DashboardData_Error d with
  | Some e => set_lastError (Some e) m
  | None => m
  end.

(** [DashboardModel.Update]. *)
Definition Update (sys : Sys) (msg : Msg) (m : DashboardModel) : DashboardModel * Cmd :=
  match msg with
  | DashboardDataMsg d => (merge (now sys) d m, CmdNil)
  | SpinnerTickMsg =>
      if loading m then
        let (s, cmd) := spinner_Update msg (spinner m) in
        (set_spinner s m, cmd)
      else (m, CmdNil)
  | KeyMsg k =>
      let key := key_String k in
      if String.eqb key "r" then LoadData m
      else if String.eqb key "j" || String.eqb key "down" then (navigateDown m, CmdNil)
      else if String.eqb key "k" || String.eqb key "up" then (navigateUp m, CmdNil)
      else if String.eqb key "tab" then (nextPanel m, CmdNil)
      else if String.eqb key "shift+tab" then (prevPanel m, CmdNil)
      else if String.eqb key "g" then (goToTop m, CmdNil)
      else if String.eqb key "G" then (goToBottom m, CmdNil)
      else (m, CmdNil)
  | _ => (m, CmdNil)
  end.

End Handlers.

End Dashboard.

(* ===================================================================== *)
(** * internal/app: the views tab                                         *)
(* ===================================================================== *)

Module Views.

Import Models Tea.

Inductive ViewsMode : Type :=
| ViewsModeList
| ViewsModeJobs
| ViewsModeJobDetail.

Record ViewsModel : Type := mkViewsModel {
  width : Z;
  height : Z;
  mode : ViewsMode;
  views : slice View;
  selectedView : Z;
  jobs : slice Job;
  selectedJob : Z;
  jobDetail : option JobDetail;
  searchInput : TextInput;
  searching : bool;
  filter : string;
  viewsScroll : Z;
  jobsScroll : Z;
  loading : bool;
  lastError : error;
  lastUpdate : option Z;
  spinner : Spinner
}.

Definition set_width (v : Z) (m : ViewsModel) : ViewsModel :=
  {| width := v; height := height m; mode := mode m; views := views m;
     selectedView := selectedView m; jobs := jobs m;
     selectedJob := selectedJob m; jobDetail := jobDetail m;
     searchInput := searchInput m; searching := searching m;
     filter := filter m; viewsScroll := viewsScroll m;
     jobsScroll := jobsScroll m; loading := loading m;
     lastError := lastError m; lastUpdate := lastUpdate m;
     spinner := spinner m |}.

Definition set_height (v : Z) (m : ViewsModel) : ViewsModel :=
  {| width := width m; height := v; mode := mode m; views := views m;
     selectedView := selectedView m; jobs := jobs m;
     selectedJob := selectedJob m; jobDetail := jobDetail m;
     searchInput := searchInput m; searching := searching m;
     filter := filter m; viewsScroll := viewsScroll m;
     jobsScroll := jobsScroll m; loading := loading m;
     lastError := lastError m; lastUpdate := lastUpdate m;
     spinner := spinner m |}.

Definition set_mode (v : ViewsMode) (m : ViewsModel) : ViewsModel :=
  {| width := width m; height := height m; mode := v; views := views m;
     selectedView := selectedView m; jobs := jobs m;
     selectedJob := selectedJob m; jobDetail := jobDetail m;
     searchInput := searchInput m; searching := searching m;
     filter := filter m; viewsScroll := viewsScroll m;
     jobsScroll := jobsScroll m; loading := loading m;
     lastError := lastError m; lastUpdate := lastUpdate m;
     spinner := spinner m |}.

Definition set_views (v : slice View) (m : ViewsModel) : ViewsModel :=
  {| width := width m; height := height m; mode := mode m; views := v;
     selectedView := selectedView m; jobs := jobs m;
     selectedJob := selectedJob m; jobDetail := jobDetail m;
     searchInput := searchInput m; searching := searching m;
     filter := filter m; viewsScroll := viewsScroll m;
     jobsScroll := jobsScroll m; loading := loading m;
     lastError := lastError m; lastUpdate := lastUpdate m;
     spinner := spinner m |}.

Definition set_selectedView (v : Z) (m : ViewsModel) : ViewsModel :=
  {| width := width m; height := height m; mode := mode m; views := views m;
     selectedView := v; jobs := jobs m; selectedJob := selectedJob m;
     jobDetail := jobDetail m; searchInput := searchInput m;
     searching := searching m; filter := filter m;
     viewsScroll := viewsScroll m; jobsScroll := jobsScroll m;
     loading := loading m; lastError := lastError m;
     lastUpdate := lastUpdate m; spinner := spinner m |}.

Definition set_jobs (v : slice Job) (m : ViewsModel) : ViewsModel :=
  {| width := width m; height := height m; mode := mode m; views := views m;
     selectedView := selectedView m; jobs := v; selectedJob := selectedJob m;
     jobDetail := jobDetail m; searchInput := searchInput m;
     searching := searching m; filter := filter m;
     viewsScroll := viewsScroll m; jobsScroll := jobsScroll m;
     loading := loading m; lastError := lastError m;
     lastUpdate := lastUpdate m; spinner := spinner m |}.

Definition set_selectedJob (v : Z) (m : ViewsModel) : ViewsModel :=
  {| width := width m; height := height m; mode := mode m; views := views m;
     selectedView := selectedView m; jobs := jobs m; selectedJob := v;
     jobDetail := jobDetail m; searchInput := searchInput m;
     searching := searching m; filter := filter m;
     viewsScroll := viewsScroll m; jobsScroll := jobsScroll m;
     loading := loading m; lastError := lastError m;
     lastUpdate := lastUpdate m; spinner := spinner m |}.

Definition set_jobDetail (v : option JobDetail) (m : ViewsModel) : ViewsModel :=
  {| width := width m; height := height m; mode := mode m; views := views m;
     selectedView := selectedView m; jobs := jobs m;
     selectedJob := selectedJob m; jobDetail := v;
     searchInput := searchInput m; searching := searching m;
     filter := filter m; viewsScroll := viewsScroll m;
     jobsScroll := jobsScroll m; loading := loading m;
     lastError := lastError m; lastUpdate := lastUpdate m;
     spinner := spinner m |}.

Definition set_searchInput (v : TextInput) (m : ViewsModel) : ViewsModel :=
  {| width := width m; height := height m; mode := mode m; views := views m;
     selectedView := selectedView m; jobs := jobs m;
     selectedJob := selectedJob m; jobDetail := jobDetail m;
     searchInput := v; searching := searching m; filter := filter m;
     viewsScroll := viewsScroll m; jobsScroll := jobsScroll m;
     loading := loading m; lastError := lastError m;
     lastUpdate := lastUpdate m; spinner := spinner m |}.

Definition set_searching (v : bool) (m : ViewsModel) : ViewsModel :=
  {| width := width m; height := height m; mode := mode m; views := views m;
     selectedView := selectedView m; jobs := jobs m;
     selectedJob := selectedJob m; jobDetail := jobDetail m;
     searchInput := searchInput m; searching := v; filter := filter m;
     viewsScroll := viewsScroll m; jobsScroll := jobsScroll m;
     loading := loading m; lastError := lastError m;
     lastUpdate := lastUpdate m; spinner := spinner m |}.

Definition set_filter (v : string) (m : ViewsModel) : ViewsModel :=
  {| width := width m; height := height m; mode := mode m; views := views m;
     selectedView := selectedView m; jobs := jobs m;
     selectedJob := selectedJob m; jobDetail := jobDetail m;
     searchInput := searchInput m; searching := searching m; filter := v;
     viewsScroll := viewsScroll m; jobsScroll := jobsScroll m;
     loading := loading m; lastError := lastError m;
     lastUpdate := lastUpdate m; spinner := spinner m |}.

Definition set_viewsScroll (v : Z) (m : ViewsModel) : ViewsModel :=
  {| width := width m; height := height m; mode := mode m; views := views m;
     selectedView := selectedView m; jobs := jobs m;
     selectedJob := selectedJob m; jobDetail := jobDetail m;
     searchInput := searchInput m; searching := searching m;
     filter := filter m; viewsScroll := v; jobsScroll := jobsScroll m;
     loading := loading m; lastError := lastError m;
     lastUpdate := lastUpdate m; spinner := spinner m |}.

Definition set_jobsScroll (v : Z) (m : ViewsModel) : ViewsModel :=
  {| width := width m; height := height m; mode := mode m; views := views m;
     selectedView := selectedView m; jobs := jobs m;
     selectedJob := selectedJob m; jobDetail := jobDetail m;
     searchInput := searchInput m; searching := searching m;
     filter := filter m; viewsScroll := viewsScroll m; jobsScroll := v;
     loading := loading m; lastError := lastError m;
     lastUpdate := lastUpdate m; spinner := spinner m |}.

Definition set_loading (v : bool) (m : ViewsModel) : ViewsModel :=
  {| width := width m; height := height m; mode := mode m; views := views m;
     selectedView := selectedView m; jobs := jobs m;
     selectedJob := selectedJob m; jobDetail := jobDetail m;
     searchInput := searchInput m; searching := searching m;
     filter := filter m; viewsScroll := viewsScroll m;
     jobsScroll := jobsScroll m; loading := v; lastError := lastError m;
     lastUpdate := lastUpdate m; spinner := spinner m |}.

Definition set_lastError (v : error) (m : ViewsModel) : ViewsModel :=
  {| width := width m; height := height m; mode := mode m; views := views m;
     selectedView := selectedView m; jobs := jobs m;
     selectedJob := selectedJob m; jobDetail := jobDetail m;
     searchInput := searchInput m; searching := searching m;
     filter := filter m; viewsScroll := viewsScroll m;
     jobsScroll := jobsScroll m; loading := loading m; lastError := v;
     lastUpdate := lastUpdate m; spinner := spinner m |}.

Definition set_lastUpdate (v : option Z) (m : ViewsModel) : ViewsModel :=
  {| width := width m; height := height m; mode := mode m; views := views m;
     selectedView := selectedView m; jobs := jobs m;
     selectedJob := selectedJob m; jobDetail := jobDetail m;
     searchInput := searchInput m; searching := searching m;
     filter := filter m; viewsScroll := viewsScroll m;
     jobsScroll := jobsScroll m; loading := loading m;
     lastError := lastError m; lastUpdate := v; spinner := spinner m |}.

Definition set_spinner (v : Spinner) (m : ViewsModel) : ViewsModel :=
  {| width := width m; height := height m; mode := mode m; views := views m;
     selectedView := selectedView m; jobs := jobs m;
     selectedJob := selectedJob m; jobDetail := jobDetail m;
     searchInput := searchInput m; searching := searching m;
     filter := filter m; viewsScroll := viewsScroll m;
     jobsScroll := jobsScroll m; loading := loading m;
     lastError := lastError m; lastUpdate := lastUpdate m; spinner := v |}.

Definition NewViewsModel (width height : Z) : ViewsModel :=
  {| width := width; height := height; mode := ViewsModeList;
     views := None; selectedView := 0; jobs := None; selectedJob := 0;
     jobDetail := None;
     searchInput := textinput_New; searching := false; filter := "";
     viewsScroll := 0; jobsScroll := 0;
     loading := true; lastError := None; lastUpdate := None;
     spinner := spinner_New |}.

Definition SetSize (w h : Z) (m : ViewsModel) : ViewsModel :=
  set_height h (set_width w m).

Definition LoadData (m : ViewsModel) : ViewsModel * Cmd :=
  (set_loading true m, tea_Batch [Views_fetchViews; SpinnerTick]).

Definition fetchViewJobs (viewName : string) (m : ViewsModel) : ViewsModel * Cmd :=
  (set_loading true m, Views_fetchViewJobs viewName).

Definition fetchJobDetail (jobName : string) (m : ViewsModel) : ViewsModel * Cmd :=
  (set_loading true m, Views_fetchJobDetail jobName).

Definition matches (flt name : string) : bool :=
  strings_Contains (strings_ToLower name) (strings_ToLower flt).

Definition getFilteredViews (m : ViewsModel) : slice View :=
  if negb (Config.nonEmpty (filter m)) then views m
  else appended (List.filter (fun v => matches (filter m) (View_Name v)) (elems (views m))).

Definition getFilteredJobs (m : ViewsModel) : slice Job :=
  if negb (Config.nonEmpty (filter m)) then jobs m
  else appended (List.filter (fun j => matches (filter m) (Job_Name j)) (elems (jobs m))).

Definition navigateDown (m : ViewsModel) : ViewsModel :=
  match mode m with
  | ViewsModeList =>
      if selectedView m <? len (getFilteredViews m) - 1 then
        let m := set_selectedView (selectedView m + 1) m in
        let listHeight := height m - 12 in
        if selectedView m >=? viewsScroll m + listHeight
        then set_viewsScroll (selectedView m - listHeight + 1) m else m
      else m
  | ViewsModeJobs =>
      if selectedJob m <? len (getFilteredJobs m) - 1 then
        let m := set_selectedJob (selectedJob m + 1) m in
        let listHeight := height m - 14 in
        if selectedJob m >=? jobsScroll m + listHeight
        then set_jobsScroll (selectedJob m - listHeight + 1) m else m
      else m
  | ViewsModeJobDetail => m
  end.

Definition navigateUp (m : ViewsModel) : ViewsModel :=
  match mode m with
  | ViewsModeList =>
      if selectedView m >? 0 then
        let m := set_selectedView (selectedView m - 1) m in
        if selectedView m <? viewsScroll m then set_viewsScroll (selectedView m) m else m
      else m
  | ViewsModeJobs =>
      if selectedJob m >? 0 then
        let m := set_selectedJob (selectedJob m - 1) m in
        if selectedJob m <? jobsScroll m then set_jobsScroll (selectedJob m) m else m
      else m
  | ViewsModeJobDetail => m
  end.

Definition pageDown (m : ViewsModel) : ViewsModel :=
  let pageSize := Z.quot (height m) 3 in
  match mode m with
  | ViewsModeList =>
      let m := set_selectedView
                 (Z.min (selectedView m + pageSize) (len (getFilteredViews m) - 1)) m in
      let listHeight := height m - 12 in
      if selectedView m >=? viewsScroll m + listHeight
      then set_viewsScroll (selectedView m - listHeight + 1) m else m
  | ViewsModeJobs =>
      let m := set_selectedJob
                 (Z.min (selectedJob m + pageSize) (len (getFilteredJobs m) - 1)) m in
      let listHeight := height m - 14 in
      if selectedJob m >=? jobsScroll m + listHeight
      then set_jobsScroll (selectedJob m - listHeight + 1) m else m
  | ViewsModeJobDetail => m
  end.

Definition pageUp (m : ViewsModel) : ViewsModel :=
  let pageSize := Z.quot (height m) 3 in
  match mode m with
  | ViewsModeList =>
      let m := set_selectedView (Z.max (selectedView m - pageSize) 0) m in
      if selectedView m <? viewsScroll m then set_viewsScroll (selectedView m) m else m
  | ViewsModeJobs =>
      let m := set_selectedJob (Z.max (selectedJob m - pageSize) 0) m in
      if selectedJob m <? jobsScroll m then set_jobsScroll (selectedJob m) m else m
  | ViewsModeJobDetail => m
  end.

(** The [esc] case of the key switch: one level up, dropping what the
    level left behind owns. *)
Definition back (m : ViewsModel) : ViewsModel :=
  match mode m with
  | ViewsModeJobDetail => set_jobDetail None (set_mode ViewsModeJobs m)
  | ViewsModeJobs =>
      set_jobsScroll 0 (set_selectedJob 0 (set_jobs None (set_mode ViewsModeList m)))
  | ViewsModeList => m
  end.

Section Handlers.

Context {sorter : SortSlice}.

(** The merge of one [ViewsDataMsg]. *)
Definition merge (now : Z) (d : ViewsData) (m : ViewsModel) : ViewsModel :=
  let m := set_loading false m in
  let m := set_lastUpdate (Some now) m in
  let m := match ViewsData_Views d with
           | Some vs => set_views (Some vs) m
           | None => m
           end in
  let m := match ViewsData_Jobs d with
           | Some js => set_jobs (SortJobsByLastBuild (Some js)) m
           | None => m
           end in
  let m := match ViewsData_JobDetail d with
           | Some jd => set_jobDetail (Some jd) m
           | None => m
           end in
  match ViewsData_Error d with
  | Some e => set_lastError (Some e) m
  | None => m
  end.

(** The key switch while the search box has the keyboard. *)
Definition searchKey (msg : Msg) (key : string) (m : ViewsModel) : ViewsModel * Cmd :=
  if String.eqb key "esc" then
    let m := set_searching false m in
    let m := set_searchInput (Blur (searchInput m)) m in
    let m := set_filter "" m in
    (set_searchInput (SetValue "" (searchInput m)) m, CmdNil)
  else if String.eqb key "enter" then
    let m := set_searching false m in
    let m := set_searchInput (Blur (searchInput m)) m in
    (set_filter (Value (searchInput m)) m, CmdNil)
  else
    let (t, cmd) := textinput_Update msg (searchInput m) in
    let m := set_searchInput t m in
    (set_filter (Value (searchInput m)) m, cmd).

(** The [enter] case. *)
Definition enter (m : ViewsModel) : Outcome (ViewsModel * Cmd) :=
  match mode m with
  | ViewsModeList =>
      if len (getFilteredViews m) >? 0 then
        let m := set_mode ViewsModeJobs m in
        bind (index (getFilteredViews m) (selectedView m))
             (fun v => Ok (fetchViewJobs (View_Name v) m))
      else Ok (m, tea_Batch [])
  | ViewsModeJobs =>
      let filteredJobs := getFilteredJobs m in
      if (len filteredJobs >? 0) && (selectedJob m <? len filteredJobs) then
        let m := set_mode ViewsModeJobDetail m in
        bind (index filteredJobs (selectedJob m))
             (fun j => Ok (fetchJobDetail (Job_Name j) m))
      else Ok (m, tea_Batch [])
  | ViewsModeJobDetail => Ok (m, tea_Batch [])
  end.

(** The [r] case. *)
Definition refresh (m : ViewsModel) : Outcome (ViewsModel * Cmd) :=
  match mode m with
  | ViewsModeList => Ok (LoadData m)
  | ViewsModeJobs =>
      bind (index (views m) (selectedView m))
           (fun v => Ok (fetchViewJobs (View_Name v) m))
  | ViewsModeJobDetail => Ok (m, tea_Batch [])
  end.

(** The [o] case: the URL of the selection.  Opening it belongs to the
    browser package; the handler only ignores the outcome. *)
Definition selectedURL (m : ViewsModel) : Outcome string :=
  match mode m with
  | ViewsModeList =>
      let filtered := getFilteredViews m in
      if (len filtered >? 0) && (selectedView m <? len filtered)
      then bind (index filtered (selectedView m)) (fun v => Ok (View_URL v))
      else Ok ""
  | ViewsModeJobs =>
      let filtered := getFilteredJobs m in
      if (len filtered >? 0) && (selectedJob m <? len filtered)
      then bind (index filtered (selectedJob m)) (fun j => Ok (Job_URL j))
      else Ok ""
  | ViewsModeJobDetail =>
      match jobDetail m with
      | Some jd => Ok (JobDetail_URL jd)
      | None => Ok ""
      end
  end.

(** The [G] case. *)
Definition goToBottom (m : ViewsModel) : ViewsModel :=
  match mode m with
  | ViewsModeList =>
      if len (getFilteredViews m) >? 0
      then set_selectedView (len (getFilteredViews m) - 1) m else m
  | ViewsModeJobs =>
      if len (getFilteredJobs m) >? 0
      then set_selectedJob (len (getFilteredJobs m) - 1) m else m
  | ViewsModeJobDetail => m
  end.

(** [ViewsModel.Update]. *)
Definition Update (sys : Sys) (msg : Msg) (m : ViewsModel) : Outcome (ViewsModel * Cmd) :=
  match msg with
  | ViewsDataMsg d => Ok (merge (now sys) d m, CmdNil)
  | SpinnerTickMsg =>
      if loading m then
        let (s, cmd) := spinner_Update msg (spinner m) in
        Ok (set_spinner s m, tea_Batch [cmd])
      else Ok (m, tea_Batch [])
  | KeyMsg k =>
      let key := key_String k in
      if searching m then Ok (searchKey msg key m)
      else if String.eqb key "/" then
        let m := set_searching true m in
        Ok (set_searchInput (Focus (searchInput m)) m, Blink)
      else if String.eqb key "esc" then Ok (back m, CmdNil)
      else if String.eqb key "enter" then enter m
      else if String.eqb key "o" then bind (selectedURL m) (fun _ => Ok (m, CmdNil))
      else if String.eqb key "r" then refresh m
      else if String.eqb key "j" || String.eqb key "down" then Ok (navigateDown m, tea_Batch [])
      else if String.eqb key "k" || String.eqb key "up" then Ok (navigateUp m, tea_Batch [])
      else if String.eqb key "g" then
        Ok (set_jobsScroll 0 (set_viewsScroll 0 (set_selectedJob 0 (set_selectedView 0 m))),
            tea_Batch [])
      else if String.eqb key "G" then Ok (goToBottom m, tea_Batch [])
      else if String.eqb key "pgdown" then Ok (pageDown m, tea_Batch [])
      else if String.eqb key "pgup" then Ok (pageUp m, tea_Batch [])
      else if String.eqb key "backspace" then
        if Config.nonEmpty (filter m)
        then
          let m := set_filter "" m in
          Ok (set_searchInput (SetValue "" (searchInput m)) m, tea_Batch [])
        else Ok (m, tea_Batch [])
      else Ok (m, tea_Batch [])
  | _ => Ok (m, tea_Batch [])
  end.

End Handlers.

End Views.

(* ===================================================================== *)
(** * internal/app: the builds tab                                        *)
(* ===================================================================== *)

Module Builds.

Import Models Tea.

Inductive BuildsMode : Type :=
| ModeJobList
| ModeBuildList
| ModeBuildDetail
| ModeStageLogView
| ModeLogView.

Definition isLogMode (md : BuildsMode) : bool :=
  match md with ModeLogView | ModeStageLogView => true | _ => false end.

Record BuildsModel : Type := mkBuildsModel {
  width : Z;
  height : Z;
  mode : BuildsMode;
  jobs : slice Job;
  selectedJob : Z;
  jobDetail : option JobDetail;
  builds : slice BuildRef;
  selectedBuild : Z;
  selectedStage : Z;
  buildDetail : option Build;
  pipelineRun : option PipelineRun;
  logContent : string;
  viewport : Viewport;
  paginator : Paginator;
  searchInput : TextInput;
  searching : bool;
  filter : string;
  pageSize : Z;
  currentPage : Z;
  totalBuilds : Z;
  followLog : bool;
  logSearchInput : TextInput;
  logSearching : bool;
  logFilter : string;
  jobsScroll : Z;
  buildsScroll : Z;
  loading : bool;
  lastError : error;
  lastUpdate : option Z;
  spinner : Spinner
}.

Definition set_width (v : Z) (m : BuildsModel) : BuildsModel :=
  {| width := v; height := height m; mode := mode m; jobs := jobs m;
     selectedJob := selectedJob m; jobDetail := jobDetail m;
     builds := builds m; selectedBuild := selectedBuild m;
     selectedStage := selectedStage m; buildDetail := buildDetail m;
     pipelineRun := pipelineRun m; logContent := logContent m;
     viewport := viewport m; paginator := paginator m;
     searchInput := searchInput m; searching := searching m;
     filter := filter m; pageSize := pageSize m;
     currentPage := currentPage m; totalBuilds := totalBuilds m;
     followLog := followLog m; logSearchInput := logSearchInput m;
     logSearching := logSearching m; logFilter := logFilter m;
     jobsScroll := jobsScroll m; buildsScroll := buildsScroll m;
     loading := loading m; lastError := lastError m;
     lastUpdate := lastUpdate m; spinner := spinner m |}.

Definition set_height (v : Z) (m : BuildsModel) : BuildsModel :=
  {| width := width m; height := v; mode := mode m; jobs := jobs m;
     selectedJob := selectedJob m; jobDetail := jobDetail m;
     builds := builds m; selectedBuild := selectedBuild m;
     selectedStage := selectedStage m; buildDetail := buildDetail m;
     pipelineRun := pipelineRun m; logContent := logContent m;
     viewport := viewport m; paginator := paginator m;
     searchInput := searchInput m; searching := searching m;
     filter := filter m; pageSize := pageSize m;
     currentPage := currentPage m; totalBuilds := totalBuilds m;
     followLog := followLog m; logSearchInput := logSearchInput m;
     logSearching := logSearching m; logFilter := logFilter m;
     jobsScroll := jobsScroll m; buildsScroll := buildsScroll m;
     loading := loading m; lastError := lastError m;
     lastUpdate := lastUpdate m; spinner := spinner m |}.

Definition set_mode (v : BuildsMode) (m : BuildsModel) : BuildsModel :=
  {| width := width m; height := height m; mode := v; jobs := jobs m;
     selectedJob := selectedJob m; jobDetail := jobDetail m;
     builds := builds m; selectedBuild := selectedBuild m;
     selectedStage := selectedStage m; buildDetail := buildDetail m;
     pipelineRun := pipelineRun m; logContent := logContent m;
     viewport := viewport m; paginator := paginator m;
     searchInput := searchInput m; searching := searching m;
     filter := filter m; pageSize := pageSize m;
     currentPage := currentPage m; totalBuilds := totalBuilds m;
     followLog := followLog m; logSearchInput := logSearchInput m;
     logSearching := logSearching m; logFilter := logFilter m;
     jobsScroll := jobsScroll m; buildsScroll := buildsScroll m;
     loading := loading m; lastError := lastError m;
     lastUpdate := lastUpdate m; spinner := spinner m |}.

Definition set_jobs (v : slice Job) (m : BuildsModel) : BuildsModel :=
  {| width := width m; height := height m; mode := mode m; jobs := v;
     selectedJob := selectedJob m; jobDetail := jobDetail m;
     builds := builds m; selectedBuild := selectedBuild m;
     selectedStage := selectedStage m; buildDetail := buildDetail m;
     pipelineRun := pipelineRun m; logContent := logContent m;
     viewport := viewport m; paginator := paginator m;
     searchInput := searchInput m; searching := searching m;
     filter := filter m; pageSize := pageSize m;
     currentPage := currentPage m; totalBuilds := totalBuilds m;
     followLog := followLog m; logSearchInput := logSearchInput m;
     logSearching := logSearching m; logFilter := logFilter m;
     jobsScroll := jobsScroll m; buildsScroll := buildsScroll m;
     loading := loading m; lastError := lastError m;
     lastUpdate := lastUpdate m; spinner := spinner m |}.

Definition set_selectedJob (v : Z) (m : BuildsModel) : BuildsModel :=
  {| width := width m; height := height m; mode := mode m; jobs := jobs m;
     selectedJob := v; jobDetail := jobDetail m; builds := builds m;
     selectedBuild := selectedBuild m; selectedStage := selectedStage m;
     buildDetail := buildDetail m; pipelineRun := pipelineRun m;
     logContent := logContent m; viewport := viewport m;
     paginator := paginator m; searchInput := searchInput m;
     searching := searching m; filter := filter m; pageSize := pageSize m;
     currentPage := currentPage m; totalBuilds := totalBuilds m;
     followLog := followLog m; logSearchInput := logSearchInput m;
     logSearching := logSearching m; logFilter := logFilter m;
     jobsScroll := jobsScroll m; buildsScroll := buildsScroll m;
     loading := loading m; lastError := lastError m;
     lastUpdate := lastUpdate m; spinner := spinner m |}.

Definition set_jobDetail (v : option JobDetail) (m : BuildsModel) : BuildsModel :=
  {| width := width m; height := height m; mode := mode m; jobs := jobs m;
     selectedJob := selectedJob m; jobDetail := v; builds := builds m;
     selectedBuild := selectedBuild m; selectedStage := selectedStage m;
     buildDetail := buildDetail m; pipelineRun := pipelineRun m;
     logContent := logContent m; viewport := viewport m;
     paginator := paginator m; searchInput := searchInput m;
     searching := searching m; filter := filter m; pageSize := pageSize m;
     currentPage := currentPage m; totalBuilds := totalBuilds m;
     followLog := followLog m; logSearchInput := logSearchInput m;
     logSearching := logSearching m; logFilter := logFilter m;
     jobsScroll := jobsScroll m; buildsScroll := buildsScroll m;
     loading := loading m; lastError := lastError m;
     lastUpdate := lastUpdate m; spinner := spinner m |}.

Definition set_builds (v : slice BuildRef) (m : BuildsModel) : BuildsModel :=
  {| width := width m; height := height m; mode := mode m; jobs := jobs m;
     selectedJob := selectedJob m; jobDetail := jobDetail m; builds := v;
     selectedBuild := selectedBuild m; selectedStage := selectedStage m;
     buildDetail := buildDetail m; pipelineRun := pipelineRun m;
     logContent := logContent m; viewport := viewport m;
     paginator := paginator m; searchInput := searchInput m;
     searching := searching m; filter := filter m; pageSize := pageSize m;
     currentPage := currentPage m; totalBuilds := totalBuilds m;
     followLog := followLog m; logSearchInput := logSearchInput m;
     logSearching := logSearching m; logFilter := logFilter m;
     jobsScroll := jobsScroll m; buildsScroll := buildsScroll m;
     loading := loading m; lastError := lastError m;
     lastUpdate := lastUpdate m; spinner := spinner m |}.

Definition set_selectedBuild (v : Z) (m : BuildsModel) : BuildsModel :=
  {| width := width m; height := height m; mode := mode m; jobs := jobs m;
     selectedJob := selectedJob m; jobDetail := jobDetail m;
     builds := builds m; selectedBuild := v;
     selectedStage := selectedStage m; buildDetail := buildDetail m;
     pipelineRun := pipelineRun m; logContent := logContent m;
     viewport := viewport m; paginator := paginator m;
     searchInput := searchInput m; searching := searching m;
     filter := filter m; pageSize := pageSize m;
     currentPage := currentPage m; totalBuilds := totalBuilds m;
     followLog := followLog m; logSearchInput := logSearchInput m;
     logSearching := logSearching m; logFilter := logFilter m;
     jobsScroll := jobsScroll m; buildsScroll := buildsScroll m;
     loading := loading m; lastError := lastError m;
     lastUpdate := lastUpdate m; spinner := spinner m |}.

Definition set_selectedStage (v : Z) (m : BuildsModel) : BuildsModel :=
  {| width := width m; height := height m; mode := mode m; jobs := jobs m;
     selectedJob := selectedJob m; jobDetail := jobDetail m;
     builds := builds m; selectedBuild := selectedBuild m;
     selectedStage := v; buildDetail := buildDetail m;
     pipelineRun := pipelineRun m; logContent := logContent m;
     viewport := viewport m; paginator := paginator m;
     searchInput := searchInput m; searching := searching m;
     filter := filter m; pageSize := pageSize m;
     currentPage := currentPage m; totalBuilds := totalBuilds m;
     followLog := followLog m; logSearchInput := logSearchInput m;
     logSearching := logSearching m; logFilter := logFilter m;
     jobsScroll := jobsScroll m; buildsScroll := buildsScroll m;
     loading := loading m; lastError := lastError m;
     lastUpdate := lastUpdate m; spinner := spinner m |}.

Definition set_buildDetail (v : option Build) (m : BuildsModel) : BuildsModel :=
  {| width := width m; height := height m; mode := mode m; jobs := jobs m;
     selectedJob := selectedJob m; jobDetail := jobDetail m;
     builds := builds m; selectedBuild := selectedBuild m;
     selectedStage := selectedStage m; buildDetail := v;
     pipelineRun := pipelineRun m; logContent := logContent m;
     viewport := viewport m; paginator := paginator m;
     searchInput := searchInput m; searching := searching m;
     filter := filter m; pageSize := pageSize m;
     currentPage := currentPage m; totalBuilds := totalBuilds m;
     followLog := followLog m; logSearchInput := logSearchInput m;
     logSearching := logSearching m; logFilter := logFilter m;
     jobsScroll := jobsScroll m; buildsScroll := buildsScroll m;
     loading := loading m; lastError := lastError m;
     lastUpdate := lastUpdate m; spinner := spinner m |}.

Definition set_pipelineRun (v : option PipelineRun) (m : BuildsModel) : BuildsModel :=
  {| width := width m; height := height m; mode := mode m; jobs := jobs m;
     selectedJob := selectedJob m; jobDetail := jobDetail m;
     builds := builds m; selectedBuild := selectedBuild m;
     selectedStage := selectedStage m; buildDetail := buildDetail m;
     pipelineRun := v; logContent := logContent m; viewport := viewport m;
     paginator := paginator m; searchInput := searchInput m;
     searching := searching m; filter := filter m; pageSize := pageSize m;
     currentPage := currentPage m; totalBuilds := totalBuilds m;
     followLog := followLog m; logSearchInput := logSearchInput m;
     logSearching := logSearching m; logFilter := logFilter m;
     jobsScroll := jobsScroll m; buildsScroll := buildsScroll m;
     loading := loading m; lastError := lastError m;
     lastUpdate := lastUpdate m; spinner := spinner m |}.

Definition set_logContent (v : string) (m : BuildsModel) : BuildsModel :=
  {| width := width m; height := height m; mode := mode m; jobs := jobs m;
     selectedJob := selectedJob m; jobDetail := jobDetail m;
     builds := builds m; selectedBuild := selectedBuild m;
     selectedStage := selectedStage m; buildDetail := buildDetail m;
     pipelineRun := pipelineRun m; logContent := v; viewport := viewport m;
     paginator := paginator m; searchInput := searchInput m;
     searching := searching m; filter := filter m; pageSize := pageSize m;
     currentPage := currentPage m; totalBuilds := totalBuilds m;
     followLog := followLog m; logSearchInput := logSearchInput m;
     logSearching := logSearching m; logFilter := logFilter m;
     jobsScroll := jobsScroll m; buildsScroll := buildsScroll m;
     loading := loading m; lastError := lastError m;
     lastUpdate := lastUpdate m; spinner := spinner m |}.

Definition set_viewport (v : Viewport) (m : BuildsModel) : BuildsModel :=
  {| width := width m; height := height m; mode := mode m; jobs := jobs m;
     selectedJob := selectedJob m; jobDetail := jobDetail m;
     builds := builds m; selectedBuild := selectedBuild m;
     selectedStage := selectedStage m; buildDetail := buildDetail m;
     pipelineRun := pipelineRun m; logContent := logContent m; viewport := v;
     paginator := paginator m; searchInput := searchInput m;
     searching := searching m; filter := filter m; pageSize := pageSize m;
     currentPage := currentPage m; totalBuilds := totalBuilds m;
     followLog := followLog m; logSearchInput := logSearchInput m;
     logSearching := logSearching m; logFilter := logFilter m;
     jobsScroll := jobsScroll m; buildsScroll := buildsScroll m;
     loading := loading m; lastError := lastError m;
     lastUpdate := lastUpdate m; spinner := spinner m |}.

Definition set_paginator (v : Paginator) (m : BuildsModel) : BuildsModel :=
  {| width := width m; height := height m; mode := mode m; jobs := jobs m;
     selectedJob := selectedJob m; jobDetail := jobDetail m;
     builds := builds m; selectedBuild := selectedBuild m;
     selectedStage := selectedStage m; buildDetail := buildDetail m;
     pipelineRun := pipelineRun m; logContent := logContent m;
     viewport := viewport m; paginator := v; searchInput := searchInput m;
     searching := searching m; filter := filter m; pageSize := pageSize m;
     currentPage := currentPage m; totalBuilds := totalBuilds m;
     followLog := followLog m; logSearchInput := logSearchInput m;
     logSearching := logSearching m; logFilter := logFilter m;
     jobsScroll := jobsScroll m; buildsScroll := buildsScroll m;
     loading := loading m; lastError := lastError m;
     lastUpdate := lastUpdate m; spinner := spinner m |}.

Definition set_searchInput (v : TextInput) (m : BuildsModel) : BuildsModel :=
  {| width := width m; height := height m; mode := mode m; jobs := jobs m;
     selectedJob := selectedJob m; jobDetail := jobDetail m;
     builds := builds m; selectedBuild := selectedBuild m;
     selectedStage := selectedStage m; buildDetail := buildDetail m;
     pipelineRun := pipelineRun m; logContent := logContent m;
     viewport := viewport m; paginator := paginator m; searchInput := v;
     searching := searching m; filter := filter m; pageSize := pageSize m;
     currentPage := currentPage m; totalBuilds := totalBuilds m;
     followLog := followLog m; logSearchInput := logSearchInput m;
     logSearching := logSearching m; logFilter := logFilter m;
     jobsScroll := jobsScroll m; buildsScroll := buildsScroll m;
     loading := loading m; lastError := lastError m;
     lastUpdate := lastUpdate m; spinner := spinner m |}.

Definition set_searching (v : bool) (m : BuildsModel) : BuildsModel :=
  {| width := width m; height := height m; mode := mode m; jobs := jobs m;
     selectedJob := selectedJob m; jobDetail := jobDetail m;
     builds := builds m; selectedBuild := selectedBuild m;
     selectedStage := selectedStage m; buildDetail := buildDetail m;
     pipelineRun := pipelineRun m; logContent := logContent m;
     viewport := viewport m; paginator := paginator m;
     searchInput := searchInput m; searching := v; filter := filter m;
     pageSize := pageSize m; currentPage := currentPage m;
     totalBuilds := totalBuilds m; followLog := followLog m;
     logSearchInput := logSearchInput m; logSearching := logSearching m;
     logFilter := logFilter m; jobsScroll := jobsScroll m;
     buildsScroll := buildsScroll m; loading := loading m;
     lastError := lastError m; lastUpdate := lastUpdate m;
     spinner := spinner m |}.

Definition set_filter (v : string) (m : BuildsModel) : BuildsModel :=
  {| width := width m; height := height m; mode := mode m; jobs := jobs m;
     selectedJob := selectedJob m; jobDetail := jobDetail m;
     builds := builds m; selectedBuild := selectedBuild m;
     selectedStage := selectedStage m; buildDetail := buildDetail m;
     pipelineRun := pipelineRun m; logContent := logContent m;
     viewport := viewport m; paginator := paginator m;
     searchInput := searchInput m; searching := searching m; filter := v;
     pageSize := pageSize m; currentPage := currentPage m;
     totalBuilds := totalBuilds m; followLog := followLog m;
     logSearchInput := logSearchInput m; logSearching := logSearching m;
     logFilter := logFilter m; jobsScroll := jobsScroll m;
     buildsScroll := buildsScroll m; loading := loading m;
     lastError := lastError m; lastUpdate := lastUpdate m;
     spinner := spinner m |}.

Definition set_pageSize (v : Z) (m : BuildsModel) : BuildsModel :=
  {| width := width m; height := height m; mode := mode m; jobs := jobs m;
     selectedJob := selectedJob m; jobDetail := jobDetail m;
     builds := builds m; selectedBuild := selectedBuild m;
     selectedStage := selectedStage m; buildDetail := buildDetail m;
     pipelineRun := pipelineRun m; logContent := logContent m;
     viewport := viewport m; paginator := paginator m;
     searchInput := searchInput m; searching := searching m;
     filter := filter m; pageSize := v; currentPage := currentPage m;
     totalBuilds := totalBuilds m; followLog := followLog m;
     logSearchInput := logSearchInput m; logSearching := logSearching m;
     logFilter := logFilter m; jobsScroll := jobsScroll m;
     buildsScroll := buildsScroll m; loading := loading m;
     lastError := lastError m; lastUpdate := lastUpdate m;
     spinner := spinner m |}.

Definition set_currentPage (v : Z) (m : BuildsModel) : BuildsModel :=
  {| width := width m; height := height m; mode := mode m; jobs := jobs m;
     selectedJob := selectedJob m; jobDetail := jobDetail m;
     builds := builds m; selectedBuild := selectedBuild m;
     selectedStage := selectedStage m; buildDetail := buildDetail m;
     pipelineRun := pipelineRun m; logContent := logContent m;
     viewport := viewport m; paginator := paginator m;
     searchInput := searchInput m; searching := searching m;
     filter := filter m; pageSize := pageSize m; currentPage := v;
     totalBuilds := totalBuilds m; followLog := followLog m;
     logSearchInput := logSearchInput m; logSearching := logSearching m;
     logFilter := logFilter m; jobsScroll := jobsScroll m;
     buildsScroll := buildsScroll m; loading := loading m;
     lastError := lastError m; lastUpdate := lastUpdate m;
     spinner := spinner m |}.

Definition set_totalBuilds (v : Z) (m : BuildsModel) : BuildsModel :=
  {| width := width m; height := height m; mode := mode m; jobs := jobs m;
     selectedJob := selectedJob m; jobDetail := jobDetail m;
     builds := builds m; selectedBuild := selectedBuild m;
     selectedStage := selectedStage m; buildDetail := buildDetail m;
     pipelineRun := pipelineRun m; logContent := logContent m;
     viewport := viewport m; paginator := paginator m;
     searchInput := searchInput m; searching := searching m;
     filter := filter m; pageSize := pageSize m;
     currentPage := currentPage m; totalBuilds := v;
     followLog := followLog m; logSearchInput := logSearchInput m;
     logSearching := logSearching m; logFilter := logFilter m;
     jobsScroll := jobsScroll m; buildsScroll := buildsScroll m;
     loading := loading m; lastError := lastError m;
     lastUpdate := lastUpdate m; spinner := spinner m |}.

Definition set_followLog (v : bool) (m : BuildsModel) : BuildsModel :=
  {| width := width m; height := height m; mode := mode m; jobs := jobs m;
     selectedJob := selectedJob m; jobDetail := jobDetail m;
     builds := builds m; selectedBuild := selectedBuild m;
     selectedStage := selectedStage m; buildDetail := buildDetail m;
     pipelineRun := pipelineRun m; logContent := logContent m;
     viewport := viewport m; paginator := paginator m;
     searchInput := searchInput m; searching := searching m;
     filter := filter m; pageSize := pageSize m;
     currentPage := currentPage m; totalBuilds := totalBuilds m;
     followLog := v; logSearchInput := logSearchInput m;
     logSearching := logSearching m; logFilter := logFilter m;
     jobsScroll := jobsScroll m; buildsScroll := buildsScroll m;
     loading := loading m; lastError := lastError m;
     lastUpdate := lastUpdate m; spinner := spinner m |}.

Definition set_logSearchInput (v : TextInput) (m : BuildsModel) : BuildsModel :=
  {| width := width m; height := height m; mode := mode m; jobs := jobs m;
     selectedJob := selectedJob m; jobDetail := jobDetail m;
     builds := builds m; selectedBuild := selectedBuild m;
     selectedStage := selectedStage m; buildDetail := buildDetail m;
     pipelineRun := pipelineRun m; logContent := logContent m;
     viewport := viewport m; paginator := paginator m;
     searchInput := searchInput m; searching := searching m;
     filter := filter m; pageSize := pageSize m;
     currentPage := currentPage m; totalBuilds := totalBuilds m;
     followLog := followLog m; logSearchInput := v;
     logSearching := logSearching m; logFilter := logFilter m;
     jobsScroll := jobsScroll m; buildsScroll := buildsScroll m;
     loading := loading m; lastError := lastError m;
     lastUpdate := lastUpdate m; spinner := spinner m |}.

Definition set_logSearching (v : bool) (m : BuildsModel) : BuildsModel :=
  {| width := width m; height := height m; mode := mode m; jobs := jobs m;
     selectedJob := selectedJob m; jobDetail := jobDetail m;
     builds := builds m; selectedBuild := selectedBuild m;
     selectedStage := selectedStage m; buildDetail := buildDetail m;
     pipelineRun := pipelineRun m; logContent := logContent m;
     viewport := viewport m; paginator := paginator m;
     searchInput := searchInput m; searching := searching m;
     filter := filter m; pageSize := pageSize m;
     currentPage := currentPage m; totalBuilds := totalBuilds m;
     followLog := followLog m; logSearchInput := logSearchInput m;
     logSearching := v; logFilter := logFilter m; jobsScroll := jobsScroll m;
     buildsScroll := buildsScroll m; loading := loading m;
     lastError := lastError m; lastUpdate := lastUpdate m;
     spinner := spinner m |}.

Definition set_logFilter (v : string) (m : BuildsModel) : BuildsModel :=
  {| width := width m; height := height m; mode := mode m; jobs := jobs m;
     selectedJob := selectedJob m; jobDetail := jobDetail m;
     builds := builds m; selectedBuild := selectedBuild m;
     selectedStage := selectedStage m; buildDetail := buildDetail m;
     pipelineRun := pipelineRun m; logContent := logContent m;
     viewport := viewport m; paginator := paginator m;
     searchInput := searchInput m; searching := searching m;
     filter := filter m; pageSize := pageSize m;
     currentPage := currentPage m; totalBuilds := totalBuilds m;
     followLog := followLog m; logSearchInput := logSearchInput m;
     logSearching := logSearching m; logFilter := v;
     jobsScroll := jobsScroll m; buildsScroll := buildsScroll m;
     loading := loading m; lastError := lastError m;
     lastUpdate := lastUpdate m; spinner := spinner m |}.

Definition set_jobsScroll (v : Z) (m : BuildsModel) : BuildsModel :=
  {| width := width m; height := height m; mode := mode m; jobs := jobs m;
     selectedJob := selectedJob m; jobDetail := jobDetail m;
     builds := builds m; selectedBuild := selectedBuild m;
     selectedStage := selectedStage m; buildDetail := buildDetail m;
     pipelineRun := pipelineRun m; logContent := logContent m;
     viewport := viewport m; paginator := paginator m;
     searchInput := searchInput m; searching := searching m;
     filter := filter m; pageSize := pageSize m;
     currentPage := currentPage m; totalBuilds := totalBuilds m;
     followLog := followLog m; logSearchInput := logSearchInput m;
     logSearching := logSearching m; logFilter := logFilter m;
     jobsScroll := v; buildsScroll := buildsScroll m; loading := loading m;
     lastError := lastError m; lastUpdate := lastUpdate m;
     spinner := spinner m |}.

Definition set_buildsScroll (v : Z) (m : BuildsModel) : BuildsModel :=
  {| width := width m; height := height m; mode := mode m; jobs := jobs m;
     selectedJob := selectedJob m; jobDetail := jobDetail m;
     builds := builds m; selectedBuild := selectedBuild m;
     selectedStage := selectedStage m; buildDetail := buildDetail m;
     pipelineRun := pipelineRun m; logContent := logContent m;
     viewport := viewport m; paginator := paginator m;
     searchInput := searchInput m; searching := searching m;
     filter := filter m; pageSize := pageSize m;
     currentPage := currentPage m; totalBuilds := totalBuilds m;
     followLog := followLog m; logSearchInput := logSearchInput m;
     logSearching := logSearching m; logFilter := logFilter m;
     jobsScroll := jobsScroll m; buildsScroll := v; loading := loading m;
     lastError := lastError m; lastUpdate := lastUpdate m;
     spinner := spinner m |}.

Definition set_loading (v : bool) (m : BuildsModel) : BuildsModel :=
  {| width := width m; height := height m; mode := mode m; jobs := jobs m;
     selectedJob := selectedJob m; jobDetail := jobDetail m;
     builds := builds m; selectedBuild := selectedBuild m;
     selectedStage := selectedStage m; buildDetail := buildDetail m;
     pipelineRun := pipelineRun m; logContent := logContent m;
     viewport := viewport m; paginator := paginator m;
     searchInput := searchInput m; searching := searching m;
     filter := filter m; pageSize := pageSize m;
     currentPage := currentPage m; totalBuilds := totalBuilds m;
     followLog := followLog m; logSearchInput := logSearchInput m;
     logSearching := logSearching m; logFilter := logFilter m;
     jobsScroll := jobsScroll m; buildsScroll := buildsScroll m;
     loading := v; lastError := lastError m; lastUpdate := lastUpdate m;
     spinner := spinner m |}.

Definition set_lastError (v : error) (m : BuildsModel) : BuildsModel :=
  {| width := width m; height := height m; mode := mode m; jobs := jobs m;
     selectedJob := selectedJob m; jobDetail := jobDetail m;
     builds := builds m; selectedBuild := selectedBuild m;
     selectedStage := selectedStage m; buildDetail := buildDetail m;
     pipelineRun := pipelineRun m; logContent := logContent m;
     viewport := viewport m; paginator := paginator m;
     searchInput := searchInput m; searching := searching m;
     filter := filter m; pageSize := pageSize m;
     currentPage := currentPage m; totalBuilds := totalBuilds m;
     followLog := followLog m; logSearchInput := logSearchInput m;
     logSearching := logSearching m; logFilter := logFilter m;
     jobsScroll := jobsScroll m; buildsScroll := buildsScroll m;
     loading := loading m; lastError := v; lastUpdate := lastUpdate m;
     spinner := spinner m |}.

Definition set_lastUpdate (v : option Z) (m : BuildsModel) : BuildsModel :=
  {| width := width m; height := height m; mode := mode m; jobs := jobs m;
     selectedJob := selectedJob m; jobDetail := jobDetail m;
     builds := builds m; selectedBuild := selectedBuild m;
     selectedStage := selectedStage m; buildDetail := buildDetail m;
     pipelineRun := pipelineRun m; logContent := logContent m;
     viewport := viewport m; paginator := paginator m;
     searchInput := searchInput m; searching := searching m;
     filter := filter m; pageSize := pageSize m;
     currentPage := currentPage m; totalBuilds := totalBuilds m;
     followLog := followLog m; logSearchInput := logSearchInput m;
     logSearching := logSearching m; logFilter := logFilter m;
     jobsScroll := jobsScroll m; buildsScroll := buildsScroll m;
     loading := loading m; lastError := lastError m; lastUpdate := v;
     spinner := spinner m |}.

Definition set_spinner (v : Spinner) (m : BuildsModel) : BuildsModel :=
  {| width := width m; height := height m; mode := mode m; jobs := jobs m;
     selectedJob := selectedJob m; jobDetail := jobDetail m;
     builds := builds m; selectedBuild := selectedBuild m;
     selectedStage := selectedStage m; buildDetail := buildDetail m;
     pipelineRun := pipelineRun m; logContent := logContent m;
     viewport := viewport m; paginator := paginator m;
     searchInput := searchInput m; searching := searching m;
     filter := filter m; pageSize := pageSize m;
     currentPage := currentPage m; totalBuilds := totalBuilds m;
     followLog := followLog m; logSearchInput := logSearchInput m;
     logSearching := logSearching m; logFilter := logFilter m;
     jobsScroll := jobsScroll m; buildsScroll := buildsScroll m;
     loading := loading m; lastError := lastError m;
     lastUpdate := lastUpdate m; spinner := v |}.

Definition NewBuildsModel (width height : Z) : BuildsModel :=
  {| width := width; height := height; mode := ModeJobList;
     jobs := None; selectedJob := 0; jobDetail := None;
     builds := None; selectedBuild := 0; selectedStage := 0;
     buildDetail := None; pipelineRun := None; logContent := "";
     viewport := viewport_New width (height - 10);
     paginator := {| PerPage := 20; Page := 0; TotalPages := 1 |};
     searchInput := textinput_New; searching := false; filter := "";
     pageSize := 20; currentPage := 0; totalBuilds := 0;
     followLog := false; logSearchInput := textinput_New;
     logSearching := false; logFilter := "";
     jobsScroll := 0; buildsScroll := 0;
     loading := true; lastError := None; lastUpdate := None;
     spinner := spinner_New |}.

Definition SetSize (w h : Z) (m : BuildsModel) : BuildsModel :=
  let m := set_height h (set_width w m) in
  set_viewport (viewport_SetSize (w - 4) (h - 12) (viewport m)) m.

Definition LoadData (m : BuildsModel) : BuildsModel * Cmd :=
  (set_loading true m, tea_Batch [Builds_fetchJobs; SpinnerTick]).

Definition fetchJobDetail (jobName : string) (m : BuildsModel) : BuildsModel * Cmd :=
  (set_loading true m, Builds_fetchJobDetail jobName).

Definition fetchBuildDetail (jobName : string) (buildNum : Z) (m : BuildsModel)
  : BuildsModel * Cmd :=
  (set_loading true m, Builds_fetchBuildDetail jobName buildNum).

Definition fetchBuildLog (jobName : string) (buildNum : Z) (m : BuildsModel)
  : BuildsModel * Cmd :=
  (set_loading true m, Builds_fetchBuildLog jobName buildNum).

Definition fetchStageLog (jobName : string) (buildNum : Z) (stageID : string)
  (m : BuildsModel) : BuildsModel * Cmd :=
  (set_loading true m, Builds_fetchStageLog jobName buildNum stageID).

Definition getFilteredJobs (m : BuildsModel) : slice Job :=
  if negb (Config.nonEmpty (filter m)) then jobs m
  else appended
         (List.filter (fun j => Views.matches (filter m) (Job_Name j)) (elems (jobs m))).

Definition newline : ascii := ascii_of_nat 10.

Fixpoint padLeft (n : nat) (s : string) : string :=
  match n with
  | O => s
  | S k => if (String.length s <? n)%nat then String " " (padLeft k s) else s
  end.

(** [formatLogContent]: a right-aligned line number in front of every
    line.  The theme styles are taken in a colourless terminal, where
    rendering a line returns it unchanged. *)
Definition formatLogContent (content : string) : string :=
  let lines := strings_Split content newline in
  let numWidth := String.length (fmt_d (Z.of_nat (length lines))) in
  let formatted :=
    imap (fun i line => padLeft numWidth (fmt_d (Z.of_nat i + 1)) ++ "│ " ++ line) lines in
  strings_Join formatted (String newline EmptyString).

(** [highlightLogSearch]: with styles that render unchanged, replacing
    the filter by its rendering leaves the formatted log as it is. *)
Definition highlightLogSearch (m : BuildsModel) : BuildsModel :=
  set_viewport (SetContent (formatLogContent (logContent m)) (viewport m)) m.

Definition stages (m : BuildsModel) : slice Stage :=
  match pipelineRun m with
  | Some p => PipelineRun_Stages p
  | None => None
  end.

Definition navigateDown (m : BuildsModel) : BuildsModel :=
  match mode m with
  | ModeJobList =>
      if selectedJob m <? len (getFilteredJobs m) - 1 then
        let m := set_selectedJob (selectedJob m + 1) m in
        let listHeight := height m - 14 in
        if selectedJob m >=? jobsScroll m + listHeight
        then set_jobsScroll (selectedJob m - listHeight + 1) m else m
      else m
  | ModeBuildList =>
      if selectedBuild m <? len (builds m) - 1 then
        let m := set_selectedBuild (selectedBuild m + 1) m in
        let listHeight := height m - 14 in
        if selectedBuild m >=? buildsScroll m + listHeight
        then set_buildsScroll (selectedBuild m - listHeight + 1) m else m
      else m
  | ModeBuildDetail =>
      match pipelineRun m with
      | Some p => if selectedStage m <? len (PipelineRun_Stages p) - 1
                  then set_selectedStage (selectedStage m + 1) m else m
      | None => m
      end
  | _ => m
  end.

Definition navigateUp (m : BuildsModel) : BuildsModel :=
  match mode m with
  | ModeJobList =>
      if selectedJob m >? 0 then
        let m := set_selectedJob (selectedJob m - 1) m in
        if selectedJob m <? jobsScroll m then set_jobsScroll (selectedJob m) m else m
      else m
  | ModeBuildList =>
      if selectedBuild m >? 0 then
        let m := set_selectedBuild (selectedBuild m - 1) m in
        if selectedBuild m <? buildsScroll m then set_buildsScroll (selectedBuild m) m else m
      else m
  | ModeBuildDetail =>
      if selectedStage m >? 0 then set_selectedStage (selectedStage m - 1) m else m
  | _ => m
  end.

Definition pageDown (m : BuildsModel) : BuildsModel :=
  let pageSize := Z.quot (height m) 3 in
  match mode m with
  | ModeJobList =>
      let m := set_selectedJob
                 (Z.min (selectedJob m + pageSize) (len (getFilteredJobs m) - 1)) m in
      let listHeight := height m - 14 in
      if selectedJob m >=? jobsScroll m + listHeight
      then set_jobsScroll (selectedJob m - listHeight + 1) m else m
  | ModeBuildList =>
      let m := set_selectedBuild
                 (Z.min (selectedBuild m + pageSize) (len (builds m) - 1)) m in
      let listHeight := height m - 14 in
      if selectedBuild m >=? buildsScroll m + listHeight
      then set_buildsScroll (selectedBuild m - listHeight + 1) m else m
  | _ => m
  end.

Definition pageUp (m : BuildsModel) : BuildsModel :=
  let pageSize := Z.quot (height m) 3 in
  match mode m with
  | ModeJobList =>
      let m := set_selectedJob (Z.max (selectedJob m - pageSize) 0) m in
      if selectedJob m <? jobsScroll m then set_jobsScroll (selectedJob m) m else m
  | ModeBuildList =>
      let m := set_selectedBuild (Z.max (selectedBuild m - pageSize) 0) m in
      if selectedBuild m <? buildsScroll m then set_buildsScroll (selectedBuild m) m else m
  | _ => m
  end.

(** The [esc] case of the key switch. *)
Definition back (m : BuildsModel) : BuildsModel :=
  match mode m with
  | ModeLogView | ModeStageLogView =>
      set_logFilter "" (set_logContent "" (set_mode ModeBuildDetail m))
  | ModeBuildDetail =>
      set_pipelineRun None (set_buildDetail None (set_mode ModeBuildList m))
  | ModeBuildList =>
      set_buildsScroll 0
        (set_selectedBuild 0
           (set_builds None (set_jobDetail None (set_mode ModeJobList m))))
  | ModeJobList => m
  end.

Section Handlers.

Context {sorter : SortSlice}.

(** The merge of one [BuildsDataMsg].  [m.builds] shares its array with
    [m.jobDetail.Builds], so the sort shows through both. *)
Definition merge (now : Z) (d : BuildsData) (m : BuildsModel) : Outcome BuildsModel :=
  let m := set_loading false m in
  let m := set_lastUpdate (Some now) m in
  let m := match BuildsData_Jobs d with
           | Some js => set_jobs (SortJobsByLastBuild (Some js)) m
           | None => m
           end in
  bind (match BuildsData_JobDetail d with
        | Some jd =>
            let sorted := SortBuildsByNumber (JobDetail_Builds jd) in
            let m := set_jobDetail (Some (JobDetail_setBuilds sorted jd)) m in
            let m := set_builds sorted m in
            let m := set_totalBuilds (len (builds m)) m in
            if pageSize m =? 0 then Panic
            else bind (SetTotalPages
                         (Z.quot (totalBuilds m + pageSize m - 1) (pageSize m))
                         (paginator m))
                      (fun p => Ok (set_paginator p m))
        | None => Ok m
        end)
       (fun m =>
          let m := match BuildsData_BuildDetail d with
                   | Some b => set_buildDetail (Some b) m
                   | None => m
                   end in
          let m := match BuildsData_PipelineRun d with
                   | Some p => set_pipelineRun (Some p) m
                   | None => m
                   end in
          let m := if Config.nonEmpty (BuildsData_LogContent d) then
                     let m := set_logContent (BuildsData_LogContent d) m in
                     let m := set_viewport
                                (SetContent (formatLogContent (logContent m)) (viewport m)) m in
                     if followLog m then set_viewport (GotoBottom (viewport m)) m else m
                   else m in
          Ok (match BuildsData_Error d with
              | Some e => set_lastError (Some e) m
              | None => m
              end)).

Definition searchKey (msg : Msg) (key : string) (m : BuildsModel) : BuildsModel * Cmd :=
  if String.eqb key "esc" then
    let m := set_searching false m in
    let m := set_searchInput (Blur (searchInput m)) m in
    let m := set_filter "" m in
    (set_searchInput (SetValue "" (searchInput m)) m, CmdNil)
  else if String.eqb key "enter" then
    let m := set_searching false m in
    let m := set_searchInput (Blur (searchInput m)) m in
    (set_filter (Value (searchInput m)) m, CmdNil)
  else
    let (t, cmd) := textinput_Update msg (searchInput m) in
    (set_searchInput t m, cmd).

Definition logSearchKey (msg : Msg) (key : string) (m : BuildsModel) : BuildsModel * Cmd :=
  if String.eqb key "esc" then
    let m := set_logSearching false m in
    (set_logSearchInput (Blur (logSearchInput m)) m, CmdNil)
  else if String.eqb key "enter" then
    let m := set_logSearching false m in
    let m := set_logSearchInput (Blur (logSearchInput m)) m in
    let m := set_logFilter (Value (logSearchInput m)) m in
    (highlightLogSearch m, CmdNil)
  else
    let (t, cmd) := textinput_Update msg (logSearchInput m) in
    (set_logSearchInput t m, cmd).

Definition enter (m : BuildsModel) : Outcome (BuildsModel * Cmd) :=
  match mode m with
  | ModeJobList =>
      let filtered := getFilteredJobs m in
      if (len filtered >? 0) && (selectedJob m <? len filtered) then
        let m := set_mode ModeBuildList m in
        bind (index filtered (selectedJob m))
             (fun j => Ok (fetchJobDetail (Job_Name j) m))
      else Ok (m, tea_Batch [])
  | ModeBuildList =>
      if (len (builds m) >? 0) && (selectedBuild m <? len (builds m)) then
        let m := set_mode ModeBuildDetail m in
        bind (deref (jobDetail m)) (fun jd =>
        bind (index (builds m) (selectedBuild m)) (fun b =>
        Ok (fetchBuildDetail (JobDetail_Name jd) (BuildRef_Number b) m)))
      else Ok (m, tea_Batch [])
  | ModeBuildDetail =>
      match pipelineRun m with
      | Some p =>
          if len (PipelineRun_Stages p) >? 0 then
            let m := set_mode ModeStageLogView m in
            bind (index (PipelineRun_Stages p) (selectedStage m)) (fun stage =>
            bind (deref (jobDetail m)) (fun jd =>
            bind (deref (buildDetail m)) (fun bd =>
            Ok (fetchStageLog (JobDetail_Name jd) (Build_Number bd) (Stage_ID stage) m))))
          else Ok (m, tea_Batch [])
      | None => Ok (m, tea_Batch [])
      end
  | _ => Ok (m, tea_Batch [])
  end.

(** The [l] case. *)
Definition openLog (m : BuildsModel) : Outcome (BuildsModel * Cmd) :=
  match mode m, jobDetail m with
  | ModeBuildList, Some jd =>
      bind (if len (builds m) >? 0
            then bind (index (builds m) (selectedBuild m))
                      (fun b => Ok (BuildRef_Number b))
            else Ok 0)
           (fun buildNum =>
              if buildNum >? 0
              then Ok (fetchBuildLog (JobDetail_Name jd) buildNum (set_mode ModeLogView m))
              else Ok (m, tea_Batch []))
  | ModeBuildDetail, Some jd =>
      let buildNum := match buildDetail m with
                      | Some bd => Build_Number bd
                      | None => 0
                      end in
      if buildNum >? 0
      then Ok (fetchBuildLog (JobDetail_Name jd) buildNum (set_mode ModeLogView m))
      else Ok (m, tea_Batch [])
  | _, _ => Ok (m, tea_Batch [])
  end.

(** The [r] case. *)
Definition refresh (m : BuildsModel) : Outcome (BuildsModel * Cmd) :=
  match mode m with
  | ModeJobList => Ok (LoadData m)
  | ModeBuildList =>
      match jobDetail m with
      | Some jd => Ok (fetchJobDetail (JobDetail_Name jd) m)
      | None => Ok (m, tea_Batch [])
      end
  | ModeLogView =>
      match jobDetail m, buildDetail m with
      | Some jd, Some bd => Ok (fetchBuildLog (JobDetail_Name jd) (Build_Number bd) m)
      | _, _ => Ok (m, tea_Batch [])
      end
  | ModeStageLogView =>
      match jobDetail m, buildDetail m with
      | Some jd, Some bd =>
          bind (deref (pipelineRun m)) (fun p =>
          bind (index (PipelineRun_Stages p) (selectedStage m)) (fun stage =>
          Ok (fetchStageLog (JobDetail_Name jd) (Build_Number bd) (Stage_ID stage) m)))
      | _, _ => Ok (m, tea_Batch [])
      end
  | ModeBuildDetail => Ok (m, tea_Batch [])
  end.

(** The [o] case: the URL of the selection. *)
Definition selectedURL (m : BuildsModel) : Outcome string :=
  match mode m with
  | ModeJobList =>
      let filtered := getFilteredJobs m in
      if (len filtered >? 0) && (selectedJob m <? len filtered)
      then bind (index filtered (selectedJob m)) (fun j => Ok (Job_URL j))
      else Ok ""
  | ModeBuildList =>
      if (len (builds m) >? 0) && (selectedBuild m <? len (builds m))
      then bind (index (builds m) (selectedBuild m)) (fun b => Ok (BuildRef_URL b))
      else Ok ""
  | ModeBuildDetail =>
      match buildDetail m with
      | Some bd => Ok (Build_URL bd)
      | None => Ok ""
      end
  | ModeLogView | ModeStageLogView =>
      match buildDetail m with
      | Some bd => Ok (Build_URL bd ++ "console")
      | None => Ok ""
      end
  end.

Definition goToTop (m : BuildsModel) : BuildsModel :=
  let m := set_buildsScroll 0
             (set_jobsScroll 0 (set_selectedBuild 0 (set_selectedJob 0 m))) in
  if isLogMode (mode m) then set_viewport (GotoTop (viewport m)) m else m.

Definition goToBottom (m : BuildsModel) : BuildsModel :=
  match mode m with
  | ModeJobList =>
      if len (getFilteredJobs m) >? 0
      then set_selectedJob (len (getFilteredJobs m) - 1) m else m
  | ModeBuildList =>
      if len (builds m) >? 0 then set_selectedBuild (len (builds m) - 1) m else m
  | ModeLogView | ModeStageLogView => set_viewport (GotoBottom (viewport m)) m
  | ModeBuildDetail => m
  end.

(** [BuildsModel.Update]. *)
Definition Update (sys : Sys) (msg : Msg) (m : BuildsModel) : Outcome (BuildsModel * Cmd) :=
  match msg with
  | BuildsDataMsg d => bind (merge (now sys) d m) (fun m => Ok (m, CmdNil))
  | SpinnerTickMsg =>
      if loading m then
        let (s, cmd) := spinner_Update msg (spinner m) in
        Ok (set_spinner s m, tea_Batch [cmd])
      else Ok (m, tea_Batch [])
  | KeyMsg k =>
      let key := key_String k in
      if searching m then Ok (searchKey msg key m)
      else if logSearching m then Ok (logSearchKey msg key m)
      else if String.eqb key "/" then
        if isLogMode (mode m) then
          let m := set_logSearching true m in
          Ok (set_logSearchInput (Focus (logSearchInput m)) m, Blink)
        else
          let m := set_searching true m in
          Ok (set_searchInput (Focus (searchInput m)) m, Blink)
      else if String.eqb key "esc" then Ok (back m, CmdNil)
      else if String.eqb key "enter" then enter m
      else if String.eqb key "l" then openLog m
      else if String.eqb key "s" then
        if isLogMode (mode m) then
          let m := set_followLog (negb (followLog m)) m in
          Ok (if followLog m then set_viewport (GotoBottom (viewport m)) m else m,
              tea_Batch [])
        else Ok (m, tea_Batch [])
      else if String.eqb key "r" then refresh m
      else if String.eqb key "o" then bind (selectedURL m) (fun _ => Ok (m, CmdNil))
      else if String.eqb key "j" || String.eqb key "down" then Ok (navigateDown m, tea_Batch [])
      else if String.eqb key "k" || String.eqb key "up" then Ok (navigateUp m, tea_Batch [])
      else if String.eqb key "g" then Ok (goToTop m, tea_Batch [])
      else if String.eqb key "G" then Ok (goToBottom m, tea_Batch [])
      else if String.eqb key "pgdown" || String.eqb key "ctrl+f" then
        if isLogMode (mode m)
        then Ok (set_viewport (ViewDown (viewport m)) m, tea_Batch [])
        else Ok (pageDown m, tea_Batch [])
      else if String.eqb key "pgup" || String.eqb key "ctrl+b" then
        if isLogMode (mode m)
        then Ok (set_viewport (ViewUp (viewport m)) m, tea_Batch [])
        else Ok (pageUp m, tea_Batch [])
      else Ok (m, tea_Batch [])
  | _ => Ok (m, tea_Batch [])
  end.

End Handlers.

End Builds.

(* ===================================================================== *)
(** * internal/app: the first-run wizard                                  *)
(* ===================================================================== *)

Module Setup.

Import Tea.

Definition FieldURL : Z := 0.
Definition FieldUsername : Z := 1.
Definition FieldToken : Z := 2.
Definition FieldSubmit : Z := 3.

Record SetupModel : Type := mkSetupModel {
  width : Z;
  height : Z;
  urlInput : TextInput;
  usernameInput : TextInput;
  tokenInput : TextInput;
  focusedField : Z;
  err : error;
  testing : bool;
  testResult : string
}.

Definition set_width (v : Z) (m : SetupModel) : SetupModel :=
  {| width := v; height := height m; urlInput := urlInput m;
     usernameInput := usernameInput m; tokenInput := tokenInput m;
     focusedField := focusedField m; err := err m; testing := testing m;
     testResult := testResult m |}.

Definition set_height (v : Z) (m : SetupModel) : SetupModel :=
  {| width := width m; height := v; urlInput := urlInput m;
     usernameInput := usernameInput m; tokenInput := tokenInput m;
     focusedField := focusedField m; err := err m; testing := testing m;
     testResult := testResult m |}.

Definition set_urlInput (v : TextInput) (m : SetupModel) : SetupModel :=
  {| width := width m; height := height m; urlInput := v;
     usernameInput := usernameInput m; tokenInput := tokenInput m;
     focusedField := focusedField m; err := err m; testing := testing m;
     testResult := testResult m |}.

Definition set_usernameInput (v : TextInput) (m : SetupModel) : SetupModel :=
  {| width := width m; height := height m; urlInput := urlInput m;
     usernameInput := v; tokenInput := tokenInput m;
     focusedField := focusedField m; err := err m; testing := testing m;
     testResult := testResult m |}.

Definition set_tokenInput (v : TextInput) (m : SetupModel) : SetupModel :=
  {| width := width m; height := height m; urlInput := urlInput m;
     usernameInput := usernameInput m; tokenInput := v;
     focusedField := focusedField m; err := err m; testing := testing m;
     testResult := testResult m |}.

Definition set_focusedField (v : Z) (m : SetupModel) : SetupModel :=
  {| width := width m; height := height m; urlInput := urlInput m;
     usernameInput := usernameInput m; tokenInput := tokenInput m;
     focusedField := v; err := err m; testing := testing m;
     testResult := testResult m |}.

Definition set_err (v : error) (m : SetupModel) : SetupModel :=
  {| width := width m; height := height m; urlInput := urlInput m;
     usernameInput := usernameInput m; tokenInput := tokenInput m;
     focusedField := focusedField m; err := v; testing := testing m;
     testResult := testResult m |}.

Definition set_testing (v : bool) (m : SetupModel) : SetupModel :=
  {| width := width m; height := height m; urlInput := urlInput m;
     usernameInput := usernameInput m; tokenInput := tokenInput m;
     focusedField := focusedField m; err := err m; testing := v;
     testResult := testResult m |}.

Definition set_testResult (v : string) (m : SetupModel) : SetupModel :=
  {| width := width m; height := height m; urlInput := urlInput m;
     usernameInput := usernameInput m; tokenInput := tokenInput m;
     focusedField := focusedField m; err := err m; testing := testing m;
     testResult := v |}.

Definition NewSetupModel : SetupModel :=
  {| width := 0; height := 0;
     urlInput := Focus textinput_New;
     usernameInput := textinput_New;
     tokenInput := textinput_New;
     focusedField := FieldURL; err := None; testing := false; testResult := "" |}.

Definition Init : Cmd := Blink.

Definition updateFocus (m : SetupModel) : SetupModel :=
  let m := set_urlInput (Blur (urlInput m)) m in
  let m := set_usernameInput (Blur (usernameInput m)) m in
  let m := set_tokenInput (Blur (tokenInput m)) m in
  if focusedField m =? FieldURL then set_urlInput (Focus (urlInput m)) m
  else if focusedField m =? FieldUsername then set_usernameInput (Focus (usernameInput m)) m
  else if focusedField m =? FieldToken then set_tokenInput (Focus (tokenInput m)) m
  else m.

Definition nextField (m : SetupModel) : SetupModel :=
  updateFocus (set_focusedField (Z.rem (focusedField m + 1) 4) m).

Definition prevField (m : SetupModel) : SetupModel :=
  updateFocus (set_focusedField (Z.rem (focusedField m + 3) 4) m).

Definition testAndSave (m : SetupModel) : SetupModel * Cmd :=
  let url := strings_TrimSpace (Value (urlInput m)) in
  let username := strings_TrimSpace (Value (usernameInput m)) in
  let token := strings_TrimSpace (Value (tokenInput m)) in
  if negb (Config.nonEmpty url) || negb (Config.nonEmpty username)
     || negb (Config.nonEmpty token)
  then (set_testResult "All fields are required"
          (set_err (Some "all fields are required") m), CmdNil)
  else (set_testResult "" (set_err None (set_testing true m)),
        testConnection url username token).

Definition configOf (m : SetupModel) : Config.Config :=
  let d := Config.Profile_ Config.DefaultConfig in
  {| Config.Profile_ :=
       {| Config.BaseURL := Value (urlInput m);
          Config.Username := Value (usernameInput m);
          Config.APIToken := Value (tokenInput m);
          Config.InsecureSkipTLSVerify := Config.InsecureSkipTLSVerify d;
          Config.TimeoutSeconds := Config.TimeoutSeconds d;
          Config.AutoRefreshSeconds := Config.AutoRefreshSeconds d;
          Config.MaxBuildsPerJob := Config.MaxBuildsPerJob d;
          Config.MaxLogBytes := Config.MaxLogBytes d;
          Config.RateLimitRPS := Config.RateLimitRPS d |} |}.

(** The tail of [Update]: the message goes to the focused input. *)
Definition updateInputs (msg : Msg) (m : SetupModel) : SetupModel * Cmd :=
  if focusedField m =? FieldURL then
    let (t, cmd) := textinput_Update msg (urlInput m) in
    (set_urlInput t m, tea_Batch [cmd])
  else if focusedField m =? FieldUsername then
    let (t, cmd) := textinput_Update msg (usernameInput m) in
    (set_usernameInput t m, tea_Batch [cmd])
  else if focusedField m =? FieldToken then
    let (t, cmd) := textinput_Update msg (tokenInput m) in
    (set_tokenInput t m, tea_Batch [cmd])
  else (m, tea_Batch [CmdNil]).

(** [SetupModel.Update]. *)
Definition Update (msg : Msg) (m : SetupModel) : SetupModel * Cmd :=
  match msg with
  | KeyMsg k =>
      let key := key_String k in
      if String.eqb key "ctrl+c" then (m, Quit)
      else if String.eqb key "tab" || String.eqb key "down" then (nextField m, CmdNil)
      else if String.eqb key "shift+tab" || String.eqb key "up" then (prevField m, CmdNil)
      else if String.eqb key "enter" then
        if focusedField m =? FieldSubmit then testAndSave m
        else (nextField m, CmdNil)
      else updateInputs msg m
  | testConnectionResult e =>
      let m := set_testing false m in
      match e with
      | Some msgText =>
          (set_testResult ("Connection failed: " ++ msgText) (set_err (Some msgText) m),
           CmdNil)
      | None =>
          let m := set_testResult "Connection successful!" m in
          (m, Emit (SetupCompleteMsg (configOf m)))
      end
  | _ => updateInputs msg m
  end.

End Setup.

(* ===================================================================== *)
(** * internal/app: the application controller                            *)
(* ===================================================================== *)

Module App.

Import Tea.

Definition TabDashboard : Z := 0.
Definition TabViews : Z := 1.
Definition TabBuilds : Z := 2.

Inductive AppState : Type :=
| StateSetup
| StateLoading
| StateReady
| StateError.

Definition AppState_eqb (a b : AppState) : bool :=
  match a, b with
  | StateSetup, StateSetup | StateLoading, StateLoading
  | StateReady, StateReady | StateError, StateError => true
  | _, _ => false
  end.

(** [time.Second], in the nanoseconds of a [time.Duration]. *)
Definition Second : Z := 1000000000.

Record Model : Type := mkModel {
  config : Config.Config;
  client : option Jenkins.Client;
  state : AppState;
  activeTab : Z;
  width : Z;
  height : Z;
  spinner : Spinner;
  lastError : error;
  setupModel : option Setup.SetupModel;
  dashboardModel : option Dashboard.DashboardModel;
  viewsModel : option Views.ViewsModel;
  buildsModel : option Builds.BuildsModel;
  showHelp : bool;
  autoRefreshEnabled : bool;
  autoRefreshInterval : Z
}.

Definition set_config (v : Config.Config) (m : Model) : Model :=
  {| config := v; client := client m; state := state m;
     activeTab := activeTab m; width := width m; height := height m;
     spinner := spinner m; lastError := lastError m;
     setupModel := setupModel m; dashboardModel := dashboardModel m;
     viewsModel := viewsModel m; buildsModel := buildsModel m;
     showHelp := showHelp m; autoRefreshEnabled := autoRefreshEnabled m;
     autoRefreshInterval := autoRefreshInterval m |}.

Definition set_client (v : option Jenkins.Client) (m : Model) : Model :=
  {| config := config m; client := v; state := state m;
     activeTab := activeTab m; width := width m; height := height m;
     spinner := spinner m; lastError := lastError m;
     setupModel := setupModel m; dashboardModel := dashboardModel m;
     viewsModel := viewsModel m; buildsModel := buildsModel m;
     showHelp := showHelp m; autoRefreshEnabled := autoRefreshEnabled m;
     autoRefreshInterval := autoRefreshInterval m |}.

Definition set_state (v : AppState) (m : Model) : Model :=
  {| config := config m; client := client m; state := v;
     activeTab := activeTab m; width := width m; height := height m;
     spinner := spinner m; lastError := lastError m;
     setupModel := setupModel m; dashboardModel := dashboardModel m;
     viewsModel := viewsModel m; buildsModel := buildsModel m;
     showHelp := showHelp m; autoRefreshEnabled := autoRefreshEnabled m;
     autoRefreshInterval := autoRefreshInterval m |}.

Definition set_activeTab (v : Z) (m : Model) : Model :=
  {| config := config m; client := client m; state := state m;
     activeTab := v; width := width m; height := height m;
     spinner := spinner m; lastError := lastError m;
     setupModel := setupModel m; dashboardModel := dashboardModel m;
     viewsModel := viewsModel m; buildsModel := buildsModel m;
     showHelp := showHelp m; autoRefreshEnabled := autoRefreshEnabled m;
     autoRefreshInterval := autoRefreshInterval m |}.

Definition set_width (v : Z) (m : Model) : Model :=
  {| config := config m; client := client m; state := state m;
     activeTab := activeTab m; width := v; height := height m;
     spinner := spinner m; lastError := lastError m;
     setupModel := setupModel m; dashboardModel := dashboardModel m;
     viewsModel := viewsModel m; buildsModel := buildsModel m;
     showHelp := showHelp m; autoRefreshEnabled := autoRefreshEnabled m;
     autoRefreshInterval := autoRefreshInterval m |}.

Definition set_height (v : Z) (m : Model) : Model :=
  {| config := config m; client := client m; state := state m;
     activeTab := activeTab m; width := width m; height := v;
     spinner := spinner m; lastError := lastError m;
     setupModel := setupModel m; dashboardModel := dashboardModel m;
     viewsModel := viewsModel m; buildsModel := buildsModel m;
     showHelp := showHelp m; autoRefreshEnabled := autoRefreshEnabled m;
     autoRefreshInterval := autoRefreshInterval m |}.

Definition set_spinner (v : Spinner) (m : Model) : Model :=
  {| config := config m; client := client m; state := state m;
     activeTab := activeTab m; width := width m; height := height m;
     spinner := v; lastError := lastError m; setupModel := setupModel m;
     dashboardModel := dashboardModel m; viewsModel := viewsModel m;
     buildsModel := buildsModel m; showHelp := showHelp m;
     autoRefreshEnabled := autoRefreshEnabled m;
     autoRefreshInterval := autoRefreshInterval m |}.

Definition set_lastError (v : error) (m : Model) : Model :=
  {| config := config m; client := client m; state := state m;
     activeTab := activeTab m; width := width m; height := height m;
     spinner := spinner m; lastError := v; setupModel := setupModel m;
     dashboardModel := dashboardModel m; viewsModel := viewsModel m;
     buildsModel := buildsModel m; showHelp := showHelp m;
     autoRefreshEnabled := autoRefreshEnabled m;
     autoRefreshInterval := autoRefreshInterval m |}.

Definition set_setupModel (v : option Setup.SetupModel) (m : Model) : Model :=
  {| config := config m; client := client m; state := state m;
     activeTab := activeTab m; width := width m; height := height m;
     spinner := spinner m; lastError := lastError m; setupModel := v;
     dashboardModel := dashboardModel m; viewsModel := viewsModel m;
     buildsModel := buildsModel m; showHelp := showHelp m;
     autoRefreshEnabled := autoRefreshEnabled m;
     autoRefreshInterval := autoRefreshInterval m |}.

Definition set_dashboardModel (v : option Dashboard.DashboardModel) (m : Model) : Model :=
  {| config := config m; client := client m; state := state m;
     activeTab := activeTab m; width := width m; height := height m;
     spinner := spinner m; lastError := lastError m;
     setupModel := setupModel m; dashboardModel := v;
     viewsModel := viewsModel m; buildsModel := buildsModel m;
     showHelp := showHelp m; autoRefreshEnabled := autoRefreshEnabled m;
     autoRefreshInterval := autoRefreshInterval m |}.

Definition set_viewsModel (v : option Views.ViewsModel) (m : Model) : Model :=
  {| config := config m; client := client m; state := state m;
     activeTab := activeTab m; width := width m; height := height m;
     spinner := spinner m; lastError := lastError m;
     setupModel := setupModel m; dashboardModel := dashboardModel m;
     viewsModel := v; buildsModel := buildsModel m; showHelp := showHelp m;
     autoRefreshEnabled := autoRefreshEnabled m;
     autoRefreshInterval := autoRefreshInterval m |}.

Definition set_buildsModel (v : option Builds.BuildsModel) (m : Model) : Model :=
  {| config := config m; client := client m; state := state m;
     activeTab := activeTab m; width := width m; height := height m;
     spinner := spinner m; lastError := lastError m;
     setupModel := setupModel m; dashboardModel := dashboardModel m;
     viewsModel := viewsModel m; buildsModel := v; showHelp := showHelp m;
     autoRefreshEnabled := autoRefreshEnabled m;
     autoRefreshInterval := autoRefreshInterval m |}.

Definition set_showHelp (v : bool) (m : Model) : Model :=
  {| config := config m; client := client m; state := state m;
     activeTab := activeTab m; width := width m; height := height m;
     spinner := spinner m; lastError := lastError m;
     setupModel := setupModel m; dashboardModel := dashboardModel m;
     viewsModel := viewsModel m; buildsModel := buildsModel m; showHelp := v;
     autoRefreshEnabled := autoRefreshEnabled m;
     autoRefreshInterval := autoRefreshInterval m |}.

Definition set_autoRefreshEnabled (v : bool) (m : Model) : Model :=
  {| config := config m; client := client m; state := state m;
     activeTab := activeTab m; width := width m; height := height m;
     spinner := spinner m; lastError := lastError m;
     setupModel := setupModel m; dashboardModel := dashboardModel m;
     viewsModel := viewsModel m; buildsModel := buildsModel m;
     showHelp := showHelp m; autoRefreshEnabled := v;
     autoRefreshInterval := autoRefreshInterval m |}.

Definition set_autoRefreshInterval (v : Z) (m : Model) : Model :=
  {| config := config m; client := client m; state := state m;
     activeTab := activeTab m; width := width m; height := height m;
     spinner := spinner m; lastError := lastError m;
     setupModel := setupModel m; dashboardModel := dashboardModel m;
     viewsModel := viewsModel m; buildsModel := buildsModel m;
     showHelp := showHelp m; autoRefreshEnabled := autoRefreshEnabled m;
     autoRefreshInterval := v |}.

(** The largest number of seconds whose nanoseconds fit 64 bits. *)
Definition maxSeconds : Z := 9223372036.

(** [NewModel]: the interval is the configured number of seconds turned
    into a 64-bit count of nanoseconds. *)
Definition NewModel (cfg : Config.Config) : Model :=
  let refreshInterval := wrap64 (Config.AutoRefreshSeconds (Config.Profile_ cfg) * Second) in
  let refreshInterval :=
    if refreshInterval <? 5 * Second then 10 * Second else refreshInterval in
  let m := {| config := cfg; client := None;
              state := StateLoading; activeTab := TabDashboard;
              width := 0; height := 0; spinner := spinner_New; lastError := None;
              setupModel := None;
              dashboardModel := None; viewsModel := None; buildsModel := None;
              showHelp := false;
              autoRefreshEnabled := true;
              autoRefreshInterval := refreshInterval |} in
  if negb (Config.IsConfigured cfg)
  then set_setupModel (Some Setup.NewSetupModel) (set_state StateSetup m)
  else m.

Definition Init (m : Model) : Cmd :=
  match state m with
  | StateSetup => tea_Batch [SpinnerTick; Setup.Init]
  | StateLoading => tea_Batch [SpinnerTick; initializeClient (config m)]
  | _ => tea_Batch [SpinnerTick]
  end.

Definition initTabModels (m : Model) : Model :=
  let m := set_dashboardModel (Some (Dashboard.NewDashboardModel (width m) (height m))) m in
  let m := set_viewsModel (Some (Views.NewViewsModel (width m) (height m))) m in
  set_buildsModel (Some (Builds.NewBuildsModel (width m) (height m))) m.

(** [loadTabData]: the load command of the active tab. *)
Definition loadTabData (m : Model) : Model * Cmd :=
  if activeTab m =? TabDashboard then
    match dashboardModel m with
    | Some d => let (d, cmd) := Dashboard.LoadData d in (set_dashboardModel (Some d) m, cmd)
    | None => (m, CmdNil)
    end
  else if activeTab m =? TabViews then
    match viewsModel m with
    | Some v => let (v, cmd) := Views.LoadData v in (set_viewsModel (Some v) m, cmd)
    | None => (m, CmdNil)
    end
  else if activeTab m =? TabBuilds then
    match buildsModel m with
    | Some b => let (b, cmd) := Builds.LoadData b in (set_buildsModel (Some b) m, cmd)
    | None => (m, CmdNil)
    end
  else (m, CmdNil).

(** [scheduleAutoRefresh]. *)
Definition scheduleAutoRefresh (m : Model) : Cmd :=
  if negb (autoRefreshEnabled m) || (autoRefreshInterval m <=? 0) then CmdNil
  else Tick (autoRefreshInterval m) AutoRefreshTickMsg.

Section Handlers.

Context {sorter : SortSlice}.

(** [updateActiveTab]: the message is handed to the tab that is active
    now, whatever tab it was fetched for. *)
Definition updateActiveTab (sys : Sys) (msg : Msg) (m : Model) : Outcome (Model * Cmd) :=
  if activeTab m =? TabDashboard then
    match dashboardModel m with
    | Some d =>
        let (d, cmd) := Dashboard.Update sys msg d in
        Ok (set_dashboardModel (Some d) m, cmd)
    | None => Ok (m, CmdNil)
    end
  else if activeTab m =? TabViews then
    match viewsModel m with
    | Some v =>
        bind (Views.Update sys msg v)
             (fun r => Ok (set_viewsModel (Some (fst r)) m, snd r))
    | None => Ok (m, CmdNil)
    end
  else if activeTab m =? TabBuilds then
    match buildsModel m with
    | Some b =>
        bind (Builds.Update sys msg b)
             (fun r => Ok (set_buildsModel (Some (fst r)) m, snd r))
    | None => Ok (m, CmdNil)
    end
  else Ok (m, CmdNil).

(** The tail of [Update]: the message goes to the sub-model of the
    current state. *)
Definition delegate (sys : Sys) (msg : Msg) (cmds : list Cmd) (m : Model)
  : Outcome (Model * Cmd) :=
  match state m with
  | StateSetup =>
      match setupModel m with
      | Some sm =>
          let (sm, cmd) := Setup.Update msg sm in
          Ok (set_setupModel (Some sm) m, tea_Batch (cmds ++ [cmd])%list)
      | None => Ok (m, tea_Batch cmds)
      end
  | StateReady =>
      bind (updateActiveTab sys msg m)
           (fun r => Ok (fst r, tea_Batch (cmds ++ [snd r])%list))
  | _ => Ok (m, tea_Batch cmds)
  end.

Definition switchTab (tab : Z) (m : Model) : Outcome (Model * Cmd) :=
  Ok (loadTabData (set_activeTab tab m)).

(** Load the active tab and arm the refresh timer, as one batch. *)
Definition loadAndSchedule (m : Model) : Model * Cmd :=
  let (m, load) := loadTabData m in
  (m, tea_Batch [load; scheduleAutoRefresh m]).

Definition windowSize (w h : Z) (m : Model) : Model :=
  let m := set_height h (set_width w m) in
  let m := match setupModel m with
           | Some sm => set_setupModel (Some (Setup.set_height h (Setup.set_width w sm))) m
           | None => m
           end in
  let m := match dashboardModel m with
           | Some d => set_dashboardModel (Some (Dashboard.SetSize w h d)) m
           | None => m
           end in
  let m := match viewsModel m with
           | Some v => set_viewsModel (Some (Views.SetSize w h v)) m
           | None => m
           end in
  match buildsModel m with
  | Some b => set_buildsModel (Some (Builds.SetSize w h b)) m
  | None => m
  end.

(** The global key switch; a key it does not consume falls through to
    [delegate]. *)
Definition globalKey (sys : Sys) (msg : Msg) (key : string) (m : Model)
  : Outcome (Model * Cmd) :=
  let ready := AppState_eqb (state m) StateReady in
  if (String.eqb key "ctrl+c" || String.eqb key "q")
     && negb (AppState_eqb (state m) StateSetup) then Ok (m, Quit)
  else if String.eqb key "r" && AppState_eqb (state m) StateError then
    let m := set_lastError None (set_state StateLoading m) in
    Ok (m, initializeClient (config m))
  else if String.eqb key "?" && ready then
    Ok (set_showHelp (negb (showHelp m)) m, CmdNil)
  else if String.eqb key "ctrl+r" && ready then
    let m := set_autoRefreshEnabled (negb (autoRefreshEnabled m)) m in
    if autoRefreshEnabled m then Ok (m, scheduleAutoRefresh m) else Ok (m, CmdNil)
  else if String.eqb key "tab" && ready && negb (showHelp m) then
    switchTab (Z.rem (activeTab m + 1) 3) m
  else if String.eqb key "shift+tab" && ready && negb (showHelp m) then
    switchTab (Z.rem (activeTab m + 2) 3) m
  else if String.eqb key "1" && ready then switchTab TabDashboard m
  else if String.eqb key "2" && ready then switchTab TabViews m
  else if String.eqb key "3" && ready then switchTab TabBuilds m
  else if String.eqb key "esc" && showHelp m then Ok (set_showHelp false m, CmdNil)
  else delegate sys msg [] m.

(** [Model.Update]. *)
Definition Update (sys : Sys) (msg : Msg) (m : Model) : Outcome (Model * Cmd) :=
  match msg with
  | KeyMsg k => globalKey sys msg (key_String k) m
  | WindowSizeMsg w h => Ok (windowSize w h m, CmdNil)
  | SetupCompleteMsg cfg =>
      let m := set_config cfg m in
      match Save sys (config m) with
      | Some e => Ok (set_state StateError (set_lastError (Some e) m), CmdNil)
      | None =>
          let m := set_setupModel None (set_state StateLoading m) in
          Ok (m, initializeClient (config m))
      end
  | ClientReadyMsg c =>
      let m := set_state StateReady (set_client (Some c) m) in
      Ok (loadAndSchedule (initTabModels m))
  | ClientErrorMsg e => Ok (set_state StateError (set_lastError e m), CmdNil)
  | AutoRefreshTickMsg =>
      if AppState_eqb (state m) StateReady && autoRefreshEnabled m
      then Ok (loadAndSchedule m)
      else Ok (m, CmdNil)
  | SpinnerTickMsg =>
      let (s, cmd) := spinner_Update msg (spinner m) in
      delegate sys msg [cmd] (set_spinner s m)
  | _ => delegate sys msg [] m
  end.

(** The controller run over the messages of a session, each handled at
    its own reading of the surroundings. *)
Fixpoint run (events : list (Sys * Msg)) (m : Model) : Outcome Model :=
  match events with
  | [] => Ok m
  | (sys, msg) :: rest => bind (Update sys msg m) (fun r => run rest (fst r))
  end.

End Handlers.

End App.

(* ===================================================================== *)
(** * internal/config: validation                                         *)
(* ===================================================================== *)

Module Validation.

Import Config.

Definition set_TimeoutSeconds (v : Z) (p : Profile) : Profile :=
  {| BaseURL := BaseURL p; Username := Username p; APIToken := APIToken p;
     InsecureSkipTLSVerify := InsecureSkipTLSVerify p;
     TimeoutSeconds := v;
     AutoRefreshSeconds := AutoRefreshSeconds p;
     MaxBuildsPerJob := MaxBuildsPerJob p;
     MaxLogBytes := MaxLogBytes p;
     RateLimitRPS := RateLimitRPS p |}.

Definition set_AutoRefreshSeconds (v : Z) (p : Profile) : Profile :=
  {| BaseURL := BaseURL p; Username := Username p; APIToken := APIToken p;
     InsecureSkipTLSVerify := InsecureSkipTLSVerify p;
     TimeoutSeconds := TimeoutSeconds p;
     AutoRefreshSeconds := v;
     MaxBuildsPerJob := MaxBuildsPerJob p;
     MaxLogBytes := MaxLogBytes p;
     RateLimitRPS := RateLimitRPS p |}.

Definition set_MaxBuildsPerJob (v : Z) (p : Profile) : Profile :=
  {| BaseURL := BaseURL p; Username := Username p; APIToken := APIToken p;
     InsecureSkipTLSVerify := InsecureSkipTLSVerify p;
     TimeoutSeconds := TimeoutSeconds p;
     AutoRefreshSeconds := AutoRefreshSeconds p;
     MaxBuildsPerJob := v;
     MaxLogBytes := MaxLogBytes p;
     RateLimitRPS := RateLimitRPS p |}.

Definition set_MaxLogBytes (v : Z) (p : Profile) : Profile :=
  {| BaseURL := BaseURL p; Username := Username p; APIToken := APIToken p;
     InsecureSkipTLSVerify := InsecureSkipTLSVerify p;
     TimeoutSeconds := TimeoutSeconds p;
     AutoRefreshSeconds := AutoRefreshSeconds p;
     MaxBuildsPerJob := MaxBuildsPerJob p;
     MaxLogBytes := v;
     RateLimitRPS := RateLimitRPS p |}.

Definition set_RateLimitRPS (v : Z) (p : Profile) : Profile :=
  {| BaseURL := BaseURL p; Username := Username p; APIToken := APIToken p;
     InsecureSkipTLSVerify := InsecureSkipTLSVerify p;
     TimeoutSeconds := TimeoutSeconds p;
     AutoRefreshSeconds := AutoRefreshSeconds p;
     MaxBuildsPerJob := MaxBuildsPerJob p;
     MaxLogBytes := MaxLogBytes p;
     RateLimitRPS := v |}.

(** [Config.Validate]: the receiver is a pointer, so the result is the
    configuration as the call leaves it, with the returned [error]. *)
Definition Validate (c : Config) : Config * error :=
  let p := Profile_ c in
  if negb (nonEmpty (BaseURL p)) then (c, Some "base_url is required")
  else if negb (nonEmpty (Username p)) then (c, Some "username is required")
  else if negb (nonEmpty (APIToken p)) then (c, Some "api_token is required")
  else
    let p := if TimeoutSeconds p <=? 0 then set_TimeoutSeconds 15 p else p in
    let p := if AutoRefreshSeconds p <=? 0 then set_AutoRefreshSeconds 10 p else p in
    let p := if MaxBuildsPerJob p <=? 0 then set_MaxBuildsPerJob 200 p else p in
    let p := if MaxLogBytes p <=? 0 then set_MaxLogBytes 200000 p else p in
    let p := if RateLimitRPS p <=? 0 then set_RateLimitRPS 5 p else p in
    ({| Profile_ := p |}, None).

End Validation.

(* ===================================================================== *)
(** * internal/jenkins/models: the helper methods                         *)
(* ===================================================================== *)

Module ModelMethods.

Import Models.

(** [Node.BusyExecutors]: the loop counts the executors whose current
    executable has a URL. *)
Definition Node_BusyExecutors (n : Node) : Z :=
  fold_left
    (fun count exec =>
       if Config.nonEmpty (ExecutableRef_URL (Executor_CurrentExecutable exec))
       then count + 1 else count)
    (elems (Node_Executors n)) 0.

(** [Build.GetProgress] at the clock reading [now] (milliseconds). *)
Definition Build_GetProgress (now : Z) (b : Build) : Z :=
  if negb (Build_Building b) || (Build_EstimatedDuration b =? 0) then 100
  else
    let elapsed := sinceMillis now (Build_Timestamp b) in
    let progress := Z.quot (wrap64 (elapsed * 100)) (Build_EstimatedDuration b) in
    if progress >? 100 then 100 else progress.

End ModelMethods.

(* ===================================================================== *)
(** * internal/ui/components and internal/ui/theme: text helpers          *)
(* ===================================================================== *)

(** The lipgloss styles are taken in a colourless terminal, where
    rendering a one-line text returns it unchanged: what is modelled is
    the text a function hands to its style. *)
Module Components.

(** [s[:hi]]: panics unless [0 <= hi <= len(s)]. *)
Definition slice_to (s : string) (hi : Z) : Outcome string :=
  if (hi <? 0) || (Z.of_nat (String.length s) <? hi) then Panic
  else Ok (substring 0 (Z.to_nat hi) s).

(** [truncate], on bytes. *)
Definition truncate (s : string) (max : Z) : Outcome string :=
  if Z.of_nat (String.length s) <=? max then Ok s
  else if max <=? 3 then slice_to s max
  else bind (slice_to s (max - 3)) (fun p => Ok (p ++ "..."))%string.

Fixpoint repeat_string (s : string) (n : nat) : string :=
  match n with
  | O => EmptyString
  | S k => (s ++ repeat_string s k)%string
  end.

(** [strings.Repeat]: panics on a negative count and when the length of
    the result overflows. *)
Definition strings_Repeat (s : string) (count : Z) : Outcome string :=
  if count <? 0 then Panic
  else if Z.of_nat (String.length s) * count >? MaxInt64 then Panic
  else Ok (repeat_string s (Z.to_nat count)).

(** The two cells of a bar, as the bytes of their UTF-8 encoding. *)
Definition cellFull : string := "█".
Definition cellEmpty : string := "░".

Record ProgressBar : Type := mkProgressBar {
  Percent : Z;
  Width : Z;
  ShowLabel : bool
}.

Definition NewProgressBar (percent width : Z) : ProgressBar :=
  {| Percent := percent; Width := width; ShowLabel := true |}.

(** The number of full cells [Render] computes. *)
Definition filledCells (p : ProgressBar) : Z :=
  let filled := Z.quot (wrap64 (Percent p * Width p)) 100 in
  if filled >? Width p then Width p else filled.

(** The verb [%3d]: right-aligned in three columns. *)
Definition fmt_3d (n : Z) : string :=
  let s := fmt_d n in
  repeat_string " " (3 - String.length s) ++ s.

(** [ProgressBar.Render]: the bar, then the label.  The lipgloss styles
    are taken in a colourless terminal, where rendering a text returns
    it unchanged. *)
Definition Render (p : ProgressBar) : Outcome string :=
  let filled := filledCells p in
  bind (strings_Repeat cellFull filled) (fun full =>
  bind (strings_Repeat cellEmpty (wrap64 (Width p - filled))) (fun empty =>
  let bar := (full ++ empty)%string in
  if ShowLabel p
  then Ok (bar ++ " " ++ fmt_3d (Percent p) ++ "%")%string
  else Ok bar)).

End Components.

Module Theme.

Import Components.

(** [theme.ProgressBar]: the bar built cell by cell (the style, as in
    [Render], returns it unchanged). *)
Definition ProgressBar (percent width : Z) : string :=
  let width := if width <? 5 then 10 else width in
  let filled := Z.quot (wrap64 (percent * width)) 100 in
  let filled := if filled >? width then width else filled in
  fold_left
    (fun (bar : string) (i : nat) =>
       if Z.of_nat i <? filled then (bar ++ cellFull)%string
       else (bar ++ cellEmpty)%string)
    (seq 0 (Z.to_nat width)) EmptyString.

End Theme.

(* ===================================================================== *)
(** * internal/app: what the views compute before they draw               *)
(* ===================================================================== *)

Module Rendering.

Import Models ModelMethods Components Dashboard.

(** The progress row of [BuildsModel.viewBuildDetail]: drawn for a running
    build that has an estimate. *)
Definition buildProgressRow (now : Z) (b : Build) : Outcome (option string) :=
  if Build_Building b && (Build_EstimatedDuration b >? 0) then
    let progress := Build_GetProgress now b in
    bind (Render (NewProgressBar progress 30))
         (fun bar => Ok (Some ("  Progress:    " ++ bar)%string))
  else Ok None.

(** The progress bar of one row of [renderRunningBuildsPanel]. *)
Definition runningProgressBar (build : RunningBuildInfo) : Outcome string :=
  Render (NewProgressBar (Running_Progress build) 12).

(** The counters [renderKPIs] computes for its cards. *)
Record KPIs : Type := mkKPIs {
  runningCount : Z;
  queueCount : Z;
  queueBlocked : Z;
  nodesOnline : Z;
  nodesOffline : Z;
  totalExecutors : Z;
  busyExecutors : Z;
  failedCount : Z
}.

Definition countKPIs (m : DashboardModel) : KPIs :=
  let runningCount := len (runningBuilds m) in
  let '(queueCount, queueBlocked) :=
    match queue m with
    | Some q =>
        (len (Queue_Items q),
         fold_left (fun n item => if QueueItem_Blocked item then n + 1 else n)
                   (elems (Queue_Items q)) 0)
    | None => (0, 0)
    end in
  let '(nodesOnline, nodesOffline, totalExecutors, busyExecutors) :=
    fold_left
      (fun '(on, off, total, busy) node =>
         if Node_Offline node then (on, off + 1, total, busy)
         else (on + 1, off, total + Node_NumExecutors node,
               busy + Node_BusyExecutors node))
      (elems (nodes m)) (0, 0, 0, 0) in
  let failedCount :=
    fold_left
      (fun n b =>
         if String.eqb (Recent_Result b) "FAILURE" || String.eqb (Recent_Color b) "red"
            || String.eqb (Recent_Color b) "red_anime"
         then n + 1 else n)
      (elems (recentBuilds m)) 0 in
  {| runningCount := runningCount; queueCount := queueCount;
     queueBlocked := queueBlocked; nodesOnline := nodesOnline;
     nodesOffline := nodesOffline; totalExecutors := totalExecutors;
     busyExecutors := busyExecutors; failedCount := failedCount |}.

End Rendering.

(* ===================================================================== *)
(** * internal/jenkins: the calls of the API                              *)
(* ===================================================================== *)

Module Api.

Import Jenkins Models.

(** [byte('0' + d)]. *)
Definition digitByte (d : Z) : ascii := ascii_of_nat (48 + Z.to_nat d).

(** The loop of [itoa]: the digits of [n], prepended one by one. *)
Equations itoa_loop (n : Z) (digits : string) : string by wf (Z.to_nat n) lt :=
  itoa_loop n digits with Z_gt_dec n 0 := {
    | left _ => itoa_loop (Z.quot n 10) (String (digitByte (Z.rem n 10)) digits)
    | right _ => digits }.
Next Obligation. Z.to_euclidean_division_equations. lia. Qed.

(** [itoa]; the negation wraps on the smallest [int]. *)
Definition itoa (n : Z) : string :=
  if n =? 0 then "0"
  else
    let negative := n <? 0 in
    let n := if negative then wrap64 (- n) else n in
    let digits := itoa_loop n EmptyString in
    if negative then String "-" digits else digits.

(** The payload of the workflow API, as far as it is converted. *)
Record WFAPIStage : Type := mkWFAPIStage {
  WFAPIStage_ID : string;
  WFAPIStage_Name : string;
  WFAPIStage_Status : string;
  WFAPIStage_StartTimeMillis : Z;
  WFAPIStage_DurationMillis : Z
}.

Record WFAPIRun : Type := mkWFAPIRun {
  WFAPIRun_ID : string;
  WFAPIRun_Name : string;
  WFAPIRun_Status : string;
  WFAPIRun_StartTimeMillis : Z;
  WFAPIRun_EndTimeMillis : Z;
  WFAPIRun_DurationMillis : Z;
  WFAPIRun_Stages : slice WFAPIStage
}.

(** The JSON decoders of the payloads, as functions of the body. *)
Record Decoders : Type := mkDecoders {
  decodeJobDetail : string -> Result JobDetail;
  decodeWFAPIRun : string -> Result WFAPIRun;
  decodeStages : string -> Result (slice Stage)
}.

(** [io.ReadAll(io.LimitReader(body, n))]: the first [n] bytes, none for
    [n <= 0]. *)
Definition limitRead (n : Z) (body : string) : string :=
  substring 0 (Z.to_nat n) body.

Definition stageOfWFAPI (s : WFAPIStage) : Stage :=
  {| Stage_ID := WFAPIStage_ID s; Stage_Name := WFAPIStage_Name s;
     Stage_Status := WFAPIStage_Status s; Stage_Result := WFAPIStage_Status s;
     Stage_StartTimeMillis := WFAPIStage_StartTimeMillis s;
     Stage_DurationMillis := WFAPIStage_DurationMillis s |}.

(** The run [getPipelineRunFromWFAPI] builds; [make] gives a slice that
    is not nil even without stages. *)
Definition runOfWFAPI (r : WFAPIRun) : PipelineRun :=
  {| PipelineRun_ID := WFAPIRun_ID r; PipelineRun_Name := WFAPIRun_Name r;
     PipelineRun_Status := WFAPIRun_Status r; PipelineRun_Result := WFAPIRun_Status r;
     PipelineRun_State := "";
     PipelineRun_StartTimeMillis := WFAPIRun_StartTimeMillis r;
     PipelineRun_EndTimeMillis := WFAPIRun_EndTimeMillis r;
     PipelineRun_DurationMillis := WFAPIRun_DurationMillis r;
     PipelineRun_Stages := Some (map stageOfWFAPI (elems (WFAPIRun_Stages r))) |}.

Definition isFailed (status : string) : bool :=
  String.eqb status "FAILED" || String.eqb status "FAILURE".

Definition isRunning (status : string) : bool :=
  String.eqb status "RUNNING" || String.eqb status "IN_PROGRESS".

Definition set_status (status result state : string) (r : PipelineRun) : PipelineRun :=
  {| PipelineRun_ID := PipelineRun_ID r; PipelineRun_Name := PipelineRun_Name r;
     PipelineRun_Status := status; PipelineRun_Result := result;
     PipelineRun_State := state;
     PipelineRun_StartTimeMillis := PipelineRun_StartTimeMillis r;
     PipelineRun_EndTimeMillis := PipelineRun_EndTimeMillis r;
     PipelineRun_DurationMillis := PipelineRun_DurationMillis r;
     PipelineRun_Stages := PipelineRun_Stages r |}.

Definition set_times (start finish duration : Z) (r : PipelineRun) : PipelineRun :=
  {| PipelineRun_ID := PipelineRun_ID r; PipelineRun_Name := PipelineRun_Name r;
     PipelineRun_Status := PipelineRun_Status r;
     PipelineRun_Result := PipelineRun_Result r;
     PipelineRun_State := PipelineRun_State r;
     PipelineRun_StartTimeMillis := start;
     PipelineRun_EndTimeMillis := finish;
     PipelineRun_DurationMillis := duration;
     PipelineRun_Stages := PipelineRun_Stages r |}.

(** The loop of [getPipelineRunFromBlueOcean] that derives the status of
    the run from its stages; it stops at the first failed stage. *)
Fixpoint statusLoop (stages : list Stage) (run : PipelineRun) : PipelineRun :=
  match stages with
  | [] => run
  | stage :: rest =>
      if isFailed (Stage_Status stage) then
        set_status "FAILED" "FAILURE" (PipelineRun_State run) run
      else if isRunning (Stage_Status stage) then
        statusLoop rest (set_status "RUNNING" (PipelineRun_Result run) "RUNNING" run)
      else if String.eqb (Stage_Status stage) "UNSTABLE"
              && negb (String.eqb (PipelineRun_Status run) "RUNNING") then
        statusLoop rest (set_status "UNSTABLE" "UNSTABLE" (PipelineRun_State run) run)
      else if String.eqb (PipelineRun_Status run) "" then
        statusLoop rest (set_status (Stage_Status stage) (Stage_Result stage)
                                    (PipelineRun_State run) run)
      else statusLoop rest run
  end.

(** The run [getPipelineRunFromBlueOcean] builds from the stages it has
    sorted. *)
Definition runOfStages (buildNumber : Z) (stages : slice Stage) : PipelineRun :=
  let run := {| PipelineRun_ID := itoa buildNumber; PipelineRun_Name := "";
                PipelineRun_Status := ""; PipelineRun_Result := "";
                PipelineRun_State := "";
                PipelineRun_StartTimeMillis := 0; PipelineRun_EndTimeMillis := 0;
                PipelineRun_DurationMillis := 0;
                PipelineRun_Stages := stages |} in
  let run := statusLoop (elems stages) run in
  match elems stages, last (elems stages) with
  | first :: _, Some lastStage =>
      let start := Stage_StartTimeMillis first in
      let finish := wrap64 (Stage_StartTimeMillis lastStage
                            + Stage_DurationMillis lastStage) in
      set_times start finish (wrap64 (finish - start)) run
  | _, _ => run
  end.

Definition BuildRef_setStages (s : slice Stage) (b : BuildRef) : BuildRef :=
  {| BuildRef_Number := BuildRef_Number b; BuildRef_Result := BuildRef_Result b;
     BuildRef_Timestamp := BuildRef_Timestamp b;
     BuildRef_Duration := BuildRef_Duration b; BuildRef_URL := BuildRef_URL b;
     BuildRef_Building := BuildRef_Building b; BuildRef_Stages := s |}.

Section Calls.

Variable env : Env.
Variable dec : Decoders.
Context {sorter : SortSlice}.

(** [getJSON], for a payload the callers drop when the call fails. *)
Definition getJSON {A} (decode : string -> Result A) (path : string)
  (c : Client) (w : World) : Step (Result A) :=
  match doRequest env callDepth MethodGet path c w with
  | None => None
  | Some (Err e, c, w) => Some (Err e, c, w)
  | Some (Ret (status, body), c, w) =>
      if negb (status =? StatusOK)
      then Some (Err ("unexpected status " ++ fmt_d status ++ ": " ++ body), c, w)
      else match decode body with
           | Err e => Some (Err ("error decoding response: " ++ e), c, w)
           | Ret v => Some (Ret v, c, w)
           end
  end.

(** [getText]: the body is delivered whole by the transport, so reading
    it cannot fail. *)
Definition getText (path : string) (maxBytes : Z) (c : Client) (w : World)
  : Step (Result string) :=
  match doRequest env callDepth MethodGet path c w with
  | None => None
  | Some (Err e, c, w) => Some (Err e, c, w)
  | Some (Ret (status, body), c, w) =>
      if negb (status =? StatusOK)
      then Some (Err ("unexpected status " ++ fmt_d status ++ ": " ++ body), c, w)
      else Some (Ret (limitRead maxBytes body), c, w)
  end.

Definition buildPath (jobName : string) (buildNumber : Z) : string :=
  "/job/" ++ encodeJobPath jobName ++ "/" ++ itoa buildNumber.

Definition blueOceanRunPath (jobName : string) (buildNumber : Z) : string :=
  "/blue/rest/organizations/jenkins/pipelines/" ++ encodeJobPath jobName
  ++ "/runs/" ++ itoa buildNumber.

(** [GetStageLog]: the workflow API, then Blue Ocean. *)
Definition GetStageLog (jobName : string) (buildNumber : Z) (stageID : string)
  (c : Client) (w : World) : Step (Result string) :=
  match getText (buildPath jobName buildNumber ++ "/execution/node/" ++ stageID
                 ++ "/wfapi/log") 500000 c w with
  | None => None
  | Some (Ret log, c, w) => Some (Ret log, c, w)
  | Some (Err _, c, w) =>
      getText (blueOceanRunPath jobName buildNumber ++ "/nodes/" ++ stageID ++ "/log/")
              500000 c w
  end.

(** [getPipelineRunFromWFAPI]: the run, or nil with the error. *)
Definition getPipelineRunFromWFAPI (jobName : string) (buildNumber : Z)
  (c : Client) (w : World) : Step (option PipelineRun * error) :=
  match getJSON (decodeWFAPIRun dec) (buildPath jobName buildNumber ++ "/wfapi/describe")
                c w with
  | None => None
  | Some (Err e, c, w) => Some ((None, Some e), c, w)
  | Some (Ret wfRun, c, w) => Some ((Some (runOfWFAPI wfRun), None), c, w)
  end.

(** [getPipelineRunFromBlueOcean]: a failure is a nil run without error. *)
Definition getPipelineRunFromBlueOcean (jobName : string) (buildNumber : Z)
  (c : Client) (w : World) : Step (option PipelineRun * error) :=
  match getJSON (decodeStages dec) (blueOceanRunPath jobName buildNumber ++ "/nodes/")
                c w with
  | None => None
  | Some (Err _, c, w) => Some ((None, None), c, w)
  | Some (Ret stages, c, w) =>
      let stages :=
        option_map
          (sort_Slice Stage
             (fun a b => Stage_StartTimeMillis a <? Stage_StartTimeMillis b))
          stages in
      Some ((Some (runOfStages buildNumber stages), None), c, w)
  end.

(** [GetPipelineRun]. *)
Definition GetPipelineRun (jobName : string) (buildNumber : Z)
  (c : Client) (w : World) : Step (option PipelineRun * error) :=
  match getPipelineRunFromWFAPI jobName buildNumber c w with
  | None => None
  | Some ((Some run, None), c, w) => Some ((Some run, None), c, w)
  | Some (_, c, w) => getPipelineRunFromBlueOcean jobName buildNumber c w
  end.

(** The loop of [GetJob] over [job.Builds[i]], [i < 10]: [n] rounds are
    left and [i] is the index reached. *)
Fixpoint stagesLoop (jobName : string) (n i : nat) (builds : list BuildRef)
  (c : Client) (w : World) : Step (list BuildRef) :=
  match n with
  | O => Some (builds, c, w)
  | S n' =>
      match builds !! i with
      | None => Some (builds, c, w)
      | Some b =>
          match GetPipelineRun jobName (BuildRef_Number b) c w with
          | None => None
          | Some ((run, _), c, w) =>
              let builds :=
                match run with
                | Some r => <[i := BuildRef_setStages (PipelineRun_Stages r) b]> builds
                | None => builds
                end in
              stagesLoop jobName n' (S i) builds c w
          end
      end
  end.

(** [GetJob]: the detail, then the stages of its first ten builds. *)
Definition GetJob (jobName : string) (c : Client) (w : World)
  : Step (option JobDetail * error) :=
  match getJSON (decodeJobDetail dec) (GetJob_path jobName) c w with
  | None => None
  | Some (Err e, c, w) => Some ((None, Some e), c, w)
  | Some (Ret job, c, w) =>
      match stagesLoop jobName 10 0 (elems (JobDetail_Builds job)) c w with
      | None => None
      | Some (builds, c, w) =>
          let builds := match JobDetail_Builds job with
                        | Some _ => Some builds
                        | None => None
                        end in
          Some ((Some (JobDetail_setBuilds builds job), None), c, w)
      end
  end.

End Calls.

End Api.

(* ===================================================================== *)
(** * Notions the properties are stated with, and concrete scenarios      *)
(* ===================================================================== *)

Module Scenario.

Import Models Tea.

#[local] Existing Instance insertionSort.

Definition profileOf (url user token : string) (refresh : Z) : Config.Config :=
  {| Config.Profile_ :=
       {| Config.BaseURL := url; Config.Username := user; Config.APIToken := token;
          Config.InsecureSkipTLSVerify := false;
          Config.TimeoutSeconds := 15;
          Config.AutoRefreshSeconds := refresh;
          Config.MaxBuildsPerJob := 200;
          Config.MaxLogBytes := 200000;
          Config.RateLimitRPS := 5 |} |}.

(** A complete configuration with the given refresh interval. *)
Definition cfgRefresh (refresh : Z) : Config.Config :=
  profileOf "https://jenkins.example.com/" "admin" "token123" refresh.

(** ** The protocol client *)

Import Jenkins.

(** One pass through [doRequest] that does not negotiate: a token, the
    request, and the classification of the answer. *)
Definition attempt (env : Env) (method path : string) (c : Client) (w : World)
  : Result (Z * string) * World :=
  let n := waits w in
  let w := {| waits := S n; sent := sent w |} in
  match limiter_Wait env n with
  | Some e => (Err ("rate limiter error: " ++ e), w)
  | None =>
      match newRequest env method (baseURL c ++ path) with
      | Some e => (Err ("error creating request: " ++ e), w)
      | None =>
          let req := buildRequest c method path in
          let w' := {| waits := waits w; sent := req :: sent w |} in
          match transport env (sent w) req with
          | TransportError e => (Err ("error making request: " ++ e), w')
          | Response status body =>
              if status =? StatusUnauthorized then (Err errUnauthorized, w')
              else if status =? StatusForbidden then (Err errForbidden, w')
              else (Ret (status, body), w')
          end
      end
  end.

(** The client once [fetchCrumb] has started, and once it has succeeded. *)
Definition tested (c : Client) : Client :=
  {| baseURL := baseURL c; username := username c; apiToken := apiToken c;
     crumb := crumb c; crumbField := crumbField c; crumbTested := true |}.

Definition cached (cr fld : string) (c : Client) : Client :=
  {| baseURL := baseURL c; username := username c; apiToken := apiToken c;
     crumb := cr; crumbField := fld; crumbTested := crumbTested c |}.

Definition freshWorld : World := {| waits := 0; sent := [] |}.

(** The request was let through and answered 403. *)
Definition forbidden (env : Env) (method path : string) (c : Client) (w : World) : bool :=
  match limiter_Wait env (waits w), newRequest env method (baseURL c ++ path),
        transport env (sent w) (buildRequest c method path) with
  | None, None, Response status _ => status =? StatusForbidden
  | _, _, _ => false
  end.

(** [doRequest] with its recursion unrolled: the first pass and, on a 403
    to a non-GET method of a client that has not negotiated, the crumb
    request and one more pass. *)
Definition request (env : Env) (method path : string) (c : Client) (w : World)
  : Result (Z * string) * Client * World :=
  let (r1, w1) := attempt env method path c w in
  if forbidden env method path c w
     && (negb (crumbTested c) && negb (String.eqb method MethodGet))
  then
    let c1 := tested c in
    let (r2, w2) := attempt env MethodGet crumbIssuerPath c1 w1 in
    match r2 with
    | Ret (status, body) =>
        if negb (status =? StatusOK) then (Err errForbidden, c1, w2)
        else match decodeCrumbResp env body with
             | Ret (cr, fld) =>
                 let c2 := cached cr fld c1 in
                 let (r3, w3) := attempt env method path c2 w2 in
                 (r3, c2, w3)
             | Err _ => (Err errForbidden, c1, w2)
             end
    | Err _ => (Err errForbidden, c1, w2)
    end
  else (r1, c, w1).

(** The invariant of a client lifetime: the crumb issuer has been called
    at most once, and not at all by a client that has not negotiated. *)
Definition negotiatedOnce (c : Client) (w : World) : Prop :=
  (crumbRequests c w <= 1)%nat
  /\ (crumbTested c = false -> crumbRequests c w = 0%nat).

Definition cfgB : Config.Config := cfgRefresh 10.

Definition dq : string := String (ascii_of_nat 34) EmptyString.

(** The body of the crumb issuer: the JSON object with the members
    [crumb] and [crumbRequestField]. *)
Definition crumbBody (cr fld : string) : string :=
  "{" ++ dq ++ "crumb" ++ dq ++ ":" ++ dq ++ cr ++ dq ++ "," ++
  dq ++ "crumbRequestField" ++ dq ++ ":" ++ dq ++ fld ++ dq ++ "}".

Definition crumbURL : string := "https://jenkins.example.com" ++ crumbIssuerPath.

(** A server with CSRF protection: a request other than a GET needs the
    header [X-Crumb: abc]; the issuer answers with [issuerStatus]. *)
Definition csrfServer (issuerStatus : Z) (issuerBody : string)
  (seen : list Request) (r : Request) : RoundTrip :=
  if String.eqb (reqURL r) crumbURL then Response issuerStatus issuerBody
  else if String.eqb (reqMethod r) MethodGet then Response StatusOK "{}"
  else match Header_Get "X-Crumb" (reqHeader r) with
       | Some "abc" => Response StatusCreated ""
       | _ => Response StatusForbidden ""
       end.

(** The surroundings of the scenarios: an open limiter, the server above
    and a decoder that reads the issuer's body. *)
Definition envWith (issuerStatus : Z) (cr fld : string) : Env :=
  {| limiter_Wait := fun _ => None;
     newRequest := fun _ _ => None;
     transport := csrfServer issuerStatus (crumbBody cr fld);
     decodeCrumbResp := fun body =>
       if String.eqb body (crumbBody cr fld) then Ret (cr, fld)
       else Err "invalid character" |}.

(** Scenario B: the issuer answers 200 with [abc] and [X-Crumb]. *)
Definition envB : Env := envWith StatusOK "abc" "X-Crumb".

(** The issuer answers 201, a 2xx that is not 200. *)
Definition env201 : Env := envWith StatusCreated "abc" "X-Crumb".

(** The issuer's object has both members, the crumb being empty. *)
Definition envEmpty : Env := envWith StatusOK "" "X-Crumb".

(** The issuer names [accept] as the field of the crumb. *)
Definition envAccept : Env := envWith StatusOK "abc" "accept".

(** Scenario C: every call is answered 403, the issuer included. *)
Definition envC : Env :=
  {| limiter_Wait := fun _ => None;
     newRequest := fun _ _ => None;
     transport := fun _ _ => Response StatusForbidden "";
     decodeCrumbResp := fun _ => Err "invalid character" |}.

Definition buildPath : string := TriggerBuild_path "folder/job".

(** The calls of scenario C, and one more read. *)
Definition callsC : list Call :=
  [ {| callMethod := MethodPost; callPath := buildPath |};
    {| callMethod := MethodPost; callPath := buildPath |};
    {| callMethod := MethodGet; callPath := "/api/json" |} ].

(** The request sent last. *)
Definition lastSent (w : World) : option Request := head (sent w).

(** ** The dashboard merge *)

Section DashboardMerge.

Context {sorter : SortSlice}.

Import Dashboard.

(** The dashboard handling a series of data messages, each at its own
    reading of the clock. *)
Definition handleAll (events : list (Sys * DashboardData)) (m : DashboardModel)
  : DashboardModel :=
  fold_left (fun m e => fst (Update (fst e) (DashboardDataMsg (snd e)) m)) events m.

(** The running builds of a list of nodes, and the recent builds of a
    list of jobs, as the merge derives them. *)
Definition runningBuildsOf (now : Z) (ns : slice Node) : slice RunningBuildInfo :=
  appended
    (flat_map (fun node => flat_map (runningOfExecutor now node)
                                    (elems (Node_Executors node)))
              (elems ns)).

Definition recentBuildsOf (js : slice Job) : slice RecentBuildInfo :=
  appended (flat_map recentOfJob (elems (SortJobsByLastBuild js))).

End DashboardMerge.

(** The snapshot of a dashboard: its five data fields. *)
Definition dataOf (m : Dashboard.DashboardModel) :=
  (Dashboard.rootInfo m, Dashboard.nodes m, Dashboard.queue m,
   Dashboard.runningBuilds m, Dashboard.recentBuilds m).

(** The messages of the four dashboard fetches: one payload each. *)
Definition rootInfoMsg (r : RootInfo) (e : error) : DashboardData :=
  {| DashboardData_RootInfo := Some r; DashboardData_Nodes := None;
     DashboardData_Queue := None; DashboardData_Jobs := None;
     DashboardData_Error := e |}.

Definition nodesMsg (ns : list Node) (e : error) : DashboardData :=
  {| DashboardData_RootInfo := None; DashboardData_Nodes := Some ns;
     DashboardData_Queue := None; DashboardData_Jobs := None;
     DashboardData_Error := e |}.

Definition queueMsg (q : Queue) (e : error) : DashboardData :=
  {| DashboardData_RootInfo := None; DashboardData_Nodes := None;
     DashboardData_Queue := Some q; DashboardData_Jobs := None;
     DashboardData_Error := e |}.

Definition jobsMsg (js : list Job) (e : error) : DashboardData :=
  {| DashboardData_RootInfo := None; DashboardData_Nodes := None;
     DashboardData_Queue := None; DashboardData_Jobs := Some js;
     DashboardData_Error := e |}.

(** The value of a field after a series of optional writes. *)
Definition lastWrite {A} (writes : list (option A)) (init : A) : A :=
  fold_left (fun acc w => match w with Some x => x | None => acc end) writes init.

Definition sysAt (t : Z) : Sys := {| now := t; Save := fun _ => None |}.

Definition rootA : RootInfo :=
  {| RootInfo_Mode := "NORMAL"; RootInfo_NodeDescription := "the master Jenkins node";
     RootInfo_NodeName := ""; RootInfo_NumExecutors := 2; RootInfo_Description := "";
     RootInfo_UseCrumbs := true; RootInfo_UseSecurity := true |}.

Definition execA : Executor :=
  {| Executor_CurrentExecutable :=
       {| ExecutableRef_URL := "https://jenkins.example.com/job/app/7/";
          ExecutableRef_Number := 7; ExecutableRef_DisplayName := "#7";
          ExecutableRef_FullDisplayName := "app #7";
          ExecutableRef_Timestamp := 1000; ExecutableRef_EstimatedDuration := 10000 |};
     Executor_Idle := false; Executor_LikelyStuck := false;
     Executor_Number := 0; Executor_Progress := 0 |}.

Definition nodesA : list Node :=
  [ {| Node_DisplayName := "built-in"; Node_Offline := false;
       Node_TemporarilyOffline := false; Node_NumExecutors := 1;
       Node_Executors := Some [execA]; Node_OfflineCauseReason := "";
       Node_Idle := false |} ].

Definition queueA : Queue := {| Queue_Items := Some [] |}.

Definition buildAt (n ts : Z) : BuildRef :=
  {| BuildRef_Number := n; BuildRef_Result := "SUCCESS"; BuildRef_Timestamp := ts;
     BuildRef_Duration := 60000; BuildRef_URL := ""; BuildRef_Building := false;
     BuildRef_Stages := None |}.

Definition jobNamed (name : string) (last : option BuildRef) : Job :=
  {| Job_Name := name; Job_URL := "https://jenkins.example.com/job/" ++ name ++ "/";
     Job_Color := "blue"; Job_LastBuild := last; Job_HealthReport := None |}.

Definition jobsA : list Job :=
  [ jobNamed "lib" (Some (buildAt 3 500)); jobNamed "app" (Some (buildAt 7 900));
    jobNamed "docs" None ].

(** The messages of the four dashboard fetches. *)
Definition fourPayloads (r : RootInfo) (ns : list Node) (q : Queue) (js : list Job)
  (eR eN eQ eJ : error) : list DashboardData :=
  [ rootInfoMsg r eR; nodesMsg ns eN; queueMsg q eQ; jobsMsg js eJ ].

(** A series of messages handled at the clock readings of a series of
    moments, the n-th message at the n-th reading: the handler reads
    [time.Now] when it runs, whatever message it is given. *)
Definition handledAt (clock : list Sys) (msgs : list DashboardData)
  : list (Sys * DashboardData) :=
  combine clock msgs.

(** A row of the running builds without its progress. *)
Definition rowIdentity (b : Dashboard.RunningBuildInfo) :=
  (Dashboard.Running_JobName b, Dashboard.Running_BuildNum b,
   Dashboard.Running_NodeName b, Dashboard.Running_URL b).

(** Scenario D: four moments, and the four messages arriving with the
    nodes first, with the nodes last, and in the order jobs, queue,
    nodes, root info. *)
Definition clockD : list Sys := [sysAt 2000; sysAt 3000; sysAt 4000; sysAt 9000].

Definition nodesFirstD : list DashboardData :=
  [ nodesMsg nodesA None; rootInfoMsg rootA (Some "slow");
    queueMsg queueA None; jobsMsg jobsA None ].

Definition nodesLastD : list DashboardData :=
  [ rootInfoMsg rootA (Some "slow"); queueMsg queueA None;
    jobsMsg jobsA None; nodesMsg nodesA None ].

Definition eventsD : list (Sys * DashboardData) :=
  handledAt clockD
    [ jobsMsg jobsA None; queueMsg queueA None;
      nodesMsg nodesA None; rootInfoMsg rootA (Some "slow") ].

(** ** The application controller *)

Import App.

(** The tab whose fetch commands produce a message. *)
Definition tabOf (msg : Msg) : option Z :=
  match msg with
  | DashboardDataMsg _ => Some TabDashboard
  | ViewsDataMsg _ => Some TabViews
  | BuildsDataMsg _ => Some TabBuilds
  | _ => None
  end.

Definition clientB : Client := NewClient cfgB.

Definition key (s : string) : Msg := KeyMsg (KeyRunes s).
Definition named (s : string) : Msg := KeyMsg (KeyNamed s).

Definition at_ (t : Z) (msgs : list Msg) : list (Sys * Msg) :=
  map (fun m => (sysAt t, m)) msgs.

(** The controller once the client is ready, after the key [2]: the
    dashboard load is in flight and the views tab is active. *)
Definition switchedToViews : list (Sys * Msg) :=
  at_ 1000 [ClientReadyMsg clientB; key "2"].

(** [GetRootInfo] returns the address of its result also when the request
    fails, so the message of a failed root-info fetch carries the zero
    record next to the error. *)
Definition zeroRootInfo : RootInfo :=
  {| RootInfo_Mode := ""; RootInfo_NodeDescription := ""; RootInfo_NodeName := "";
     RootInfo_NumExecutors := 0; RootInfo_Description := "";
     RootInfo_UseCrumbs := false; RootInfo_UseSecurity := false |}.

Definition rootInfoFailure (e : string) : DashboardData :=
  rootInfoMsg zeroRootInfo (Some e).

Definition viewsFailure (e : string) : ViewsData :=
  {| ViewsData_Views := None; ViewsData_Jobs := None; ViewsData_JobDetail := None;
     ViewsData_Error := Some e |}.

Definition viewNamed (name : string) : View :=
  {| View_Name := name; View_URL := "https://jenkins.example.com/view/" ++ name ++ "/";
     View_Description := ""; View_Jobs := None |}.

Definition viewsLoaded (vs : list View) : Msg :=
  ViewsDataMsg {| ViewsData_Views := Some vs; ViewsData_Jobs := None;
                  ViewsData_JobDetail := None; ViewsData_Error := None |}.

Definition jobsLoaded (js : list Job) : Msg :=
  ViewsDataMsg {| ViewsData_Views := None; ViewsData_Jobs := Some js;
                  ViewsData_JobDetail := None; ViewsData_Error := None |}.

(** The controller as [switchedToViews] leaves it. *)
Definition modelOnViews : Model :=
  match run (sorter := insertionSort) switchedToViews (NewModel cfgB) with
  | Ok m => m
  | Panic => NewModel cfgB
  end.

(** The controller right after the client became ready: the dashboard is
    active; and the same once the root info has arrived. *)
Definition modelOnDashboard : Model :=
  match run (sorter := insertionSort) (at_ 1000 [ClientReadyMsg clientB]) (NewModel cfgB) with
  | Ok m => m
  | Panic => NewModel cfgB
  end.

Definition modelWithRootInfo : Model :=
  match run (sorter := insertionSort)
          (at_ 1500 [DashboardDataMsg (rootInfoMsg rootA None)]) modelOnDashboard with
  | Ok m => m
  | Panic => modelOnDashboard
  end.

(** The fields of a tab for which a message has no payload are as they
    were. *)
Definition dashboardKeeps (d : DashboardData)
  (old new : Dashboard.DashboardModel) : Prop :=
  (DashboardData_RootInfo d = None -> Dashboard.rootInfo new = Dashboard.rootInfo old)
  /\ (DashboardData_Nodes d = None ->
      Dashboard.nodes new = Dashboard.nodes old
      /\ Dashboard.runningBuilds new = Dashboard.runningBuilds old)
  /\ (DashboardData_Queue d = None -> Dashboard.queue new = Dashboard.queue old)
  /\ (DashboardData_Jobs d = None ->
      Dashboard.recentBuilds new = Dashboard.recentBuilds old).

Definition viewsKeeps (d : ViewsData) (old new : Views.ViewsModel) : Prop :=
  (ViewsData_Views d = None -> Views.views new = Views.views old)
  /\ (ViewsData_Jobs d = None -> Views.jobs new = Views.jobs old)
  /\ (ViewsData_JobDetail d = None -> Views.jobDetail new = Views.jobDetail old).

Definition buildsKeeps (d : BuildsData) (old new : Builds.BuildsModel) : Prop :=
  (BuildsData_Jobs d = None -> Builds.jobs new = Builds.jobs old)
  /\ (BuildsData_JobDetail d = None ->
      Builds.jobDetail new = Builds.jobDetail old
      /\ Builds.builds new = Builds.builds old)
  /\ (BuildsData_BuildDetail d = None ->
      Builds.buildDetail new = Builds.buildDetail old)
  /\ (BuildsData_PipelineRun d = None ->
      Builds.pipelineRun new = Builds.pipelineRun old)
  /\ (BuildsData_LogContent d = EmptyString ->
      Builds.logContent new = Builds.logContent old
      /\ Builds.viewport new = Builds.viewport old).

(** ** The refresh timer

    The runtime starts the commands of a batch together, each on its own
    goroutine.  [tea.Tick d] delivers its message [d] after it is
    started; a fetch delivers its message when the remote call settles,
    which takes [settle c].  [deliveries] lists what a command started at
    clock reading [start] will deliver, and when. *)
Inductive Delivery : Type :=
| TickDue (t : Z) (m : Msg)
| Settled (t : Z) (c : Cmd).

Fixpoint deliveries (settle : Cmd -> Z) (start : Z) (c : Cmd) : list Delivery :=
  match c with
  | CmdNil => []
  | Batch cmds => flat_map (deliveries settle start) cmds
  | Tick d m => [TickDue (start + d) m]
  | _ => [Settled (start + settle c) c]
  end.

(** The clock readings at which a refresh tick is due. *)
Definition refreshTicks (ds : list Delivery) : list Z :=
  flat_map (fun d => match d with
                     | TickDue t AutoRefreshTickMsg => [t]
                     | _ => []
                     end) ds.

(** The clock readings at which dispatched work settles. *)
Definition settlements (ds : list Delivery) : list Z :=
  flat_map (fun d => match d with Settled t _ => [t] | _ => [] end) ds.

(** Scenario E: a ready controller on the views tab, refreshing every 10
    time units, whose fetches take 15. *)
Definition modelE : Model := set_autoRefreshInterval 10 modelOnViews.

Definition settleE (c : Cmd) : Z :=
  match c with SpinnerTick => 0 | _ => 15 end.

(** ** The modes of the tabs

    What each level of a tab owns, and the rest of the model. *)
Definition viewsJobsLevel (m : Views.ViewsModel) :=
  (Views.jobs m, Views.selectedJob m, Views.jobsScroll m).

Definition viewsRest (m : Views.ViewsModel) :=
  (Views.width m, Views.height m, Views.views m, Views.selectedView m,
   Views.searchInput m, Views.searching m, Views.filter m, Views.viewsScroll m,
   Views.loading m, Views.lastError m, Views.lastUpdate m, Views.spinner m).

Definition viewsListLevel (m : Views.ViewsModel) :=
  (Views.views m, Views.selectedView m, Views.viewsScroll m).

Definition buildsJobsLevel (m : Builds.BuildsModel) :=
  (Builds.jobs m, Builds.selectedJob m, Builds.jobsScroll m).

Definition buildsLogLevel (m : Builds.BuildsModel) :=
  (Builds.logContent m, Builds.logFilter m).

Definition buildsDetailLevel (m : Builds.BuildsModel) :=
  (Builds.buildDetail m, Builds.pipelineRun m).

Definition buildsListLevel (m : Builds.BuildsModel) :=
  (Builds.jobDetail m, Builds.builds m, Builds.selectedBuild m, Builds.buildsScroll m).

Definition buildsRest (m : Builds.BuildsModel) :=
  (Builds.width m, Builds.height m, Builds.jobs m, Builds.selectedJob m,
   Builds.selectedStage m, Builds.viewport m, Builds.paginator m,
   Builds.searchInput m, Builds.searching m, Builds.filter m,
   Builds.pageSize m, Builds.currentPage m, Builds.totalBuilds m,
   Builds.followLog m, Builds.logSearchInput m, Builds.logSearching m,
   Builds.jobsScroll m, Builds.loading m, Builds.lastError m,
   Builds.lastUpdate m, Builds.spinner m).

Definition runFrom (m : Model) (events : list (Sys * Msg)) : Model :=
  match run (sorter := insertionSort) events m with
  | Ok m' => m'
  | Panic => m
  end.

Definition twoViews : list View := [viewNamed "alpha"; viewNamed "beta"].

(** The views tab showing the jobs of a view, with the search box open. *)
Definition modelSearchingJobs : Model :=
  runFrom modelOnViews
    (at_ 2000 [viewsLoaded twoViews; named "enter"; jobsLoaded jobsA; key "/"]).

(** The same without the search box, and one level deeper. *)
Definition modelOnJobs : Model :=
  runFrom modelOnViews (at_ 2000 [viewsLoaded twoViews; named "enter"; jobsLoaded jobsA]).

(** Two views, the second selected, the filter then narrowed to [al],
    which only the first matches; then [enter]. *)
Definition narrowThenEnter : list (Sys * Msg) :=
  at_ 2000 [ viewsLoaded twoViews; key "j";
             key "/"; key "a"; key "l"; named "enter";
             named "enter" ].

(** Two views, the jobs of the second opened, a refresh that finds the
    second view gone; then [r]. *)
Definition shrinkThenRefresh : list (Sys * Msg) :=
  at_ 2000 [ viewsLoaded twoViews; key "j"; named "enter";
             viewsLoaded [viewNamed "alpha"];
             key "r" ].

(** The builds tab active, and its model showing a log. *)
Definition modelOnBuilds : Model :=
  runFrom modelOnDashboard (at_ 1000 [key "3"]).

Definition buildsFailure (e : string) : BuildsData :=
  {| BuildsData_Jobs := None; BuildsData_JobDetail := None;
     BuildsData_BuildDetail := None; BuildsData_PipelineRun := None;
     BuildsData_LogContent := ""; BuildsData_Error := Some e |}.

Definition buildsInLog : Builds.BuildsModel :=
  Builds.set_logFilter "error"
    (Builds.set_logContent "compiling"
       (Builds.set_mode Builds.ModeLogView (Builds.NewBuildsModel 80 24))).

(** The same with the log search box opened by [/]. *)
Definition buildsSearchingLog : Builds.BuildsModel :=
  Builds.set_logSearchInput (Focus (Builds.logSearchInput buildsInLog))
    (Builds.set_logSearching true buildsInLog).

Definition viewsOf (m : Model) : Views.ViewsModel :=
  match viewsModel m with
  | Some v => v
  | None => Views.NewViewsModel 0 0
  end.

Definition buildsOf (m : Model) : Builds.BuildsModel :=
  match buildsModel m with
  | Some b => b
  | None => Builds.NewBuildsModel 0 0
  end.

Definition dashboardOf (m : Model) : Dashboard.DashboardModel :=
  match dashboardModel m with
  | Some d => d
  | None => Dashboard.NewDashboardModel 0 0
  end.

Definition tabModels (m : Model) :=
  (dashboardModel m, viewsModel m, buildsModel m).

End Scenario.

(* ===================================================================== *)
(** * Concrete inputs for the helper functions                            *)
(* ===================================================================== *)

Module Examples.

Import Models.

(** A configured profile with two unset numbers. *)
Definition cfgPartial : Config.Config :=
  {| Config.Profile_ :=
       {| Config.BaseURL := "https://ci.example.org";
          Config.Username := "admin"; Config.APIToken := "t0ken";
          Config.InsecureSkipTLSVerify := true;
          Config.TimeoutSeconds := 0; Config.AutoRefreshSeconds := 30;
          Config.MaxBuildsPerJob := -1; Config.MaxLogBytes := 4096;
          Config.RateLimitRPS := 2 |} |}.

(** An executable started at 1000000 ms with two minutes estimated. *)
Definition runningExecutable : ExecutableRef :=
  {| ExecutableRef_URL := "https://ci.example.org/job/app/7/";
     ExecutableRef_Number := 7; ExecutableRef_DisplayName := "#7";
     ExecutableRef_FullDisplayName := "app #7";
     ExecutableRef_Timestamp := 1000000;
     ExecutableRef_EstimatedDuration := 120000 |}.

(** A running build whose start, as the server stamped it, is 2000000 ms,
    with 100 seconds estimated. *)
Definition buildAhead : Build :=
  {| Build_Number := 12; Build_Result := ""; Build_Timestamp := 2000000;
     Build_Duration := 0; Build_EstimatedDuration := 100000;
     Build_URL := "https://ci.example.org/job/app/12/";
     Build_Building := true; Build_DisplayName := "#12";
     Build_Description := "" |}.

(** An executor that runs [runningExecutable] and cannot estimate its
    progress. *)
Definition unknownProgress : Executor :=
  {| Executor_CurrentExecutable := runningExecutable;
     Executor_Idle := false; Executor_LikelyStuck := false;
     Executor_Number := 0; Executor_Progress := -1 |}.

Definition nodeOf (execs : list Executor) : Node :=
  {| Node_DisplayName := "agent-1"; Node_Offline := false;
     Node_TemporarilyOffline := false;
     Node_NumExecutors := Z.of_nat (length execs);
     Node_Executors := Some execs; Node_OfflineCauseReason := "";
     Node_Idle := false |}.

(** A fresh dashboard that has been given the nodes [ns]. *)
Definition dashboardOfNodes (ns : list Node) : Dashboard.DashboardModel :=
  Dashboard.set_nodes (Some ns) (Dashboard.NewDashboardModel 120 40).

(** The row the dashboard lists for the executor [exec] of [nodeOf [exec]]. *)
Definition rowOf (now : Z) (exec : Executor) : Dashboard.RunningBuildInfo :=
  {| Dashboard.Running_JobName :=
       ExecutableRef_FullDisplayName (Executor_CurrentExecutable exec);
     Dashboard.Running_BuildNum :=
       ExecutableRef_Number (Executor_CurrentExecutable exec);
     Dashboard.Running_NodeName := "agent-1";
     Dashboard.Running_Progress := Executor_Progress exec;
     Dashboard.Running_URL := ExecutableRef_URL (Executor_CurrentExecutable exec) |}.

(** Surroundings in which every request is let through and answered 200
    with the same body. *)
Definition envServing (body : string) : Jenkins.Env :=
  {| Jenkins.limiter_Wait := fun _ => None;
     Jenkins.newRequest := fun _ _ => None;
     Jenkins.transport := fun _ _ => Jenkins.Response Jenkins.StatusOK body;
     Jenkins.decodeCrumbResp := fun _ => Jenkins.Err "invalid character" |}.

Definition clientA : Jenkins.Client := Jenkins.NewClient cfgPartial.

Definition emptyWorld : Jenkins.World := {| Jenkins.waits := 0; Jenkins.sent := [] |}.

End Examples.

(* ===================================================================== *)
(** * Sessions of one sub-controller                                      *)
(* ===================================================================== *)

Module Sessions.

Import Tea.

Section WithSorter.

Context {sorter : SortSlice}.

(** The dashboard after a series of messages, each handled at its own
    clock reading. *)
Definition dashboardAfter (events : list (Sys * Msg)) (m : Dashboard.DashboardModel)
  : Dashboard.DashboardModel :=
  fold_left (fun m ev => fst (Dashboard.Update (fst ev) (snd ev) m)) events m.

(** The builds tab after a series of messages, unless one of them made
    it panic. *)
Fixpoint buildsAfter (events : list (Sys * Msg)) (m : Builds.BuildsModel)
  : Outcome Builds.BuildsModel :=
  match events with
  | [] => Ok m
  | (sys, msg) :: rest =>
      bind (Builds.Update sys msg m) (fun r => buildsAfter rest (fst r))
  end.

End WithSorter.

(** A job detail with [n] builds, as the only payload of a message. *)
Definition detailWithBuilds (n : nat) : BuildsData :=
  {| BuildsData_Jobs := None;
     BuildsData_JobDetail :=
       Some {| Models.JobDetail_Name := "app"; Models.JobDetail_URL := "";
               Models.JobDetail_Color := "blue"; Models.JobDetail_Description := "";
               Models.JobDetail_Buildable := true; Models.JobDetail_InQueue := false;
               Models.JobDetail_LastBuild := None;
               Models.JobDetail_HealthReport := None;
               Models.JobDetail_Builds :=
                 Some (List.map (fun i => Scenario.buildAt (Z.of_nat i) 0) (seq 1 n)) |};
     BuildsData_BuildDetail := None; BuildsData_PipelineRun := None;
     BuildsData_LogContent := ""; BuildsData_Error := None |}.

(** The builds tab with its jobs loaded, one of them opened and the
    selection moved. *)
Definition buildsBrowsed : list (Sys * Msg) :=
  Scenario.at_ 1000
    [BuildsDataMsg {| BuildsData_Jobs := Some Scenario.jobsA;
                      BuildsData_JobDetail := None; BuildsData_BuildDetail := None;
                      BuildsData_PipelineRun := None; BuildsData_LogContent := "";
                      BuildsData_Error := None |};
     Scenario.key "j"; Scenario.named "enter";
     BuildsDataMsg (detailWithBuilds 3); Scenario.key "G"; Scenario.named "pgup"].

Definition buildsModelBrowsed : Builds.BuildsModel :=
  match buildsAfter (sorter := insertionSort) buildsBrowsed (Builds.NewBuildsModel 80 24) with
  | Ok m => m
  | Panic => Builds.NewBuildsModel 80 24
  end.

(** The wizard after a series of messages. *)
Definition setupAfter (msgs : list Msg) (m : Setup.SetupModel) : Setup.SetupModel :=
  fold_left (fun m msg => fst (Setup.Update msg m)) msgs m.

(** The keyboard focus is where [focusedField] says: the field is one of
    the four, and an input has the focus exactly when it is that field. *)
Definition focusFollowsField (m : Setup.SetupModel) : Prop :=
  0 <= Setup.focusedField m <= 3
  /\ focus (Setup.urlInput m) = (Setup.focusedField m =? Setup.FieldURL)
  /\ focus (Setup.usernameInput m) = (Setup.focusedField m =? Setup.FieldUsername)
  /\ focus (Setup.tokenInput m) = (Setup.focusedField m =? Setup.FieldToken).

(** The controller made ready, then [tab] and [shift+tab] pressed around
    the tab bar until the dashboard is active again. *)
Definition tabsPressed : list (Sys * Msg) :=
  Scenario.at_ 1000
    [ClientReadyMsg Scenario.clientB; Scenario.named "tab"; Scenario.named "tab";
     Scenario.named "tab"; Scenario.named "shift+tab"; Scenario.named "tab"].

Definition modelAfterTabs : App.Model :=
  Scenario.runFrom (App.NewModel Scenario.cfgB) tabsPressed.

(** The controller made ready, the help overlay opened, then [tab]. *)
Definition modelAfterHelpTab : App.Model :=
  Scenario.runFrom (App.NewModel Scenario.cfgB)
    (Scenario.at_ 1000
       [ClientReadyMsg Scenario.clientB; Scenario.key "?"; Scenario.named "tab"]).

End Sessions.

(* ===================================================================== *)
(** * Reading an encoded path back                                        *)
(* ===================================================================== *)

(** The source has no decoder; this one is the device by which the
    encoding is shown to lose nothing. *)
Module Decoding.

(** The value of an upper-case hexadecimal digit. *)
Definition unhex (c : ascii) : nat :=
  match String.index 0%nat (String c EmptyString) "0123456789ABCDEF" with
  | Some n => n
  | None => 0%nat
  end.

(** Percent-decoding of a segment. *)
Fixpoint unescape (s : string) : string :=
  match s with
  | EmptyString => EmptyString
  | String c r =>
      if Ascii.eqb c "%" then
        match r with
        | String h (String l r') =>
            String (ascii_of_nat (unhex h * 16 + unhex l)) (unescape r')
        | _ => s
        end
      else String c (unescape r)
  end.

(** Every second element of a list, from the first. *)
Fixpoint evens {A} (l : list A) : list A :=
  match l with
  | x :: _ :: r => x :: evens r
  | _ => l
  end.

(** The item name an encoded path stands for. *)
Definition decodeJobPath (path : string) : string :=
  strings_Join (map unescape (evens (strings_Split path "/"))) "/".

End Decoding.

(* ===================================================================== *)
(** * The controller seen from outside                                    *)
(* ===================================================================== *)

(** What a controller shows of itself without its data: the global
    state, the active tab, the help overlay, which sub-models exist and
    the panel the dashboard has selected.  [absUpdate] is what one
    message does to this summary. *)
Module Outline.

Import Tea App.

Definition present {A} (o : option A) : bool :=
  match o with Some _ => true | None => false end.

Record Summary : Type := mkSummary {
  s_state : AppState;
  s_tab : Z;
  s_help : bool;
  s_client : bool;
  s_setup : bool;
  s_panel : option Z;
  s_views : bool;
  s_builds : bool
}.

Definition summary (m : Model) : Summary :=
  {| s_state := state m; s_tab := activeTab m; s_help := showHelp m;
     s_client := present (client m); s_setup := present (setupModel m);
     s_panel := option_map Dashboard.selectedPanel (dashboardModel m);
     s_views := present (viewsModel m); s_builds := present (buildsModel m) |}.

Definition with_state (st : AppState) (a : Summary) : Summary :=
  {| s_state := st; s_tab := s_tab a; s_help := s_help a; s_client := s_client a;
     s_setup := s_setup a; s_panel := s_panel a; s_views := s_views a;
     s_builds := s_builds a |}.

Definition with_tab (tab : Z) (a : Summary) : Summary :=
  {| s_state := s_state a; s_tab := tab; s_help := s_help a; s_client := s_client a;
     s_setup := s_setup a; s_panel := s_panel a; s_views := s_views a;
     s_builds := s_builds a |}.

Definition with_help (help : bool) (a : Summary) : Summary :=
  {| s_state := s_state a; s_tab := s_tab a; s_help := help; s_client := s_client a;
     s_setup := s_setup a; s_panel := s_panel a; s_views := s_views a;
     s_builds := s_builds a |}.

Definition with_setup (setup : bool) (a : Summary) : Summary :=
  {| s_state := s_state a; s_tab := s_tab a; s_help := s_help a; s_client := s_client a;
     s_setup := setup; s_panel := s_panel a; s_views := s_views a;
     s_builds := s_builds a |}.

Definition with_panel (panel : option Z) (a : Summary) : Summary :=
  {| s_state := s_state a; s_tab := s_tab a; s_help := s_help a; s_client := s_client a;
     s_setup := s_setup a; s_panel := panel; s_views := s_views a;
     s_builds := s_builds a |}.

(** The panel of the dashboard after it has handled a message. *)
Definition panelAfter (msg : Msg) (p : Z) : Z :=
  match msg with
  | KeyMsg k =>
      if String.eqb (key_String k) "tab" then Z.rem (p + 1) 4
      else if String.eqb (key_String k) "shift+tab" then Z.rem (p + 3) 4
      else p
  | _ => p
  end.

Definition absDelegate (msg : Msg) (a : Summary) : Summary :=
  match s_state a with
  | StateReady =>
      if s_tab a =? TabDashboard
      then with_panel (option_map (panelAfter msg) (s_panel a)) a
      else a
  | _ => a
  end.

Definition absKey (msg : Msg) (key : string) (a : Summary) : Summary :=
  let ready := AppState_eqb (s_state a) StateReady in
  if (String.eqb key "ctrl+c" || String.eqb key "q")
     && negb (AppState_eqb (s_state a) StateSetup) then a
  else if String.eqb key "r" && AppState_eqb (s_state a) StateError
  then with_state StateLoading a
  else if String.eqb key "?" && ready then with_help (negb (s_help a)) a
  else if String.eqb key "ctrl+r" && ready then a
  else if String.eqb key "tab" && ready && negb (s_help a)
  then with_tab (Z.rem (s_tab a + 1) 3) a
  else if String.eqb key "shift+tab" && ready && negb (s_help a)
  then with_tab (Z.rem (s_tab a + 2) 3) a
  else if String.eqb key "1" && ready then with_tab TabDashboard a
  else if String.eqb key "2" && ready then with_tab TabViews a
  else if String.eqb key "3" && ready then with_tab TabBuilds a
  else if String.eqb key "esc" && s_help a then with_help false a
  else absDelegate msg a.

Definition absUpdate (sys : Sys) (msg : Msg) (a : Summary) : Summary :=
  match msg with
  | KeyMsg k => absKey msg (key_String k) a
  | WindowSizeMsg _ _ => a
  | SetupCompleteMsg cfg =>
      match Save sys cfg with
      | Some _ => with_state StateError a
      | None => with_setup false (with_state StateLoading a)
      end
  | ClientReadyMsg _ =>
      {| s_state := StateReady; s_tab := s_tab a; s_help := s_help a;
         s_client := true; s_setup := s_setup a;
         s_panel := Some Dashboard.PanelRunning; s_views := true; s_builds := true |}
  | ClientErrorMsg _ => with_state StateError a
  | AutoRefreshTickMsg => a
  | _ => absDelegate msg a
  end.

(** A summary that can be met: the tab is one of the three, a ready
    controller has its client and its three tabs, and a controller in
    setup has its wizard. *)
Definition wellFormed (a : Summary) : Prop :=
  0 <= s_tab a <= 2
  /\ (s_state a = StateReady ->
      s_client a = true /\ s_panel a <> None /\ s_views a = true /\ s_builds a = true)
  /\ (s_state a = StateSetup -> s_setup a = true).

(** The key of a message, if it is one. *)
Definition keyOf (msg : Msg) : option string :=
  match msg with KeyMsg k => Some (key_String k) | _ => None end.

End Outline.

(* ===================================================================== *)
(** * Notions the statements are written with                            *)
(* ===================================================================== *)

Module Notions.

Import Models Tea.

(** The number [Validate] leaves in a field holding [n], [d] being the
    fallback. *)
Definition orDefault (d n : Z) : Z := if n <=? 0 then d else n.

(** The label [Render] appends. *)
Definition barLabel (p : Components.ProgressBar) : string :=
  if Components.ShowLabel p then " " ++ Components.fmt_3d (Components.Percent p) ++ "%" else EmptyString.

(** The rows of a dashboard are those of its nodes at some clock reading. *)
Definition rowsFromNodes (m : Dashboard.DashboardModel) : Prop :=
  exists t, Dashboard.runningBuilds m = Dashboard.extractRunningBuilds t m.

(** The digit [r] in front of the numeral [d]. *)
Definition consDigit (r : Z) (d : Decimal.uint) : Decimal.uint :=
  match r with
  | 0 => Decimal.D0 d | 1 => Decimal.D1 d | 2 => Decimal.D2 d
  | 3 => Decimal.D3 d | 4 => Decimal.D4 d | 5 => Decimal.D5 d
  | 6 => Decimal.D6 d | 7 => Decimal.D7 d | 8 => Decimal.D8 d
  | _ => Decimal.D9 d
  end.

(** A numeral that starts with a digit other than zero. *)
Definition headed (d : Decimal.uint) : Prop :=
  Decimal.nzhead d = d /\ d <> Decimal.Nil.

Import Jenkins.

(** A request made on behalf of client [c]: its credentials, the JSON
    [Accept] header and a URL under its base URL. *)
Definition onBehalfOf (c : Client) (q : Request) : Prop :=
  reqBasicAuth q = (username c, apiToken c)
  /\ Header_Get "Accept" (reqHeader q) = Some "application/json"
  /\ exists path, reqURL q = (baseURL c ++ path)%string.

(** The same client but for its crumb state. *)
Definition sameIdentity (c c' : Client) : Prop :=
  baseURL c' = baseURL c /\ username c' = username c /\ apiToken c' = apiToken c.

(** What a read call does to the world: [k] GETs at most, nothing else. *)
Definition reads (k : nat) (w w' : World) : Prop :=
  exists new,
    sent w' = (new ++ sent w)%list
    /\ (length new <= k)%nat
    /\ Forall (fun q => reqMethod q = MethodGet) new.

(** What one GET of [path] meets in the world [w]: the body of the
    answer when the limiter and the request constructor let the request
    out and the server answers 200, and nothing otherwise. *)
Definition served (env : Env) (c : Client) (path : string) (w : World) : option string :=
  match limiter_Wait env (waits w), newRequest env MethodGet (baseURL c ++ path) with
  | None, None =>
      match transport env (sent w) (buildRequest c MethodGet path) with
      | Response status body => if status =? StatusOK then Some body else None
      | TransportError _ => None
      end
  | _, _ => None
  end.

(** The world after one GET of [path]: a token of the limiter is spent,
    and the request is on record unless the limiter or the request
    constructor refused it. *)
Definition afterGET (env : Env) (c : Client) (path : string) (w : World) : World :=
  {| waits := S (waits w);
     sent := match limiter_Wait env (waits w),
                   newRequest env MethodGet (baseURL c ++ path) with
             | None, None => buildRequest c MethodGet path :: sent w
             | _, _ => sent w
             end |}.

(** Two lists of builds that differ in their stages at most. *)
Definition sameButStages (a b : list BuildRef) : Prop :=
  map (Api.BuildRef_setStages None) a = map (Api.BuildRef_setStages None) b.

End Notions.

(* ===================================================================== *)
(** * Path encoding                                                       *)
(* ===================================================================== *)

Module PathProofs.

Import Jenkins.

(** The loop of [encodeJobPath], entered at index [length pre] with the
    first [length pre] cells already written, writes the rest. *)
Lemma range_loop_fill (f : string -> string) (parts pre : list string) :
  range_loop (fun i part (enc : list string) => <[i := f part]> enc)
             (length pre) parts
             (pre ++ replicate (length parts) EmptyString)%list
  = (pre ++ map f parts)%list.
Proof.
  revert pre. induction parts as [|x r IH]; intros pre; simpl.
  - reflexivity.
  - rewrite insert_app_r_alt by lia.
    replace (length pre - length pre)%nat with 0%nat by lia. simpl.
    specialize (IH (pre ++ [f x])%list).
    rewrite length_app in IH. simpl in IH.
    replace (length pre + 1)%nat with (S (length pre)) in IH by lia.
    rewrite <- !app_assoc in IH. simpl in IH. exact IH.
Qed.

(** The tests of [client_test.go]. *)
Example encodeJobPath_simple : encodeJobPath "simple-job" = "simple-job".
Proof. reflexivity. Qed.

Example encodeJobPath_folder : encodeJobPath "folder/job" = "folder/job/job".
Proof. reflexivity. Qed.

Example encodeJobPath_spaces :
  encodeJobPath "my folder/my job" = "my%20folder/job/my%20job".
Proof. reflexivity. Qed.

Example buildTreeParam_nested :
  buildTreeParam ["jobs[name,url,color]"] = "tree=jobs%5Bname%2Curl%2Ccolor%5D".
Proof. reflexivity. Qed.

Example GetJob_path_nested :
  strings_HasPrefix (GetJob_path "team a/app") "/job/team%20a/job/app/api/json?tree=" = true.
Proof. reflexivity. Qed.

(** C8. For every item name, [encodeJobPath] is the join, with the
    separator ["/job/"], of the percent-escaped pieces of the name split
    at ["/"]. *)
Theorem encodeJobPath_split_escape_join (jobName : string) :
  encodeJobPath jobName
  = strings_Join (map url_PathEscape (strings_Split jobName "/")) "/job/".
Proof.
  unfold encodeJobPath.
  f_equal.
  exact (range_loop_fill url_PathEscape (strings_Split jobName "/") []).
Qed.

Lemma string_existsb_app (p : ascii -> bool) (a b : string) :
  string_existsb p (a ++ b) = string_existsb p a || string_existsb p b.
Proof.
  induction a as [|c a IH]; simpl; [reflexivity|].
  rewrite IH. apply orb_assoc.
Qed.

Lemma upperhex_no_slash (n : nat) : (n < 16)%nat -> Ascii.eqb "/" (upperhex n) = false.
Proof.
  intros Hn. do 16 (destruct n as [|n]; [reflexivity|]). lia.
Qed.

(** An escaped segment holds no ["/"]: in the encoded path a slash only
    occurs inside a separator. *)
Lemma url_PathEscape_no_slash (s : string) :
  string_existsb (Ascii.eqb "/") (url_PathEscape s) = false.
Proof.
  induction s as [|c r IH]; [reflexivity|].
  cbn [url_PathEscape].
  destruct (shouldEscape_pathSegment c) eqn:E.
  - rewrite string_existsb_app, IH, orb_false_r.
    unfold percentByte. cbn [string_existsb].
    rewrite !upperhex_no_slash; [reflexivity| |].
    + apply Nat.mod_upper_bound. lia.
    + apply Nat.Div0.div_lt_upper_bound.
      pose proof (nat_ascii_bounded c). lia.
  - cbn [string_existsb]. rewrite IH, orb_false_r.
    destruct (Ascii.eqb "/" c) eqn:Ec; [|reflexivity].
    apply Ascii.eqb_eq in Ec. subst c. discriminate E.
Qed.

End PathProofs.

(* ===================================================================== *)
(** * The refresh interval of a new controller                            *)
(* ===================================================================== *)

Module IntervalProofs.

Import App Scenario.

Lemma NewModel_interval (cfg : Config.Config) :
  autoRefreshInterval (NewModel cfg)
  = let d := wrap64 (Config.AutoRefreshSeconds (Config.Profile_ cfg) * Second) in
    if d <? 5 * Second then 10 * Second else d.
Proof.
  unfold NewModel. destruct (negb (Config.IsConfigured cfg)); reflexivity.
Qed.

Lemma wrap64_small (z : Z) : - 2 ^ 63 <= z < 2 ^ 63 -> wrap64 z = z.
Proof.
  intros H. unfold wrap64. rewrite Z.mod_small; lia.
Qed.

(** C9, as stated, fails at a configured interval of 9223372037 seconds:
    its nanoseconds wrap to a negative count, and the controller runs
    with 10 seconds although the configured value is not below 5. *)
Lemma NewModel_interval_wraps :
  let cfg := cfgRefresh 9223372037 in
  5 <= Config.AutoRefreshSeconds (Config.Profile_ cfg)
  /\ autoRefreshInterval (NewModel cfg) = 10 * Second
  /\ autoRefreshInterval (NewModel cfg)
     <> Config.AutoRefreshSeconds (Config.Profile_ cfg) * Second.
Proof.
  vm_compute. repeat split; discriminate.
Qed.

(** C9, amended. The interval of a new controller is never below 5
    seconds; a configured number of seconds below 5 (zero and negative
    included) gives 10 seconds and any other gives the configured value,
    provided the configured number is within [-maxSeconds, maxSeconds]. *)
Theorem NewModel_interval_clamped (cfg : Config.Config) :
  let s := Config.AutoRefreshSeconds (Config.Profile_ cfg) in
  5 * Second <= autoRefreshInterval (NewModel cfg)
  /\ (- maxSeconds <= s <= maxSeconds ->
      (s < 5 -> autoRefreshInterval (NewModel cfg) = 10 * Second)
      /\ (5 <= s -> autoRefreshInterval (NewModel cfg) = s * Second)).
Proof.
  intros s. rewrite NewModel_interval. fold s. cbv zeta.
  split.
  - destruct (Z.ltb_spec (wrap64 (s * Second)) (5 * Second)); unfold Second in *; lia.
  - intros Hr. unfold maxSeconds in Hr.
    rewrite wrap64_small by (unfold Second; lia).
    destruct (Z.ltb_spec (s * Second) (5 * Second)); unfold Second in *; split; lia.
Qed.

Lemma NewModel_interval_clamped_witness :
  5 * Second <= autoRefreshInterval (NewModel (cfgRefresh 3))
  /\ autoRefreshInterval (NewModel (cfgRefresh 3)) = 10 * Second
  /\ autoRefreshInterval (NewModel (cfgRefresh 30)) = 30 * Second.
Proof.
  pose proof (NewModel_interval_clamped (cfgRefresh 3)) as [H1 H2].
  pose proof (NewModel_interval_clamped (cfgRefresh 30)) as [_ H3].
  split; [exact H1|]. split.
  - apply H2; simpl; unfold maxSeconds; lia.
  - apply H3; simpl; unfold maxSeconds; lia.
Defined.

End IntervalProofs.


(* ===================================================================== *)
(** * The request pipeline and the crumb negotiation                      *)
(* ===================================================================== *)

Module ClientProofs.

Import Jenkins Scenario.

Section WithEnv.

Variable env : Env.

Lemma doRequest_S (fuel : nat) (method path : string) (c : Client) (w : World) :
  doRequest env (S fuel) method path c w
  = match limiter_Wait env (waits w) with
    | Some e =>
        Some (Err ("rate limiter error: " ++ e), c, {| waits := S (waits w); sent := sent w |})
    | None =>
        match newRequest env method (baseURL c ++ path) with
        | Some e =>
            Some (Err ("error creating request: " ++ e), c,
                  {| waits := S (waits w); sent := sent w |})
        | None =>
            let req := buildRequest c method path in
            let w' := {| waits := S (waits w); sent := req :: sent w |} in
            match transport env (sent w) req with
            | TransportError e => Some (Err ("error making request: " ++ e), c, w')
            | Response status body =>
                if status =? StatusUnauthorized then Some (Err errUnauthorized, c, w')
                else if status =? StatusForbidden then
                  if negb (crumbTested c) && negb (String.eqb method MethodGet)
                  then match fetchCrumb_with env (doRequest env fuel) c w' with
                       | None => None
                       | Some (None, c, w) => doRequest env fuel method path c w
                       | Some (Some _, c, w) => Some (Err errForbidden, c, w)
                       end
                  else Some (Err errForbidden, c, w')
                else Some (Ret (status, body), c, w')
            end
        end
    end.
Proof. reflexivity. Qed.

(** A pass that cannot negotiate does not recurse. *)
Lemma doRequest_flat (fuel : nat) (method path : string) (c : Client) (w : World) :
  negb (crumbTested c) && negb (String.eqb method MethodGet) = false ->
  doRequest env (S fuel) method path c w
  = Some (fst (attempt env method path c w), c, snd (attempt env method path c w)).
Proof.
  intros H. rewrite doRequest_S. unfold attempt.
  destruct (limiter_Wait env (waits w)); [reflexivity|].
  destruct (newRequest env method (baseURL c ++ path)); [reflexivity|].
  cbv zeta. cbn [waits sent].
  destruct (transport env (sent w) (buildRequest c method path)) as [e|status body];
    [reflexivity|].
  destruct (status =? StatusUnauthorized); [reflexivity|].
  destruct (status =? StatusForbidden); [|reflexivity].
  rewrite H. reflexivity.
Qed.

Lemma forbidden_inv (method path : string) (c : Client) (w : World) :
  forbidden env method path c w = true ->
  exists body,
    limiter_Wait env (waits w) = None
    /\ newRequest env method (baseURL c ++ path) = None
    /\ transport env (sent w) (buildRequest c method path) = Response StatusForbidden body.
Proof.
  unfold forbidden.
  destruct (limiter_Wait env (waits w)); [discriminate|].
  destruct (newRequest env method (baseURL c ++ path)); [discriminate|].
  destruct (transport env (sent w) (buildRequest c method path)) as [e|status body];
    [discriminate|].
  intros H. apply Z.eqb_eq in H. subst status. eauto.
Qed.

(** A pass that is not answered 403 does not recurse either. *)
Lemma doRequest_not_forbidden (fuel : nat) (method path : string) (c : Client) (w : World) :
  forbidden env method path c w = false ->
  doRequest env (S fuel) method path c w
  = Some (fst (attempt env method path c w), c, snd (attempt env method path c w)).
Proof.
  intros H. rewrite doRequest_S. unfold attempt. unfold forbidden in H.
  destruct (limiter_Wait env (waits w)); [reflexivity|].
  destruct (newRequest env method (baseURL c ++ path)); [reflexivity|].
  cbv zeta. cbn [waits sent].
  destruct (transport env (sent w) (buildRequest c method path)) as [e|status body];
    [reflexivity|].
  destruct (status =? StatusUnauthorized); [reflexivity|].
  rewrite H. reflexivity.
Qed.

Lemma attempt_forbidden (method path : string) (c : Client) (w : World) :
  forbidden env method path c w = true ->
  attempt env method path c w
  = (Err errForbidden,
     {| waits := S (waits w); sent := buildRequest c method path :: sent w |}).
Proof.
  intros H. destruct (forbidden_inv _ _ _ _ H) as (body & Hl & Hn & Ht).
  unfold attempt. rewrite Hl, Hn. cbv zeta. cbn [waits sent]. rewrite Ht.
  reflexivity.
Qed.

(** Totality: two levels of recursion are enough, and more change
    nothing. *)
Lemma doRequest_request (fuel : nat) (method path : string) (c : Client) (w : World) :
  doRequest env (S (S fuel)) method path c w = Some (request env method path c w).
Proof.
  unfold request.
  destruct (forbidden env method path c w) eqn:Hf.
  - destruct (negb (crumbTested c) && negb (String.eqb method MethodGet)) eqn:Eneg.
    + rewrite (attempt_forbidden _ _ _ _ Hf). cbn [andb].
      destruct (forbidden_inv _ _ _ _ Hf) as (body & Hl & Hn & Ht).
      rewrite doRequest_S, Hl, Hn. cbv zeta. rewrite Ht.
      change (StatusForbidden =? StatusUnauthorized) with false.
      change (StatusForbidden =? StatusForbidden) with true.
      cbv iota. rewrite Eneg.
      set (w1 := {| waits := S (waits w); sent := buildRequest c method path :: sent w |}).
      unfold fetchCrumb_with. fold (tested c).
      rewrite doRequest_flat
        by (change (String.eqb MethodGet MethodGet) with true;
            rewrite andb_false_r; reflexivity).
      destruct (attempt env MethodGet crumbIssuerPath (tested c) w1) as [r2 w2].
      cbn [fst snd].
      destruct r2 as [[st body2]|e2]; [|reflexivity].
      destruct (negb (st =? StatusOK)); [reflexivity|].
      destruct (decodeCrumbResp env body2) as [[cr fld]|e3]; [|reflexivity].
      fold (cached cr fld (tested c)).
      rewrite doRequest_flat by reflexivity.
      destruct (attempt env method path (cached cr fld (tested c)) w2); reflexivity.
    + rewrite doRequest_flat by exact Eneg.
      destruct (attempt env method path c w); reflexivity.
  - rewrite doRequest_not_forbidden by exact Hf.
    destruct (attempt env method path c w); reflexivity.
Qed.

Lemma string_app_eqb (a p q : string) : String.eqb (a ++ p) (a ++ q) = String.eqb p q.
Proof.
  induction a as [|ch a IH]; [reflexivity|].
  change (String ch a ++ p) with (String ch (a ++ p)).
  change (String ch a ++ q) with (String ch (a ++ q)).
  cbn [String.eqb]. rewrite Ascii.eqb_refl. exact IH.
Qed.

Lemma isCrumbRequest_build (c c' : Client) (method path : string) :
  baseURL c' = baseURL c ->
  isCrumbRequest c (buildRequest c' method path) = String.eqb path crumbIssuerPath.
Proof.
  intros H. unfold isCrumbRequest, buildRequest. cbn [reqURL].
  rewrite H. apply string_app_eqb.
Qed.

Lemma crumbRequests_cons (c : Client) (n : nat) (r : Request) (l : list Request) :
  crumbRequests c {| waits := n; sent := r :: l |}
  = ((if isCrumbRequest c r then 1 else 0) + crumbRequests c {| waits := n; sent := l |})%nat.
Proof.
  unfold crumbRequests. cbn [sent].
  destruct (isCrumbRequest c r) eqn:E.
  - rewrite filter_cons_True by exact E. reflexivity.
  - rewrite filter_cons_False by (rewrite E; discriminate). reflexivity.
Qed.

Lemma crumbRequests_waits (c : Client) (n : nat) (w : World) :
  crumbRequests c {| waits := n; sent := sent w |} = crumbRequests c w.
Proof. reflexivity. Qed.

(** What one pass does to the world: one token, and at most the one
    request it built. *)
Lemma attempt_world (method path : string) (c : Client) (w : World) :
  snd (attempt env method path c w) = {| waits := S (waits w); sent := sent w |}
  \/ snd (attempt env method path c w)
     = {| waits := S (waits w); sent := buildRequest c method path :: sent w |}.
Proof.
  unfold attempt.
  destruct (limiter_Wait env (waits w)); [left; reflexivity|].
  destruct (newRequest env method (baseURL c ++ path)); [left; reflexivity|].
  cbv zeta. cbn [waits sent].
  destruct (transport env (sent w) (buildRequest c method path)) as [e|status body];
    [right; reflexivity|].
  destruct (status =? StatusUnauthorized); [right; reflexivity|].
  destruct (status =? StatusForbidden); right; reflexivity.
Qed.

Lemma crumbRequests_attempt_other (c c' : Client) (method path : string) (w : World) :
  baseURL c' = baseURL c -> path <> crumbIssuerPath ->
  crumbRequests c (snd (attempt env method path c' w)) = crumbRequests c w.
Proof.
  intros Hb Hp.
  destruct (attempt_world method path c' w) as [-> | ->].
  - apply crumbRequests_waits.
  - rewrite crumbRequests_cons, isCrumbRequest_build by exact Hb.
    destruct (String.eqb_spec path crumbIssuerPath); [contradiction|].
    apply crumbRequests_waits.
Qed.

Lemma crumbRequests_attempt_le (c c' : Client) (method path : string) (w : World) :
  (crumbRequests c (snd (attempt env method path c' w)) <= S (crumbRequests c w))%nat.
Proof.
  destruct (attempt_world method path c' w) as [-> | ->].
  - rewrite crumbRequests_waits. lia.
  - rewrite crumbRequests_cons, crumbRequests_waits.
    destruct (isCrumbRequest c _); lia.
Qed.

(** A call of the application keeps the invariant, the base URL and a
    finished negotiation. *)
Lemma request_invariant (method path : string) (c : Client) (w : World) :
  path <> crumbIssuerPath ->
  negotiatedOnce c w ->
  negotiatedOnce (snd (fst (request env method path c w))) (snd (request env method path c w))
  /\ baseURL (snd (fst (request env method path c w))) = baseURL c.
Proof.
  intros Hp [Hle Hzero]. unfold request.
  pose proof (crumbRequests_attempt_other c c method path w eq_refl Hp) as H1.
  destruct (attempt env method path c w) as [r1 w1] eqn:E1. cbn [snd] in H1.
  destruct (forbidden env method path c w
            && (negb (crumbTested c) && negb (String.eqb method MethodGet))) eqn:Econd.
  - apply andb_prop in Econd as [_ Econd]. apply andb_prop in Econd as [Ht _].
    apply negb_true_iff in Ht. specialize (Hzero Ht).
    pose proof (crumbRequests_attempt_le c (tested c) MethodGet crumbIssuerPath w1) as H2.
    destruct (attempt env MethodGet crumbIssuerPath (tested c) w1) as [r2 w2] eqn:E2.
    cbn [snd] in H2.
    assert (Hbad : negotiatedOnce (tested c) w2 /\ baseURL (tested c) = baseURL c).
    { split; [|reflexivity]. split; [|discriminate].
      change (crumbRequests (tested c) w2) with (crumbRequests c w2). lia. }
    destruct r2 as [[st body2]|e2]; [|exact Hbad].
    destruct (negb (st =? StatusOK)); [exact Hbad|].
    destruct (decodeCrumbResp env body2) as [[cr fld]|e3]; [|exact Hbad].
    pose proof (crumbRequests_attempt_other c (cached cr fld (tested c)) method path w2
                  eq_refl Hp) as H3.
    destruct (attempt env method path (cached cr fld (tested c)) w2) as [r3 w3].
    cbn [fst snd] in *. split; [|reflexivity]. split; [|discriminate].
    change (crumbRequests (cached cr fld (tested c)) w3) with (crumbRequests c w3). lia.
  - cbn [fst snd]. split; [|reflexivity]. split; [lia|].
    intros Ht. rewrite H1. exact (Hzero Ht).
Qed.

Lemma session_cons (k : Call) (rest : list Call) (c : Client) (w : World) :
  session env (k :: rest) c w
  = session env rest (snd (fst (request env (callMethod k) (callPath k) c w)))
                     (snd (request env (callMethod k) (callPath k) c w)).
Proof.
  cbn [session]. unfold callDepth. rewrite doRequest_request.
  destruct (request env (callMethod k) (callPath k) c w) as [[r c'] w']. reflexivity.
Qed.

(** Every session runs to its end and keeps the invariant. *)
Lemma session_invariant (calls : list Call) (c : Client) (w : World) :
  Forall (fun k => callPath k <> crumbIssuerPath) calls ->
  negotiatedOnce c w ->
  exists c' w', session env calls c w = Some (c', w') /\ negotiatedOnce c' w'.
Proof.
  intros Hall. revert c w.
  induction Hall as [|k rest Hk _ IH]; intros c w Hinv.
  - exists c, w. split; [reflexivity|exact Hinv].
  - rewrite session_cons.
    destruct (request_invariant (callMethod k) (callPath k) c w Hk Hinv) as [Hinv' _].
    exact (IH _ _ Hinv').
Qed.

(** After the negotiation a 403 is final: one token, one request, the
    authorization error, the client as it was. *)
Lemma forbidden_after_negotiation (method path body : string) (c : Client) (w : World) :
  crumbTested c = true ->
  limiter_Wait env (waits w) = None ->
  newRequest env method (baseURL c ++ path) = None ->
  transport env (sent w) (buildRequest c method path) = Response StatusForbidden body ->
  doRequest env callDepth method path c w
  = Some (Err errForbidden, c,
          {| waits := S (waits w); sent := buildRequest c method path :: sent w |}).
Proof.
  intros Ht Hl Hn Hr. unfold callDepth.
  rewrite doRequest_flat by (rewrite Ht; reflexivity).
  unfold attempt. rewrite Hl, Hn. cbv zeta. cbn [waits sent]. rewrite Hr.
  reflexivity.
Qed.

Lemma attempt_sent_admitted (method path : string) (c : Client) (w : World) :
  limiter_Wait env (waits w) = None ->
  newRequest env method (baseURL c ++ path) = None ->
  snd (attempt env method path c w)
  = {| waits := S (waits w); sent := buildRequest c method path :: sent w |}.
Proof.
  intros Hl Hn. unfold attempt. rewrite Hl, Hn. cbv zeta. cbn [waits sent].
  destruct (transport env (sent w) (buildRequest c method path)) as [e|status body];
    [reflexivity|].
  destruct (status =? StatusUnauthorized); [reflexivity|].
  destruct (status =? StatusForbidden); reflexivity.
Qed.

Lemma nonEmpty_true (s : string) : s <> EmptyString -> Config.nonEmpty s = true.
Proof. destruct s; [contradiction|reflexivity]. Qed.

(** The request a client with a cached crumb builds for a method other
    than GET carries the crumb, unless the field is [Accept] itself. *)
Lemma buildRequest_crumb_header (c : Client) (method path : string) :
  method <> MethodGet ->
  crumb c <> EmptyString -> crumbField c <> EmptyString ->
  CanonicalMIMEHeaderKey (crumbField c) <> "Accept" ->
  Header_Get (crumbField c) (reqHeader (buildRequest c method path)) = Some (crumb c).
Proof.
  intros Hm Hc Hf Ha. unfold buildRequest. cbn [reqHeader].
  destruct (String.eqb_spec method MethodGet) as [|_]; [contradiction|].
  cbn [negb]. rewrite (nonEmpty_true _ Hc), (nonEmpty_true _ Hf). cbn [andb].
  unfold Header_Get, Header_Set.
  change (CanonicalMIMEHeaderKey "Accept") with "Accept".
  rewrite lookup_insert_ne by congruence.
  apply lookup_insert_eq.
Qed.

End WithEnv.



(** Scenario C of the design document: every call answered 403.  The
    first POST costs two tokens, its own and that of the one call of the
    issuer; the second POST and the GET cost one each. *)
Example scenario_C :
  exists c w,
    session envC callsC (NewClient cfgB) freshWorld = Some (c, w)
    /\ crumbRequests c w = 1%nat
    /\ waits w = 4%nat
    /\ length (sent w) = 4%nat
    /\ crumbTested c = true /\ crumb c = EmptyString.
Proof.
  eexists _, _. split; [vm_compute; reflexivity|].
  vm_compute. repeat split.
Qed.

Example scenario_C_error :
  fst (request envC MethodPost buildPath (NewClient cfgB) freshWorld)
  = (Err errForbidden, tested (NewClient cfgB)).
Proof. vm_compute. reflexivity. Qed.

(** C2, as stated, fails in three places.  An issuer that answers 201
    (a 2xx) with both members is taken as a failure: nothing is cached
    and the POST is not retried.  An issuer that answers 200 with an
    empty crumb is taken as a success, and the retry carries no crumb
    header.  An issuer that names [accept] as the field has its crumb
    overwritten by the [Accept] header of the client. *)
Lemma crumb_retry_needs_200_and_values :
  (transport env201 (sent (snd (attempt env201 MethodPost buildPath (NewClient cfgB) freshWorld)))
             (buildRequest (tested (NewClient cfgB)) MethodGet crumbIssuerPath)
   = Response 201 (crumbBody "abc" "X-Crumb")
   /\ decodeCrumbResp env201 (crumbBody "abc" "X-Crumb") = Ret ("abc", "X-Crumb")
   /\ exists c w,
        doRequest env201 callDepth MethodPost buildPath (NewClient cfgB) freshWorld
        = Some (Err errForbidden, c, w)
        /\ crumb c = EmptyString /\ crumbField c = EmptyString
        /\ length (sent w) = 2%nat)
  /\ (decodeCrumbResp envEmpty (crumbBody "" "X-Crumb") = Ret ("", "X-Crumb")
      /\ exists r c w req,
           doRequest envEmpty callDepth MethodPost buildPath (NewClient cfgB) freshWorld
           = Some (r, c, w)
           /\ length (sent w) = 3%nat
           /\ lastSent w = Some req
           /\ crumbField c = "X-Crumb"
           /\ Header_Get "X-Crumb" (reqHeader req) = None)
  /\ (exists r c w req,
        doRequest envAccept callDepth MethodPost buildPath (NewClient cfgB) freshWorld
        = Some (r, c, w)
        /\ lastSent w = Some req
        /\ crumb c = "abc" /\ crumbField c = "accept"
        /\ Header_Get "accept" (reqHeader req) = Some "application/json").
Proof.
  split; [|split].
  - split; [vm_compute; reflexivity|]. split; [vm_compute; reflexivity|].
    eexists _, _. split; [vm_compute; reflexivity|]. vm_compute. repeat split.
  - split; [vm_compute; reflexivity|].
    eexists _, _, _, _. split; [vm_compute; reflexivity|].
    split; [vm_compute; reflexivity|]. split; [vm_compute; reflexivity|].
    split; vm_compute; reflexivity.
  - eexists _, _, _, _. split; [vm_compute; reflexivity|].
    split; [vm_compute; reflexivity|].
    repeat split; vm_compute; reflexivity.
Qed.

(** C2, amended. A non-GET request of a client that has not negotiated
    is answered 403; the crumb issuer answers 200 with a body that
    decodes to a non-empty crumb and a non-empty field name other than
    [Accept]; the limiter lets the three requests through.  Then the
    client caches both strings, sends the original request once more and
    no further request, and the request sent again carries the cached
    crumb under the cached field name; the result of the call is the
    classification of the answer to that request. *)
Theorem crumb_retry_carries_header
  (env : Env) (c : Client) (w : World) (method path body1 body cr fld : string) :
  let req1 := buildRequest c method path in
  let crumbReq := buildRequest (tested c) MethodGet crumbIssuerPath in
  let c2 := cached cr fld (tested c) in
  let req3 := buildRequest c2 method path in
  let w2 := {| waits := S (S (waits w)); sent := crumbReq :: req1 :: sent w |} in
  method <> MethodGet ->
  crumbTested c = false ->
  limiter_Wait env (waits w) = None ->
  limiter_Wait env (S (waits w)) = None ->
  limiter_Wait env (S (S (waits w))) = None ->
  newRequest env method (baseURL c ++ path) = None ->
  newRequest env MethodGet (baseURL c ++ crumbIssuerPath) = None ->
  transport env (sent w) req1 = Response StatusForbidden body1 ->
  transport env (req1 :: sent w) crumbReq = Response StatusOK body ->
  decodeCrumbResp env body = Ret (cr, fld) ->
  cr <> EmptyString -> fld <> EmptyString ->
  CanonicalMIMEHeaderKey fld <> "Accept" ->
  doRequest env callDepth method path c w
  = Some (fst (attempt env method path c2 w2), c2,
          {| waits := S (S (S (waits w))); sent := req3 :: crumbReq :: req1 :: sent w |})
  /\ crumb c2 = cr /\ crumbField c2 = fld /\ crumbTested c2 = true
  /\ reqMethod req3 = method /\ reqURL req3 = reqURL req1
  /\ Header_Get fld (reqHeader req3) = Some cr.
Proof.
  intros req1 crumbReq c2 req3 w2 Hm Ht Hl1 Hl2 Hl3 Hn1 Hn2 Hr1 Hr2 Hd Hcr Hfld Hacc.
  split; [|split; [reflexivity|split; [reflexivity|split; [reflexivity|
           split; [reflexivity|split; [reflexivity|]]]]]].
  - unfold callDepth. rewrite doRequest_request. unfold request.
    assert (Hf : forbidden env method path c w = true).
    { unfold forbidden. rewrite Hl1, Hn1. fold req1. rewrite Hr1. reflexivity. }
    rewrite (attempt_forbidden env _ _ _ _ Hf), Hf, Ht. fold req1.
    destruct (String.eqb_spec method MethodGet) as [|_]; [contradiction|].
    cbn [negb andb].
    assert (Ha2 : attempt env MethodGet crumbIssuerPath (tested c)
                    {| waits := S (waits w); sent := req1 :: sent w |}
                  = (Ret (StatusOK, body), w2)).
    { unfold attempt. cbn [waits sent baseURL tested]. rewrite Hl2, Hn2.
      cbv zeta. cbn [waits sent]. fold (tested c). fold crumbReq. rewrite Hr2.
      reflexivity. }
    rewrite Ha2. change (negb (StatusOK =? StatusOK)) with false. cbv iota.
    rewrite Hd. fold c2.
    pose proof (attempt_sent_admitted env method path c2 w2 Hl3 Hn1) as Hw3.
    destruct (attempt env method path c2 w2) as [r3 w3]. cbn [fst snd] in *.
    rewrite Hw3. reflexivity.
  - apply (buildRequest_crumb_header c2 method path Hm Hcr Hfld Hacc).
Qed.

Lemma crumb_retry_carries_header_witness :
  doRequest envB callDepth MethodPost buildPath (NewClient cfgB) freshWorld
  = Some (fst (attempt envB MethodPost buildPath
                 (cached "abc" "X-Crumb" (tested (NewClient cfgB)))
                 {| waits := 2;
                    sent := [ buildRequest (tested (NewClient cfgB)) MethodGet crumbIssuerPath;
                              buildRequest (NewClient cfgB) MethodPost buildPath ] |}),
          cached "abc" "X-Crumb" (tested (NewClient cfgB)),
          {| waits := 3;
             sent := [ buildRequest (cached "abc" "X-Crumb" (tested (NewClient cfgB)))
                         MethodPost buildPath;
                       buildRequest (tested (NewClient cfgB)) MethodGet crumbIssuerPath;
                       buildRequest (NewClient cfgB) MethodPost buildPath ] |})
  /\ crumb (cached "abc" "X-Crumb" (tested (NewClient cfgB))) = "abc"
  /\ crumbField (cached "abc" "X-Crumb" (tested (NewClient cfgB))) = "X-Crumb"
  /\ crumbTested (cached "abc" "X-Crumb" (tested (NewClient cfgB))) = true
  /\ reqMethod (buildRequest (cached "abc" "X-Crumb" (tested (NewClient cfgB)))
                  MethodPost buildPath) = MethodPost
  /\ reqURL (buildRequest (cached "abc" "X-Crumb" (tested (NewClient cfgB)))
               MethodPost buildPath)
     = reqURL (buildRequest (NewClient cfgB) MethodPost buildPath)
  /\ Header_Get "X-Crumb"
       (reqHeader (buildRequest (cached "abc" "X-Crumb" (tested (NewClient cfgB)))
                     MethodPost buildPath))
     = Some "abc".
Proof.
  apply (crumb_retry_carries_header envB (NewClient cfgB) freshWorld
           MethodPost buildPath "" (crumbBody "abc" "X-Crumb") "abc" "X-Crumb");
    try reflexivity; try discriminate.
Defined.

(** Scenario B of the design document: the retried POST succeeds. *)
Example scenario_B :
  fst (fst (request envB MethodPost buildPath (NewClient cfgB) freshWorld))
  = Ret (StatusCreated, "").
Proof. vm_compute. reflexivity. Qed.

End ClientProofs.

(* ===================================================================== *)
(** * The dashboard: merging in any order                                 *)
(* ===================================================================== *)

Module DashboardProofs.

Import Models Tea Dashboard Scenario.

Section WithSorter.

Context {sorter : SortSlice}.

Lemma lastWrite_cons {A} (w : option A) (ws : list (option A)) (init : A) :
  lastWrite (w :: ws) init
  = lastWrite ws (match w with Some x => x | None => init end).
Proof. reflexivity. Qed.

(** When every write carries the same value, and one is made (or the
    field holds the value already), the field ends with that value. *)
Lemma lastWrite_single {A} (x : A) (ws : list (option A)) (init : A) :
  Forall (fun w => w = None \/ w = Some x) ws ->
  In (Some x) ws \/ init = x ->
  lastWrite ws init = x.
Proof.
  intros Hall. revert init.
  induction Hall as [|w ws Hw _ IH]; intros init Hin.
  - destruct Hin as [[]|Hi]. exact Hi.
  - rewrite lastWrite_cons. apply IH.
    destruct Hw as [-> | ->].
    + destruct Hin as [[Hd|Hi]|Hi]; [discriminate|left; exact Hi|right; exact Hi].
    + right. reflexivity.
Qed.

Lemma lastWrite_perm_single {A} (x : A) (ws base : list (option A)) (init : A) :
  Permutation ws base ->
  Forall (fun w => w = None \/ w = Some x) base ->
  In (Some x) base ->
  lastWrite ws init = x.
Proof.
  intros Hp Hall Hin. apply lastWrite_single.
  - exact (Permutation_Forall (Permutation_sym Hp) Hall).
  - left. exact (Permutation_in _ (Permutation_sym Hp) Hin).
Qed.

Lemma extractRunningBuilds_nodes (t : Z) (m : DashboardModel) :
  extractRunningBuilds t m = runningBuildsOf t (nodes m).
Proof. reflexivity. Qed.

(** What one merge writes, field by field. *)
Lemma merge_rootInfo (t : Z) (d : DashboardData) (m : DashboardModel) :
  rootInfo (merge t d m)
  = match DashboardData_RootInfo d with Some r => Some r | None => rootInfo m end.
Proof.
  unfold merge.
  destruct (DashboardData_RootInfo d), (DashboardData_Nodes d), (DashboardData_Queue d),
    (DashboardData_Jobs d), (DashboardData_Error d); reflexivity.
Qed.

Lemma merge_nodes (t : Z) (d : DashboardData) (m : DashboardModel) :
  nodes (merge t d m)
  = match DashboardData_Nodes d with Some ns => Some ns | None => nodes m end.
Proof.
  unfold merge.
  destruct (DashboardData_RootInfo d), (DashboardData_Nodes d), (DashboardData_Queue d),
    (DashboardData_Jobs d), (DashboardData_Error d); reflexivity.
Qed.

Lemma merge_runningBuilds (t : Z) (d : DashboardData) (m : DashboardModel) :
  runningBuilds (merge t d m)
  = match DashboardData_Nodes d with
    | Some ns => runningBuildsOf t (Some ns)
    | None => runningBuilds m
    end.
Proof.
  unfold merge.
  destruct (DashboardData_RootInfo d), (DashboardData_Nodes d), (DashboardData_Queue d),
    (DashboardData_Jobs d), (DashboardData_Error d); reflexivity.
Qed.

Lemma merge_queue (t : Z) (d : DashboardData) (m : DashboardModel) :
  queue (merge t d m)
  = match DashboardData_Queue d with Some q => Some q | None => queue m end.
Proof.
  unfold merge.
  destruct (DashboardData_RootInfo d), (DashboardData_Nodes d), (DashboardData_Queue d),
    (DashboardData_Jobs d), (DashboardData_Error d); reflexivity.
Qed.

Lemma merge_recentBuilds (t : Z) (d : DashboardData) (m : DashboardModel) :
  recentBuilds (merge t d m)
  = match DashboardData_Jobs d with
    | Some js => recentBuildsOf (Some js)
    | None => recentBuilds m
    end.
Proof.
  unfold merge.
  destruct (DashboardData_RootInfo d), (DashboardData_Nodes d), (DashboardData_Queue d),
    (DashboardData_Jobs d), (DashboardData_Error d); reflexivity.
Qed.

(** A field after a series of messages is its last write. *)
Lemma handleAll_field {A} (field : DashboardModel -> A)
  (write : Sys * DashboardData -> option A) :
  (forall e m, field (merge (now (fst e)) (snd e) m)
               = match write e with Some x => x | None => field m end) ->
  forall events m,
    field (handleAll events m) = lastWrite (map write events) (field m).
Proof.
  intros Hstep events.
  induction events as [|e events IH]; intros m; [reflexivity|].
  cbn [handleAll fold_left map]. rewrite lastWrite_cons, <- Hstep.
  exact (IH _).
Qed.

Lemma map_snd_handledAt (clock : list Sys) (msgs : list DashboardData) :
  length clock = length msgs -> map snd (handledAt clock msgs) = msgs.
Proof.
  unfold handledAt. revert msgs.
  induction clock as [|s clock IH]; intros [|d msgs] H; try discriminate H;
    [reflexivity|].
  cbn [combine map snd]. f_equal. apply IH. now injection H.
Qed.

(** The fields that do not depend on the clock, after the four messages
    in any order. *)
Lemma handleAll_payloads (r : RootInfo) (ns : list Node) (q : Queue) (js : list Job)
  (eR eN eQ eJ : error) (clock : list Sys) (msgs : list DashboardData)
  (m0 : DashboardModel) :
  Permutation msgs (fourPayloads r ns q js eR eN eQ eJ) ->
  length clock = 4%nat ->
  let m := handleAll (handledAt clock msgs) m0 in
  (rootInfo m, nodes m, queue m, recentBuilds m)
  = (Some r, Some ns, Some q, recentBuildsOf (Some js)).
Proof.
  intros Hp Hlen m. subst m.
  assert (Hmsgs : map snd (handledAt clock msgs) = msgs).
  { apply map_snd_handledAt. rewrite Hlen, (Permutation_length Hp). reflexivity. }
  rewrite (handleAll_field rootInfo
             (fun e => match DashboardData_RootInfo (snd e) with
                       | Some x => Some (Some x) | None => None end))
    by (intros e m; rewrite merge_rootInfo;
        destruct (DashboardData_RootInfo (snd e)); reflexivity).
  rewrite (handleAll_field nodes
             (fun e => match DashboardData_Nodes (snd e) with
                       | Some x => Some (Some x) | None => None end))
    by (intros e m; rewrite merge_nodes;
        destruct (DashboardData_Nodes (snd e)); reflexivity).
  rewrite (handleAll_field queue
             (fun e => match DashboardData_Queue (snd e) with
                       | Some x => Some (Some x) | None => None end))
    by (intros e m; rewrite merge_queue;
        destruct (DashboardData_Queue (snd e)); reflexivity).
  rewrite (handleAll_field recentBuilds
             (fun e => match DashboardData_Jobs (snd e) with
                       | Some x => Some (recentBuildsOf (Some x)) | None => None end))
    by (intros e m; rewrite merge_recentBuilds;
        destruct (DashboardData_Jobs (snd e)); reflexivity).
  repeat f_equal;
    match goal with
    | |- lastWrite (map (fun e => match ?proj (snd e) with
                                  | Some x => @?g x | None => None end) _) _ = _ =>
        rewrite <- (map_map snd (fun d => match proj d with
                                          | Some x => g x | None => None end)),
          Hmsgs;
        (eapply lastWrite_perm_single;
         [ apply Permutation_map; exact Hp
         | cbn;
           repeat (constructor;
                   [first [left; reflexivity | right; reflexivity]|]);
           constructor
         | cbn; auto 10 ])
    end.
Qed.

(** Messages without a nodes payload leave the running builds alone. *)
Lemma handleAll_keeps_running (clock : list Sys) (msgs : list DashboardData)
  (m : DashboardModel) :
  Forall (fun d => DashboardData_Nodes d = None) msgs ->
  runningBuilds (handleAll (handledAt clock msgs) m) = runningBuilds m.
Proof.
  intros H. revert clock m.
  induction H as [|d msgs Hd _ IH]; intros [|s clock] m; try reflexivity.
  unfold handledAt. cbn [combine handleAll fold_left fst snd Update].
  change (fold_left _ (combine clock msgs) ?m')
    with (handleAll (handledAt clock msgs) m').
  rewrite IH, merge_runningBuilds, Hd. reflexivity.
Qed.

(** The running builds are those of the nodes at the reading at which
    the one nodes message is handled. *)
Lemma handleAll_running (ns : list Node) (e : error)
  (before after : list DashboardData) (clock : list Sys) (m : DashboardModel) :
  Forall (fun d => DashboardData_Nodes d = None) after ->
  length clock = length (before ++ nodesMsg ns e :: after) ->
  exists s,
    In (s, nodesMsg ns e) (handledAt clock (before ++ nodesMsg ns e :: after))
    /\ runningBuilds (handleAll (handledAt clock (before ++ nodesMsg ns e :: after)) m)
       = runningBuildsOf (now s) (Some ns).
Proof.
  intros Hafter. revert clock m.
  induction before as [|d before IH]; intros [|s clock] m Hlen; try discriminate Hlen.
  - exists s. split; [left; reflexivity|].
    unfold handledAt. cbn [app combine handleAll fold_left fst snd Update].
    change (fold_left _ (combine clock after) ?m')
      with (handleAll (handledAt clock after) m').
    rewrite (handleAll_keeps_running _ _ _ Hafter), merge_runningBuilds. reflexivity.
  - cbn [app length] in Hlen. injection Hlen as Hlen.
    destruct (IH clock (merge (now s) d m) Hlen) as (s' & Hin & Hr).
    exists s'. split; [right; exact Hin|].
    unfold handledAt. cbn [app combine handleAll fold_left fst snd Update]. exact Hr.
Qed.

Lemma handleAll_running_perm (r : RootInfo) (ns : list Node) (q : Queue) (js : list Job)
  (eR eN eQ eJ : error) (clock : list Sys) (msgs : list DashboardData)
  (m0 : DashboardModel) :
  Permutation msgs (fourPayloads r ns q js eR eN eQ eJ) ->
  length clock = 4%nat ->
  exists s,
    In (s, nodesMsg ns eN) (handledAt clock msgs)
    /\ runningBuilds (handleAll (handledAt clock msgs) m0)
       = runningBuildsOf (now s) (Some ns).
Proof.
  intros Hp Hlen.
  assert (Hin : In (nodesMsg ns eN) msgs).
  { apply (Permutation_in _ (Permutation_sym Hp)). right. left. reflexivity. }
  apply in_split in Hin as (before & after & ->).
  assert (Hrest : Permutation (before ++ after)
                    [rootInfoMsg r eR; queueMsg q eQ; jobsMsg js eJ]).
  { apply (Permutation_cons_inv (a := nodesMsg ns eN)).
    etransitivity; [apply Permutation_middle|].
    etransitivity; [exact Hp|]. apply perm_swap. }
  assert (Hnone : Forall (fun d => DashboardData_Nodes d = None) (before ++ after)).
  { apply (Permutation_Forall (Permutation_sym Hrest)).
    repeat constructor. }
  apply Forall_app in Hnone as [_ Hafter].
  apply handleAll_running; [exact Hafter|].
  rewrite Hlen, (Permutation_length Hp). reflexivity.
Qed.

(** The rows of the running builds but for their progress do not depend
    on the clock. *)
Lemma rowIdentity_runningBuildsOf (t t' : Z) (ns : slice Node) :
  map rowIdentity (elems (runningBuildsOf t ns))
  = map rowIdentity (elems (runningBuildsOf t' ns)).
Proof.
  assert (Helems : forall A (l : list A), elems (appended l) = l)
    by (intros A [|x l]; reflexivity).
  unfold runningBuildsOf. rewrite !Helems.
  induction (elems ns) as [|node nodes IH]; [reflexivity|].
  cbn [flat_map]. rewrite !map_app, IH. f_equal.
  induction (elems (Node_Executors node)) as [|exec execs IHe]; [reflexivity|].
  cbn [flat_map]. rewrite !map_app, IHe. f_equal.
  unfold runningOfExecutor.
  destruct (Config.nonEmpty (ExecutableRef_URL (Executor_CurrentExecutable exec)));
    reflexivity.
Qed.

(** C5, amended. The four dashboard messages (root info, nodes, queue,
    jobs: one payload each) handled in any two orders, each message at
    the clock reading of the moment it is handled, leave the same root
    info, nodes, queue and recent builds, which hold the payloads, and
    the same rows of running builds but for their progress: the progress
    of a running build that the server does not report is the estimate
    at the reading at which the nodes message is handled, and so depends
    on the place of that message.  A field for which a message has no
    payload is left as it was by the merge of that message. *)
Theorem dashboard_merge_any_order
  (r : RootInfo) (ns : list Node) (q : Queue) (js : list Job)
  (eR eN eQ eJ : error) (clock1 clock2 : list Sys)
  (msgs1 msgs2 : list DashboardData) (m0 : DashboardModel) :
  Permutation msgs1 (fourPayloads r ns q js eR eN eQ eJ) ->
  Permutation msgs2 (fourPayloads r ns q js eR eN eQ eJ) ->
  length clock1 = 4%nat ->
  length clock2 = 4%nat ->
  let m1 := handleAll (handledAt clock1 msgs1) m0 in
  let m2 := handleAll (handledAt clock2 msgs2) m0 in
  (rootInfo m1, nodes m1, queue m1, recentBuilds m1)
  = (Some r, Some ns, Some q, recentBuildsOf (Some js))
  /\ (rootInfo m2, nodes m2, queue m2, recentBuilds m2)
     = (rootInfo m1, nodes m1, queue m1, recentBuilds m1)
  /\ (exists s1 s2,
        In (s1, nodesMsg ns eN) (handledAt clock1 msgs1)
        /\ In (s2, nodesMsg ns eN) (handledAt clock2 msgs2)
        /\ runningBuilds m1 = runningBuildsOf (now s1) (Some ns)
        /\ runningBuilds m2 = runningBuildsOf (now s2) (Some ns))
  /\ map rowIdentity (elems (runningBuilds m1))
     = map rowIdentity (elems (runningBuilds m2))
  /\ forall (sys : Sys) (d : DashboardData) (m : DashboardModel),
       (DashboardData_RootInfo d = None ->
        rootInfo (fst (Update sys (DashboardDataMsg d) m)) = rootInfo m)
       /\ (DashboardData_Nodes d = None ->
           nodes (fst (Update sys (DashboardDataMsg d) m)) = nodes m
           /\ runningBuilds (fst (Update sys (DashboardDataMsg d) m)) = runningBuilds m)
       /\ (DashboardData_Queue d = None ->
           queue (fst (Update sys (DashboardDataMsg d) m)) = queue m)
       /\ (DashboardData_Jobs d = None ->
           recentBuilds (fst (Update sys (DashboardDataMsg d) m)) = recentBuilds m).
Proof.
  intros H1 H2 L1 L2 m1 m2.
  pose proof (handleAll_payloads _ _ _ _ _ _ _ _ _ _ m0 H1 L1) as P1.
  pose proof (handleAll_payloads _ _ _ _ _ _ _ _ _ _ m0 H2 L2) as P2.
  destruct (handleAll_running_perm _ _ _ _ _ _ _ _ _ _ m0 H1 L1) as (s1 & I1 & R1).
  destruct (handleAll_running_perm _ _ _ _ _ _ _ _ _ _ m0 H2 L2) as (s2 & I2 & R2).
  cbv zeta in P1, P2. fold m1 in P1, R1. fold m2 in P2, R2.
  split; [exact P1|]. split; [rewrite P1; exact P2|].
  split; [exists s1, s2; auto|].
  split; [rewrite R1, R2; apply rowIdentity_runningBuildsOf|].
  intros sys d m. cbn [Update fst].
  rewrite merge_rootInfo, merge_nodes, merge_runningBuilds, merge_queue,
    merge_recentBuilds.
  split; [intros ->; reflexivity|].
  split; [intros ->; split; reflexivity|].
  split; intros ->; reflexivity.
Qed.

End WithSorter.

Lemma dashboard_merge_any_order_witness :
  let m0 := NewDashboardModel 80 24 in
  let m1 := handleAll (sorter := insertionSort) (handledAt clockD nodesFirstD) m0 in
  let m2 := handleAll (sorter := insertionSort) (handledAt clockD nodesLastD) m0 in
  (rootInfo m1, nodes m1, queue m1, recentBuilds m1)
  = (Some rootA, Some nodesA, Some queueA,
     recentBuildsOf (sorter := insertionSort) (Some jobsA))
  /\ (rootInfo m2, nodes m2, queue m2, recentBuilds m2)
     = (rootInfo m1, nodes m1, queue m1, recentBuilds m1)
  /\ map rowIdentity (elems (runningBuilds m1))
     = map rowIdentity (elems (runningBuilds m2)).
Proof.
  intros m0 m1 m2.
  pose proof (dashboard_merge_any_order (sorter := insertionSort)
                rootA nodesA queueA jobsA (Some "slow") None None None
                clockD clockD nodesFirstD nodesLastD m0) as H.
  destruct H as (Ha & Hb & _ & Hc & _).
  - apply perm_swap.
  - unfold nodesLastD, fourPayloads.
    apply Permutation_cons; [reflexivity|].
    etransitivity; [apply perm_skip, perm_swap|]. apply perm_swap.
  - reflexivity.
  - reflexivity.
  - split; [exact Ha|]. split; [exact Hb|exact Hc].
Defined.

(** C5, as stated, fails for the running builds: at the clock readings
    2000, 3000, 4000 and 9000 the build of scenario D, started at 1000
    with ten seconds estimated, is at 10 per cent when the nodes message
    comes first and at 80 per cent when it comes last. *)
Lemma running_progress_follows_arrival :
  Permutation nodesFirstD nodesLastD
  /\ map Running_Progress
       (elems (runningBuilds
                 (handleAll (sorter := insertionSort) (handledAt clockD nodesFirstD)
                            (NewDashboardModel 80 24)))) = [10]
  /\ map Running_Progress
       (elems (runningBuilds
                 (handleAll (sorter := insertionSort) (handledAt clockD nodesLastD)
                            (NewDashboardModel 80 24)))) = [80].
Proof.
  split; [|split; vm_compute; reflexivity].
  unfold nodesFirstD, nodesLastD.
  etransitivity; [apply perm_swap|]. apply perm_skip.
  etransitivity; [apply perm_swap|]. apply perm_skip. apply perm_swap.
Qed.

(** Scenario D, evaluated: the nodes message comes third, so the
    estimate of the running build is taken at clock reading 4000, and
    the jobs come out most recent first. *)
Example scenario_D :
  dataOf (handleAll (sorter := insertionSort) eventsD (NewDashboardModel 80 24))
  = (Some rootA, Some nodesA, Some queueA,
     Some [ {| Running_JobName := "app #7"; Running_BuildNum := 7;
               Running_NodeName := "built-in"; Running_Progress := 30;
               Running_URL := "https://jenkins.example.com/job/app/7/" |} ],
     Some [ {| Recent_JobName := "app"; Recent_BuildNum := 7; Recent_Result := "SUCCESS";
               Recent_Color := "blue"; Recent_Timestamp := 900;
               Recent_Duration := 60000000000;
               Recent_URL := "https://jenkins.example.com/job/app/" |};
            {| Recent_JobName := "lib"; Recent_BuildNum := 3; Recent_Result := "SUCCESS";
               Recent_Color := "blue"; Recent_Timestamp := 500;
               Recent_Duration := 60000000000;
               Recent_URL := "https://jenkins.example.com/job/lib/" |} ]).
Proof. vm_compute. reflexivity. Qed.

End DashboardProofs.

(* ===================================================================== *)
(** * The application controller                                          *)
(* ===================================================================== *)

Module AppProofs.

Import Models Tea App Scenario.

Section WithSorter.

Context {sorter : SortSlice}.

Lemma set_dashboardModel_same (m : Model) (d : Dashboard.DashboardModel) :
  dashboardModel m = Some d -> set_dashboardModel (Some d) m = m.
Proof. destruct m. cbn. intros ->. reflexivity. Qed.

Lemma set_viewsModel_same (m : Model) (v : Views.ViewsModel) :
  viewsModel m = Some v -> set_viewsModel (Some v) m = m.
Proof. destruct m. cbn. intros ->. reflexivity. Qed.

Lemma set_buildsModel_same (m : Model) (b : Builds.BuildsModel) :
  buildsModel m = Some b -> set_buildsModel (Some b) m = m.
Proof. destruct m. cbn. intros ->. reflexivity. Qed.

(** A data message reaches [delegate] untouched by the global switch. *)
Lemma Update_data (sys : Sys) (msg : Msg) (tab : Z) (m : Model) :
  tabOf msg = Some tab -> Update sys msg m = delegate sys msg [] m.
Proof. destruct msg; try discriminate; reflexivity. Qed.

(** A tab that receives the data message of another tab ignores it. *)
Lemma updateActiveTab_foreign (sys : Sys) (msg : Msg) (tab : Z) (m : Model) :
  tabOf msg = Some tab -> activeTab m <> tab ->
  updateActiveTab sys msg m = Ok (m, CmdNil).
Proof.
  intros Htab Hne. unfold updateActiveTab.
  destruct (Z.eqb_spec (activeTab m) TabDashboard) as [E0|_].
  { destruct (dashboardModel m) as [d|] eqn:Ed; [|reflexivity].
    destruct msg; try discriminate Htab;
      try (cbn in Htab; congruence);
      cbn; rewrite (set_dashboardModel_same _ _ Ed); reflexivity. }
  destruct (Z.eqb_spec (activeTab m) TabViews) as [E1|_].
  { destruct (viewsModel m) as [v|] eqn:Ev; [|reflexivity].
    destruct msg; try discriminate Htab;
      try (cbn in Htab; congruence);
      cbn; rewrite (set_viewsModel_same _ _ Ev); reflexivity. }
  destruct (Z.eqb_spec (activeTab m) TabBuilds) as [E2|_]; [|reflexivity].
  destruct (buildsModel m) as [b|] eqn:Eb; [|reflexivity].
  destruct msg; try discriminate Htab;
    try (cbn in Htab; congruence);
    cbn; rewrite (set_buildsModel_same _ _ Eb); reflexivity.
Qed.

Lemma delegate_ready (sys : Sys) (msg : Msg) (m : Model) :
  state m = StateReady ->
  delegate sys msg [] m
  = bind (updateActiveTab sys msg m) (fun r => Ok (fst r, tea_Batch [snd r])).
Proof. intros H. unfold delegate. rewrite H. reflexivity. Qed.

(** The data message of the active tab is merged into that tab. *)
Lemma Update_active_dashboard (sys : Sys) (d : DashboardData) (m : Model)
  (dm : Dashboard.DashboardModel) :
  state m = StateReady -> activeTab m = TabDashboard -> dashboardModel m = Some dm ->
  Update sys (DashboardDataMsg d) m
  = Ok (set_dashboardModel (Some (Dashboard.merge (now sys) d dm)) m, CmdNil).
Proof.
  intros Hs Ha Hd. rewrite (Update_data sys _ TabDashboard) by reflexivity.
  rewrite delegate_ready by exact Hs.
  unfold updateActiveTab. rewrite Ha, Hd. reflexivity.
Qed.

Lemma Update_active_views (sys : Sys) (d : ViewsData) (m : Model) (vm : Views.ViewsModel) :
  state m = StateReady -> activeTab m = TabViews -> viewsModel m = Some vm ->
  Update sys (ViewsDataMsg d) m
  = Ok (set_viewsModel (Some (Views.merge (now sys) d vm)) m, CmdNil).
Proof.
  intros Hs Ha Hv. rewrite (Update_data sys _ TabViews) by reflexivity.
  rewrite delegate_ready by exact Hs.
  unfold updateActiveTab. rewrite Ha, Hv. reflexivity.
Qed.

Lemma Update_active_builds (sys : Sys) (d : BuildsData) (m : Model) (bm : Builds.BuildsModel) :
  state m = StateReady -> activeTab m = TabBuilds -> buildsModel m = Some bm ->
  Update sys (BuildsDataMsg d) m
  = match Builds.merge (now sys) d bm with
    | Ok bm' => Ok (set_buildsModel (Some bm') m, CmdNil)
    | Panic => Panic
    end.
Proof.
  intros Hs Ha Hb. rewrite (Update_data sys _ TabBuilds) by reflexivity.
  rewrite delegate_ready by exact Hs.
  unfold updateActiveTab. rewrite Ha, Hb. cbn.
  destruct (Builds.merge (now sys) d bm); reflexivity.
Qed.

Lemma Update_inactive (sys : Sys) (msg : Msg) (tab : Z) (m : Model) :
  state m = StateReady -> tabOf msg = Some tab -> activeTab m <> tab ->
  Update sys msg m = Ok (m, CmdNil).
Proof.
  intros Hs Htab Hne. rewrite (Update_data sys msg tab m Htab).
  rewrite delegate_ready by exact Hs.
  rewrite (updateActiveTab_foreign sys msg tab m Htab Hne). reflexivity.
Qed.

(** C3, amended. In the ready state a data message is handed to the tab
    that is active when it is handled.  If that is the tab it was fetched
    for, its payload is merged into the model of that tab and the models
    of the other tabs stay as they are.  If another tab is active, the
    message is dropped: no tab model changes, that of the originating
    tab included. *)
Theorem data_message_reaches_active_tab_only
  (sys : Sys) (msg : Msg) (tab : Z) (m : Model) :
  state m = StateReady ->
  tabOf msg = Some tab ->
  (activeTab m <> tab -> Update sys msg m = Ok (m, CmdNil))
  /\ (activeTab m = tab ->
      match msg with
      | DashboardDataMsg d =>
          forall dm, dashboardModel m = Some dm ->
          exists m', Update sys msg m = Ok (m', CmdNil)
            /\ tabModels m'
               = (Some (Dashboard.merge (now sys) d dm), viewsModel m, buildsModel m)
      | ViewsDataMsg d =>
          forall vm, viewsModel m = Some vm ->
          exists m', Update sys msg m = Ok (m', CmdNil)
            /\ tabModels m'
               = (dashboardModel m, Some (Views.merge (now sys) d vm), buildsModel m)
      | BuildsDataMsg d =>
          forall bm, buildsModel m = Some bm ->
          match Builds.merge (now sys) d bm with
          | Ok bm' =>
              exists m', Update sys msg m = Ok (m', CmdNil)
                /\ tabModels m' = (dashboardModel m, viewsModel m, Some bm')
          | Panic => Update sys msg m = Panic
          end
      | _ => True
      end).
Proof.
  intros Hs Htab. split.
  - intros Hne. exact (Update_inactive sys msg tab m Hs Htab Hne).
  - intros Ha. destruct msg; try exact I; cbn in Htab; injection Htab as <-.
    + intros dm Hd. eexists. split.
      * exact (Update_active_dashboard sys d m dm Hs Ha Hd).
      * reflexivity.
    + intros vm Hv. eexists. split.
      * exact (Update_active_views sys d m vm Hs Ha Hv).
      * reflexivity.
    + intros bm Hb.
      pose proof (Update_active_builds sys d m bm Hs Ha Hb) as H.
      destruct (Builds.merge (now sys) d bm) as [bm'|].
      * eexists. split; [exact H|reflexivity].
      * exact H.
Qed.

(** What the merge of a failed fetch does to a views model. *)
Lemma Views_merge_error (t : Z) (d : ViewsData) (e : string) (vm : Views.ViewsModel) :
  ViewsData_Error d = Some e ->
  Views.lastError (Views.merge t d vm) = Some e
  /\ (ViewsData_Views d = None -> Views.views (Views.merge t d vm) = Views.views vm)
  /\ (ViewsData_Jobs d = None -> Views.jobs (Views.merge t d vm) = Views.jobs vm)
  /\ (ViewsData_JobDetail d = None ->
      Views.jobDetail (Views.merge t d vm) = Views.jobDetail vm).
Proof.
  intros He. unfold Views.merge. rewrite He.
  destruct (ViewsData_Views d), (ViewsData_Jobs d), (ViewsData_JobDetail d);
    cbn; repeat split; intros; try discriminate; reflexivity.
Qed.

Lemma Dashboard_merge_error (t : Z) (d : DashboardData) (e : string)
  (dm : Dashboard.DashboardModel) :
  DashboardData_Error d = Some e ->
  Dashboard.lastError (Dashboard.merge t d dm) = Some e.
Proof.
  intros He. unfold Dashboard.merge. rewrite He.
  destruct (DashboardData_RootInfo d), (DashboardData_Nodes d),
    (DashboardData_Queue d), (DashboardData_Jobs d); reflexivity.
Qed.

(** A builds message without a job detail never panics. *)
Lemma Builds_merge_error (t : Z) (d : BuildsData) (e : string) (bm : Builds.BuildsModel) :
  BuildsData_Error d = Some e ->
  BuildsData_JobDetail d = None ->
  exists bm',
    Builds.merge t d bm = Ok bm'
    /\ Builds.lastError bm' = Some e
    /\ Builds.jobDetail bm' = Builds.jobDetail bm
    /\ Builds.builds bm' = Builds.builds bm
    /\ (BuildsData_Jobs d = None -> Builds.jobs bm' = Builds.jobs bm)
    /\ (BuildsData_BuildDetail d = None -> Builds.buildDetail bm' = Builds.buildDetail bm)
    /\ (BuildsData_PipelineRun d = None -> Builds.pipelineRun bm' = Builds.pipelineRun bm)
    /\ (BuildsData_LogContent d = EmptyString ->
        Builds.logContent bm' = Builds.logContent bm
        /\ Builds.viewport bm' = Builds.viewport bm).
Proof.
  intros He Hj. unfold Builds.merge. rewrite He, Hj. cbn [bind].
  eexists. split; [reflexivity|].
  destruct bm as [? ? ? ? ? ? ? ? ? ? ? ? ? ? ? ? ? ? ? ? follow ? ? ? ? ? ? ? ? ?].
  destruct (BuildsData_Jobs d), (BuildsData_BuildDetail d), (BuildsData_PipelineRun d),
    (BuildsData_LogContent d) as [|ch rest], follow;
    cbn; repeat split; intros; try discriminate; try reflexivity.
Qed.

Lemma loadTabData_state (m : Model) : state (fst (loadTabData m)) = state m.
Proof.
  unfold loadTabData.
  destruct (activeTab m =? TabDashboard).
  { destruct (dashboardModel m) as [d|]; [|reflexivity].
    destruct (Dashboard.LoadData d). reflexivity. }
  destruct (activeTab m =? TabViews).
  { destruct (viewsModel m) as [v|]; [|reflexivity].
    destruct (Views.LoadData v). reflexivity. }
  destruct (activeTab m =? TabBuilds); [|reflexivity].
  destruct (buildsModel m) as [b|]; [|reflexivity].
  destruct (Builds.LoadData b). reflexivity.
Qed.

Lemma loadAndSchedule_state (m : Model) : state (fst (loadAndSchedule m)) = state m.
Proof.
  unfold loadAndSchedule. pose proof (loadTabData_state m) as H.
  destruct (loadTabData m). exact H.
Qed.

Lemma updateActiveTab_state (sys : Sys) (msg : Msg) (m m' : Model) (cmd : Cmd) :
  updateActiveTab sys msg m = Ok (m', cmd) -> state m' = state m.
Proof.
  unfold updateActiveTab.
  destruct (activeTab m =? TabDashboard).
  { destruct (dashboardModel m) as [d|]; [|intros [= <- _]; reflexivity].
    destruct (Dashboard.Update sys msg d). intros [= <- _]. reflexivity. }
  destruct (activeTab m =? TabViews).
  { destruct (viewsModel m) as [v|]; [|intros [= <- _]; reflexivity].
    destruct (Views.Update sys msg v) as [[v' c]|]; [|discriminate].
    intros [= <- _]. reflexivity. }
  destruct (activeTab m =? TabBuilds); [|intros [= <- _]; reflexivity].
  destruct (buildsModel m) as [b|]; [|intros [= <- _]; reflexivity].
  destruct (Builds.Update sys msg b) as [[b' c]|]; [|discriminate].
  intros [= <- _]. reflexivity.
Qed.

Lemma delegate_state (sys : Sys) (msg : Msg) (cmds : list Cmd) (m m' : Model) (cmd : Cmd) :
  delegate sys msg cmds m = Ok (m', cmd) -> state m' = state m.
Proof.
  unfold delegate. destruct (state m) eqn:Es.
  - destruct (setupModel m) as [sm|]; [|intros [= <- _]; exact Es].
    destruct (Setup.Update msg sm). intros [= <- _]. exact Es.
  - intros [= <- _]. exact Es.
  - destruct (updateActiveTab sys msg m) as [[m1 c1]|] eqn:E; [|discriminate].
    intros [= <- _]. cbn. rewrite (updateActiveTab_state _ _ _ _ _ E). exact Es.
  - intros [= <- _]. exact Es.
Qed.

Lemma windowSize_state (w h : Z) (m : Model) : state (windowSize w h m) = state m.
Proof.
  destruct m as [? ? ? ? ? ? ? ? sm dm vm bm ? ? ?].
  destruct sm, dm, vm, bm; reflexivity.
Qed.

(** The global state turns into the error state on two messages only. *)
Lemma Update_enters_error (sys : Sys) (msg : Msg) (m m' : Model) (cmd : Cmd) :
  Update sys msg m = Ok (m', cmd) ->
  state m' = StateError ->
  state m = StateError
  \/ (exists err, msg = ClientErrorMsg err)
  \/ (exists cfg err, msg = SetupCompleteMsg cfg /\ Save sys cfg = Some err).
Proof.
  intros HU He.
  destruct msg; cbn [Update] in HU;
    try (left; rewrite <- (delegate_state _ _ _ _ _ _ HU); exact He).
  - (* a key *)
    unfold globalKey, switchTab in HU.
    repeat match type of HU with
           | context [if ?b then _ else _] => destruct b eqn:?
           end;
      try (left; rewrite <- (delegate_state _ _ _ _ _ _ HU); exact He);
      try (injection HU as <- _; cbn in He;
           first [ discriminate He
                 | left; exact He
                 | left; rewrite loadTabData_state in He; exact He ]);
      try (injection HU as HU; apply (f_equal fst) in HU; cbn [fst] in HU;
           left; rewrite <- He, <- HU, loadTabData_state; reflexivity).
  - injection HU as <- _. left. rewrite windowSize_state in He. exact He.
  - destruct (Save sys (config (set_config cfg m))) eqn:Esave.
    + right. right. exists cfg, s. split; [reflexivity|exact Esave].
    + injection HU as <- _. discriminate He.
  - injection HU as HU. apply (f_equal fst) in HU. cbn [fst] in HU.
    rewrite <- HU, loadAndSchedule_state in He. discriminate He.
  - right. left. eexists. reflexivity.
  - destruct (AppState_eqb (state m) StateReady && autoRefreshEnabled m).
    + injection HU as HU. apply (f_equal fst) in HU. cbn [fst] in HU.
      rewrite <- HU, loadAndSchedule_state in He. left. exact He.
    + injection HU as <- _. left. exact He.
  - destruct (spinner_Update SpinnerTickMsg (spinner m)) as [sp c].
    pose proof (delegate_state _ _ _ _ _ _ HU) as Hd. cbn in Hd.
    left. congruence.
Qed.

(** C4, amended. In the ready state the data message of the active tab
    whose error is set has the error recorded in the [lastError] of that
    tab; the global state stays ready, the models of the other tabs stay
    as they are, and so does every data field of the tab for which the
    message has no payload (for the builds tab: a message without a job
    detail).  The message of a tab that is not active is dropped, its
    error with it.  The global state turns into the error state only on
    a [ClientErrorMsg] or on a [SetupCompleteMsg] whose configuration
    cannot be saved. *)
Theorem ready_fetch_error_stays_in_tab (sys : Sys) (m : Model) (e : string) :
  state m = StateReady ->
  (forall d dm,
      activeTab m = TabDashboard -> dashboardModel m = Some dm ->
      DashboardData_Error d = Some e ->
      exists m' dm',
        Update sys (DashboardDataMsg d) m = Ok (m', CmdNil)
        /\ state m' = StateReady
        /\ tabModels m' = (Some dm', viewsModel m, buildsModel m)
        /\ Dashboard.lastError dm' = Some e
        /\ dashboardKeeps d dm dm')
  /\ (forall d vm,
      activeTab m = TabViews -> viewsModel m = Some vm ->
      ViewsData_Error d = Some e ->
      exists m' vm',
        Update sys (ViewsDataMsg d) m = Ok (m', CmdNil)
        /\ state m' = StateReady
        /\ tabModels m' = (dashboardModel m, Some vm', buildsModel m)
        /\ Views.lastError vm' = Some e
        /\ viewsKeeps d vm vm')
  /\ (forall d bm,
      activeTab m = TabBuilds -> buildsModel m = Some bm ->
      BuildsData_Error d = Some e -> BuildsData_JobDetail d = None ->
      exists m' bm',
        Update sys (BuildsDataMsg d) m = Ok (m', CmdNil)
        /\ state m' = StateReady
        /\ tabModels m' = (dashboardModel m, viewsModel m, Some bm')
        /\ Builds.lastError bm' = Some e
        /\ buildsKeeps d bm bm')
  /\ (forall msg tab,
      tabOf msg = Some tab -> activeTab m <> tab ->
      Update sys msg m = Ok (m, CmdNil))
  /\ (forall sys0 msg m0 m' cmd,
      Update sys0 msg m0 = Ok (m', cmd) ->
      state m' = StateError ->
      state m0 = StateError
      \/ (exists err, msg = ClientErrorMsg err)
      \/ (exists cfg err, msg = SetupCompleteMsg cfg /\ Save sys0 cfg = Some err)).
Proof.
  intros Hs. split; [|split; [|split; [|split]]].
  - intros d dm Ha Hd He.
    exists (set_dashboardModel (Some (Dashboard.merge (now sys) d dm)) m),
           (Dashboard.merge (now sys) d dm).
    split; [exact (Update_active_dashboard sys d m dm Hs Ha Hd)|].
    split; [exact Hs|]. split; [reflexivity|].
    split; [exact (Dashboard_merge_error _ _ _ _ He)|].
    unfold dashboardKeeps.
    rewrite DashboardProofs.merge_rootInfo, DashboardProofs.merge_nodes,
      DashboardProofs.merge_runningBuilds, DashboardProofs.merge_queue,
      DashboardProofs.merge_recentBuilds.
    split; [intros ->; reflexivity|].
    split; [intros ->; split; reflexivity|].
    split; intros ->; reflexivity.
  - intros d vm Ha Hv He.
    exists (set_viewsModel (Some (Views.merge (now sys) d vm)) m),
           (Views.merge (now sys) d vm).
    split; [exact (Update_active_views sys d m vm Hs Ha Hv)|].
    split; [exact Hs|]. split; [reflexivity|].
    destruct (Views_merge_error (now sys) d e vm He) as (H1 & H2 & H3 & H4).
    split; [exact H1|]. unfold viewsKeeps. auto.
  - intros d bm Ha Hb He Hj.
    destruct (Builds_merge_error (now sys) d e bm He Hj)
      as (bm' & Hm & H1 & H2 & H3 & H4 & H5 & H6 & H7).
    exists (set_buildsModel (Some bm') m), bm'.
    split.
    { rewrite (Update_active_builds sys d m bm Hs Ha Hb), Hm. reflexivity. }
    split; [exact Hs|]. split; [reflexivity|]. split; [exact H1|].
    unfold buildsKeeps. auto.
  - intros msg tab Htab Hne. exact (Update_inactive sys msg tab m Hs Htab Hne).
  - intros sys0 msg m0 m' cmd. apply Update_enters_error.
Qed.

(** The load command of a tab arms no refresh tick. *)
Lemma loadTabData_no_tick (settle : Cmd -> Z) (start : Z) (m : Model) :
  refreshTicks (deliveries settle start (snd (loadTabData m))) = [].
Proof.
  unfold loadTabData.
  destruct (activeTab m =? TabDashboard).
  { destruct (dashboardModel m); reflexivity. }
  destruct (activeTab m =? TabViews).
  { destruct (viewsModel m); reflexivity. }
  destruct (activeTab m =? TabBuilds); [|reflexivity].
  destruct (buildsModel m); reflexivity.
Qed.

Lemma loadTabData_refresh (m : Model) :
  autoRefreshEnabled (fst (loadTabData m)) = autoRefreshEnabled m
  /\ autoRefreshInterval (fst (loadTabData m)) = autoRefreshInterval m.
Proof.
  unfold loadTabData.
  destruct (activeTab m =? TabDashboard).
  { destruct (dashboardModel m); split; reflexivity. }
  destruct (activeTab m =? TabViews).
  { destruct (viewsModel m); split; reflexivity. }
  destruct (activeTab m =? TabBuilds); [|split; reflexivity].
  destruct (buildsModel m); split; reflexivity.
Qed.

Lemma deliveries_batch2 (settle : Cmd -> Z) (start : Z) (a b : Cmd) :
  deliveries settle start (tea_Batch [a; b])
  = (deliveries settle start a ++ deliveries settle start b)%list.
Proof.
  destruct a, b; cbn; rewrite ?app_nil_r; reflexivity.
Qed.

Lemma refreshTicks_app (xs ys : list Delivery) :
  refreshTicks (xs ++ ys)%list = (refreshTicks xs ++ refreshTicks ys)%list.
Proof. apply flat_map_app. Qed.

(** C6, amended. The refresh timer re-arms itself: handling a tick in
    the ready state with refresh enabled returns, as one batch, the load
    command of the active tab and a timer of the configured interval.
    The runtime starts both together, so the next tick is due one
    interval after the batch is started, however long the dispatched
    work takes to settle.  A tick handled in another state, or with
    refresh disabled, arms nothing. *)
Theorem refresh_tick_rearmed_with_dispatch
  (sys : Sys) (m : Model) (settle : Cmd -> Z) (start : Z) :
  (state m = StateReady -> autoRefreshEnabled m = true -> 0 < autoRefreshInterval m ->
   exists m' cmd,
     Update sys AutoRefreshTickMsg m = Ok (m', cmd)
     /\ cmd = tea_Batch [snd (loadTabData m);
                         Tick (autoRefreshInterval m) AutoRefreshTickMsg]
     /\ refreshTicks (deliveries settle start cmd) = [start + autoRefreshInterval m]
     /\ state m' = StateReady
     /\ autoRefreshEnabled m' = true
     /\ autoRefreshInterval m' = autoRefreshInterval m)
  /\ (state m <> StateReady \/ autoRefreshEnabled m = false ->
      Update sys AutoRefreshTickMsg m = Ok (m, CmdNil)).
Proof.
  split.
  - intros Hs He Hi. cbn [Update]. rewrite Hs, He. cbn [AppState_eqb andb].
    unfold loadAndSchedule.
    pose proof (loadTabData_state m) as Hst.
    pose proof (loadTabData_refresh m) as [Hen Hint].
    pose proof (loadTabData_no_tick settle start m) as Hno.
    destruct (loadTabData m) as [m1 load]. cbn [fst snd] in *.
    unfold scheduleAutoRefresh. rewrite Hen, Hint, He.
    destruct (Z.leb_spec (autoRefreshInterval m) 0) as [Hle|_]; [lia|].
    cbn [negb orb].
    eexists _, _. split; [reflexivity|]. split; [reflexivity|].
    split.
    { rewrite deliveries_batch2, refreshTicks_app, Hno. reflexivity. }
    split; [congruence|]. split; [congruence|exact Hint].
  - intros H. cbn [Update].
    destruct H as [H|H].
    + destruct (state m); try reflexivity. contradiction.
    + rewrite H, andb_false_r. reflexivity.
Qed.

End WithSorter.

Lemma data_message_reaches_active_tab_only_witness :
  Update (sorter := insertionSort) (sysAt 2000)
    (DashboardDataMsg (rootInfoMsg rootA None)) modelOnViews
  = Ok (modelOnViews, CmdNil)
  /\ exists m',
       Update (sorter := insertionSort) (sysAt 1500)
         (DashboardDataMsg (rootInfoMsg rootA None)) modelOnDashboard
       = Ok (m', CmdNil)
       /\ tabModels m'
          = (Some (Dashboard.merge (sorter := insertionSort) 1500
                     (rootInfoMsg rootA None) (dashboardOf modelOnDashboard)),
             viewsModel modelOnDashboard, buildsModel modelOnDashboard).
Proof.
  split.
  - apply (data_message_reaches_active_tab_only (sorter := insertionSort)
             (sysAt 2000) (DashboardDataMsg (rootInfoMsg rootA None))
             TabDashboard modelOnViews).
    + vm_compute. reflexivity.
    + reflexivity.
    + vm_compute. discriminate.
  - destruct (data_message_reaches_active_tab_only (sorter := insertionSort)
                (sysAt 1500) (DashboardDataMsg (rootInfoMsg rootA None))
                TabDashboard modelOnDashboard) as [_ Hact].
    + vm_compute. reflexivity.
    + reflexivity.
    + apply (Hact eq_refl (dashboardOf modelOnDashboard)).
      vm_compute. reflexivity.
Defined.

(** C3, as stated, fails when the user leaves the dashboard before its
    first load completes: the root-info message is handled while the
    views tab is active, and the dashboard model is left without the
    payload. *)
Lemma dashboard_payload_dropped_after_tab_switch :
  run (sorter := insertionSort) switchedToViews (NewModel cfgB) = Ok modelOnViews
  /\ state modelOnViews = StateReady
  /\ activeTab modelOnViews = TabViews
  /\ Update (sorter := insertionSort) (sysAt 2000)
       (DashboardDataMsg (rootInfoMsg rootA None)) modelOnViews
     = Ok (modelOnViews, CmdNil)
  /\ option_map Dashboard.rootInfo (dashboardModel modelOnViews) = Some None.
Proof.
  split; [vm_compute; reflexivity|]. split; [vm_compute; reflexivity|].
  split; [vm_compute; reflexivity|]. split; vm_compute; reflexivity.
Qed.

Lemma ready_fetch_error_stays_in_tab_witness :
  (exists m' vm',
     Update (sorter := insertionSort) (sysAt 2000)
       (ViewsDataMsg (viewsFailure "timeout")) modelOnViews = Ok (m', CmdNil)
     /\ state m' = StateReady
     /\ tabModels m' = (dashboardModel modelOnViews, Some vm', buildsModel modelOnViews)
     /\ Views.lastError vm' = Some "timeout"
     /\ viewsKeeps (viewsFailure "timeout") (viewsOf modelOnViews) vm')
  /\ (exists m' bm',
       Update (sorter := insertionSort) (sysAt 2000)
         (BuildsDataMsg (buildsFailure "timeout")) modelOnBuilds = Ok (m', CmdNil)
       /\ state m' = StateReady
       /\ Builds.lastError bm' = Some "timeout")
  /\ Update (sorter := insertionSort) (sysAt 2000)
       (ViewsDataMsg (viewsFailure "timeout")) modelOnDashboard
     = Ok (modelOnDashboard, CmdNil)
  /\ (state (NewModel cfgB) = StateError
      \/ (exists err, ClientErrorMsg (Some "refused") = ClientErrorMsg err)
      \/ (exists cfg err,
            ClientErrorMsg (Some "refused") = SetupCompleteMsg cfg
            /\ Save (sysAt 0) cfg = Some err)).
Proof.
  assert (Hv : state modelOnViews = StateReady) by (vm_compute; reflexivity).
  assert (Hb : state modelOnBuilds = StateReady) by (vm_compute; reflexivity).
  assert (Hd : state modelOnDashboard = StateReady) by (vm_compute; reflexivity).
  destruct (ready_fetch_error_stays_in_tab (sorter := insertionSort)
              (sysAt 2000) modelOnViews "timeout" Hv) as (_ & Hviews & _).
  destruct (ready_fetch_error_stays_in_tab (sorter := insertionSort)
              (sysAt 2000) modelOnBuilds "timeout" Hb) as (_ & _ & Hbuilds & _).
  destruct (ready_fetch_error_stays_in_tab (sorter := insertionSort)
              (sysAt 2000) modelOnDashboard "timeout" Hd)
    as (_ & _ & _ & Hdrop & Herr).
  split; [|split; [|split]].
  - apply (Hviews (viewsFailure "timeout") (viewsOf modelOnViews));
      vm_compute; reflexivity.
  - destruct (Hbuilds (buildsFailure "timeout") (buildsOf modelOnBuilds))
      as (m' & bm' & HU & Hs & _ & He & _);
      [vm_compute; reflexivity | vm_compute; reflexivity | reflexivity | reflexivity |].
    exists m', bm'. split; [exact HU|]. split; [exact Hs|exact He].
  - apply (Hdrop (ViewsDataMsg (viewsFailure "timeout")) TabViews).
    + reflexivity.
    + vm_compute. discriminate.
  - apply (Herr (sysAt 0) (ClientErrorMsg (Some "refused")) (NewModel cfgB)
             (set_state StateError (set_lastError (Some "refused") (NewModel cfgB)))
             CmdNil); reflexivity.
Defined.

(** A failed views fetch handled on the views tab, evaluated. *)
Example views_error_recorded :
  exists m',
    Update (sorter := insertionSort) (sysAt 2000)
      (ViewsDataMsg (viewsFailure "timeout")) modelOnViews = Ok (m', CmdNil)
    /\ state m' = StateReady
    /\ option_map Views.lastError (viewsModel m') = Some (Some "timeout").
Proof.
  eexists. split; [vm_compute; reflexivity|]. split; vm_compute; reflexivity.
Qed.

(** C4, as stated, fails in two ways.  The error of a views fetch that is
    handled while the dashboard is active is recorded nowhere.  And the
    message of a failed root-info fetch, which carries the zero record
    next to its error, replaces the root info fetched before. *)
Lemma fetch_error_dropped_or_overwrites :
  (state modelOnDashboard = StateReady
   /\ activeTab modelOnDashboard = TabDashboard
   /\ Update (sorter := insertionSort) (sysAt 2000)
        (ViewsDataMsg (viewsFailure "timeout")) modelOnDashboard
      = Ok (modelOnDashboard, CmdNil)
   /\ option_map Views.lastError (viewsModel modelOnDashboard) = Some None)
  /\ (state modelWithRootInfo = StateReady
      /\ option_map Dashboard.rootInfo (dashboardModel modelWithRootInfo)
         = Some (Some rootA)
      /\ exists m',
           Update (sorter := insertionSort) (sysAt 2000)
             (DashboardDataMsg (rootInfoFailure "connection refused")) modelWithRootInfo
           = Ok (m', CmdNil)
           /\ option_map Dashboard.lastError (dashboardModel m')
              = Some (Some "connection refused")
           /\ option_map Dashboard.rootInfo (dashboardModel m')
              = Some (Some zeroRootInfo)).
Proof.
  split.
  - split; [vm_compute; reflexivity|]. split; [vm_compute; reflexivity|].
    split; vm_compute; reflexivity.
  - split; [vm_compute; reflexivity|]. split; [vm_compute; reflexivity|].
    eexists. split; [vm_compute; reflexivity|]. split; vm_compute; reflexivity.
Qed.

Lemma refresh_tick_rearmed_with_dispatch_witness :
  exists m' cmd,
    Update (sorter := insertionSort) (sysAt 0) AutoRefreshTickMsg modelE = Ok (m', cmd)
    /\ cmd = tea_Batch [snd (loadTabData modelE);
                        Tick (autoRefreshInterval modelE) AutoRefreshTickMsg]
    /\ refreshTicks (deliveries settleE 0 cmd) = [0 + autoRefreshInterval modelE]
    /\ state m' = StateReady
    /\ autoRefreshEnabled m' = true
    /\ autoRefreshInterval m' = autoRefreshInterval modelE.
Proof.
  apply (refresh_tick_rearmed_with_dispatch (sorter := insertionSort)
           (sysAt 0) modelE settleE 0).
  - vm_compute. reflexivity.
  - vm_compute. reflexivity.
  - vm_compute. reflexivity.
Defined.

(** C6, as stated, fails in scenario E: with an interval of 10 and work
    that settles after 15, the tick armed while handling a tick is due at
    10, before the work has settled, and not at 15. *)
Lemma next_tick_not_delayed_by_work :
  exists m' cmd,
    Update (sorter := insertionSort) (sysAt 0) AutoRefreshTickMsg modelE = Ok (m', cmd)
    /\ autoRefreshInterval modelE = 10
    /\ settlements (deliveries settleE 0 cmd) = [15; 0]
    /\ refreshTicks (deliveries settleE 0 cmd) = [10]
    /\ refreshTicks (deliveries settleE 0 cmd) <> [15].
Proof.
  eexists _, _. split; [vm_compute; reflexivity|].
  split; [vm_compute; reflexivity|]. split; [vm_compute; reflexivity|].
  split; [vm_compute; reflexivity|]. vm_compute. discriminate.
Qed.

End AppProofs.

(* ===================================================================== *)
(** * The modes of the tabs                                               *)
(* ===================================================================== *)

Module ModeProofs.

Import Models Tea App Scenario.

Section WithSorter.

Context {sorter : SortSlice}.


End WithSorter.


(** The log search box is the one [/] opens in a log view. *)
Example slash_opens_log_search :
  Builds.Update (sorter := insertionSort) (sysAt 3000) (key "/") buildsInLog
  = Ok (buildsSearchingLog, Blink).
Proof. reflexivity. Qed.

(** [esc] on the jobs of a view, evaluated: back on the list of views,
    the jobs gone. *)
Example esc_leaves_jobs :
  option_map Views.mode (viewsModel modelOnJobs) = Some Views.ViewsModeJobs
  /\ option_map (fun v => len (Views.jobs v)) (viewsModel modelOnJobs) = Some 3
  /\ exists m',
       Update (sorter := insertionSort) (sysAt 3000) (named "esc") modelOnJobs
       = Ok (m', CmdNil)
       /\ option_map Views.mode (viewsModel m') = Some Views.ViewsModeList
       /\ option_map Views.jobs (viewsModel m') = Some None
       /\ option_map (fun v => len (Views.views v)) (viewsModel m') = Some 2.
Proof.
  split; [vm_compute; reflexivity|]. split; [vm_compute; reflexivity|].
  eexists. split; [vm_compute; reflexivity|].
  split; [vm_compute; reflexivity|]. split; vm_compute; reflexivity.
Qed.


(** C10 fails on the code.  With the second of two views selected and the
    filter narrowed to one match, [enter] indexes the filtered views at
    1: the handler tests that the filtered list is not empty, and not,
    as its siblings do, that the selection is inside it. *)
Theorem views_enter_index_out_of_range :
  run (sorter := insertionSort) (switchedToViews ++ narrowThenEnter)%list (NewModel cfgB)
  = Panic.
Proof. vm_compute. reflexivity. Qed.

(** The [r] handler indexes the unfiltered views at the selection without
    any test: a refresh that returns fewer views makes it panic. *)
Example views_refresh_index_out_of_range :
  run (sorter := insertionSort) (switchedToViews ++ shrinkThenRefresh)%list (NewModel cfgB)
  = Panic.
Proof. vm_compute. reflexivity. Qed.

(** Up to the last key both sessions run without a panic, and the
    selection is 1 in a list of one. *)
Example narrowThenEnter_before_last_key :
  exists m v,
    run (sorter := insertionSort)
      (switchedToViews ++ removelast narrowThenEnter)%list (NewModel cfgB) = Ok m
    /\ viewsModel m = Some v
    /\ Views.mode v = Views.ViewsModeList
    /\ Views.filter v = "al"
    /\ Views.selectedView v = 1
    /\ len (Views.getFilteredViews v) = 1.
Proof.
  eexists _, _. split; [vm_compute; reflexivity|].
  split; [vm_compute; reflexivity|].
  repeat split; vm_compute; reflexivity.
Qed.

End ModeProofs.


(* ===================================================================== *)
(** * Facts about byte strings                                            *)
(* ===================================================================== *)

Module StringFacts.

(** One step of [++] on a string whose head is known. *)
Ltac sapp :=
  repeat match goal with
         | |- context [String.append (String ?c ?a) ?b] =>
             change (String.append (String c a) b) with (String c (String.append a b))
         | |- context [String.append EmptyString ?b] =>
             change (String.append EmptyString b) with b
         end.

Lemma length_app (a b : string) :
  String.length (a ++ b) = (String.length a + String.length b)%nat.
Proof. induction a as [|c a IH]; [reflexivity|]. sapp. simpl. now rewrite IH. Qed.

Lemma app_empty_r (s : string) : (s ++ EmptyString)%string = s.
Proof. induction s as [|c s IH]; [reflexivity|]. sapp. now rewrite IH. Qed.

Lemma app_assoc (a b c : string) : ((a ++ b) ++ c = a ++ (b ++ c))%string.
Proof. induction a as [|x a IH]; [reflexivity|]. sapp. now rewrite IH. Qed.

Lemma substring_0_length (n : nat) (s : string) :
  String.length (substring 0 n s) = Nat.min n (String.length s).
Proof.
  revert s. induction n as [|n IH]; intros [|c s]; simpl; try reflexivity.
  now rewrite IH.
Qed.

Lemma substring_0_all (s : string) : substring 0 (String.length s) s = s.
Proof. induction s as [|c s IH]; [reflexivity|]. simpl. now rewrite IH. Qed.

(** The first [n] bytes of [s] followed by the rest give [s] back. *)
Lemma substring_0_prefix (n : nat) (s : string) :
  exists rest, s = (substring 0 n s ++ rest)%string.
Proof.
  revert s. induction n as [|n IH]; intros [|c s]; simpl.
  - exists EmptyString. reflexivity.
  - exists (String c s). reflexivity.
  - exists EmptyString. reflexivity.
  - destruct (IH s) as [rest Hr]. exists rest. sapp. now rewrite <- Hr.
Qed.

End StringFacts.

(* ===================================================================== *)
(** * Validation of a configuration                                       *)
(* ===================================================================== *)

Module ValidationProofs.

Import Config Validation Examples Notions.

Lemma nonEmpty_false (s : string) : nonEmpty s = false <-> s = EmptyString.
Proof. destruct s; simpl; split; congruence. Qed.

(** X1.  [Validate] accepts a configuration exactly when [IsConfigured]
    holds of it, and a configuration it rejects is left as it was. *)
Theorem Validate_accepts_iff_configured (c : Config) :
  (snd (Validate c) = None <-> IsConfigured c = true) /\
  (snd (Validate c) <> None -> fst (Validate c) = c).
Proof.
  unfold Validate, IsConfigured.
  destruct (nonEmpty (BaseURL (Profile_ c))),
           (nonEmpty (Username (Profile_ c))),
           (nonEmpty (APIToken (Profile_ c))); simpl;
    (split; [split; congruence | intros H; try reflexivity; congruence]).
Qed.

Lemma orDefault_pos (d n : Z) : 0 < d -> 0 < orDefault d n.
Proof. unfold orDefault. destruct (Z.leb_spec n 0); lia. Qed.

Lemma orDefault_idem (d n : Z) : 0 < d -> orDefault d (orDefault d n) = orDefault d n.
Proof.
  intros Hd. unfold orDefault at 1.
  pose proof (orDefault_pos d n Hd). destruct (Z.leb_spec (orDefault d n) 0); [lia|reflexivity].
Qed.

(** What [Validate] returns on a configured profile. *)
Lemma Validate_configured (c : Config) :
  IsConfigured c = true ->
  Validate c =
  ({| Profile_ :=
        {| BaseURL := BaseURL (Profile_ c); Username := Username (Profile_ c);
           APIToken := APIToken (Profile_ c);
           InsecureSkipTLSVerify := InsecureSkipTLSVerify (Profile_ c);
           TimeoutSeconds := orDefault 15 (TimeoutSeconds (Profile_ c));
           AutoRefreshSeconds := orDefault 10 (AutoRefreshSeconds (Profile_ c));
           MaxBuildsPerJob := orDefault 200 (MaxBuildsPerJob (Profile_ c));
           MaxLogBytes := orDefault 200000 (MaxLogBytes (Profile_ c));
           RateLimitRPS := orDefault 5 (RateLimitRPS (Profile_ c)) |} |}, None).
Proof.
  intros Hc. apply andb_prop in Hc as [Hc Ht]. apply andb_prop in Hc as [Hu Hn].
  destruct c as [[url user tok tls t a b l r]].
  cbn [Profile_ BaseURL Username APIToken] in Hu, Hn, Ht.
  unfold Validate, orDefault.
  cbn [Profile_ BaseURL Username APIToken InsecureSkipTLSVerify TimeoutSeconds
       AutoRefreshSeconds MaxBuildsPerJob MaxLogBytes RateLimitRPS].
  rewrite Hu, Hn, Ht. cbn [negb].
  destruct (t <=? 0); cbn; destruct (a <=? 0); cbn; destruct (b <=? 0); cbn;
    destruct (l <=? 0); cbn; destruct (r <=? 0); reflexivity.
Qed.

(** X2.  On a configured profile [Validate] keeps the strings, the TLS
    flag and every positive number, replaces every other number by the
    value [DefaultConfig] gives that field, so that all five end
    positive, and validating the result again changes nothing. *)
Theorem Validate_fills_defaults (c : Config) :
  IsConfigured c = true ->
  let p := Profile_ c in
  let p' := Profile_ (fst (Validate c)) in
  let d := Profile_ DefaultConfig in
  (BaseURL p' = BaseURL p /\ Username p' = Username p /\
   APIToken p' = APIToken p /\
   InsecureSkipTLSVerify p' = InsecureSkipTLSVerify p) /\
  (TimeoutSeconds p' = orDefault (TimeoutSeconds d) (TimeoutSeconds p) /\
   AutoRefreshSeconds p' = orDefault (AutoRefreshSeconds d) (AutoRefreshSeconds p) /\
   MaxBuildsPerJob p' = orDefault (MaxBuildsPerJob d) (MaxBuildsPerJob p) /\
   MaxLogBytes p' = orDefault (MaxLogBytes d) (MaxLogBytes p) /\
   RateLimitRPS p' = orDefault (RateLimitRPS d) (RateLimitRPS p)) /\
  (0 < TimeoutSeconds p' /\ 0 < AutoRefreshSeconds p' /\
   0 < MaxBuildsPerJob p' /\ 0 < MaxLogBytes p' /\ 0 < RateLimitRPS p') /\
  Validate (fst (Validate c)) = (fst (Validate c), None).
Proof.
  intros Hc p p' d. subst p p' d.
  rewrite (Validate_configured c Hc).
  cbn [fst Profile_ BaseURL Username APIToken InsecureSkipTLSVerify TimeoutSeconds
       AutoRefreshSeconds MaxBuildsPerJob MaxLogBytes RateLimitRPS DefaultConfig].
  split; [repeat split|]. split; [repeat split|].
  split; [repeat split; apply orDefault_pos; lia|].
  rewrite Validate_configured.
  - cbn [Profile_ BaseURL Username APIToken InsecureSkipTLSVerify TimeoutSeconds
         AutoRefreshSeconds MaxBuildsPerJob MaxLogBytes RateLimitRPS].
    rewrite !orDefault_idem by lia. reflexivity.
  - exact Hc.
Qed.

Lemma Validate_fills_defaults_witness :
  IsConfigured cfgPartial = true /\
  TimeoutSeconds (Profile_ (fst (Validate cfgPartial))) = 15 /\
  AutoRefreshSeconds (Profile_ (fst (Validate cfgPartial))) = 30 /\
  MaxBuildsPerJob (Profile_ (fst (Validate cfgPartial))) = 200 /\
  Validate (fst (Validate cfgPartial)) = (fst (Validate cfgPartial), None).
Proof.
  pose proof (Validate_fills_defaults cfgPartial eq_refl)
    as (_ & (Ht & Ha & Hb & _) & _ & Hi).
  split; [reflexivity|].
  split; [exact Ht|]. split; [exact Ha|]. split; [exact Hb|]. exact Hi.
Defined.

End ValidationProofs.

(* ===================================================================== *)
(** * Progress estimates and the bars drawn from them                     *)
(* ===================================================================== *)

Module ProgressProofs.

Import Models ModelMethods Components Rendering Dashboard Examples Notions.

Lemma wrap64_id (z : Z) : MinInt64 <= z <= MaxInt64 -> wrap64 z = z.
Proof.
  unfold wrap64, MinInt64, MaxInt64. intros H.
  rewrite Z.mod_small by lia. lia.
Qed.

Lemma sinceMillis_bounds (now ts : Z) :
  - maxDurationMillis <= sinceMillis now ts <= maxDurationMillis.
Proof.
  unfold sinceMillis.
  assert (0 <= maxDurationMillis) by (vm_compute; discriminate). lia.
Qed.

Lemma sinceMillis_mono (now1 now2 ts : Z) :
  now1 <= now2 -> sinceMillis now1 ts <= sinceMillis now2 ts.
Proof. unfold sinceMillis. lia. Qed.

Lemma sinceMillis_exact (now ts : Z) :
  - maxDurationMillis <= now - ts <= maxDurationMillis ->
  sinceMillis now ts = now - ts.
Proof. unfold sinceMillis. lia. Qed.

(** A hundred times an elapsed time fits 64 bits. *)
Lemma elapsed_percent_fits (now ts : Z) :
  wrap64 (sinceMillis now ts * 100) = sinceMillis now ts * 100.
Proof.
  apply wrap64_id. pose proof (sinceMillis_bounds now ts) as H.
  unfold maxDurationMillis, MaxInt64, MinInt64 in *.
  change (2 ^ 63) with 9223372036854775808 in *.
  change ((9223372036854775808 - 1) / 1000000) with 9223372036854 in H. lia.
Qed.

(** X3.  The progress of an executable with a positive estimate is a
    percentage that never goes backwards as the clock advances. *)
Theorem GetProgress_percentage_monotone (now1 now2 : Z) (e : ExecutableRef) :
  0 < ExecutableRef_EstimatedDuration e ->
  now1 <= now2 ->
  0 <= ExecutableRef_GetProgress now1 e
  /\ ExecutableRef_GetProgress now1 e <= ExecutableRef_GetProgress now2 e
  /\ ExecutableRef_GetProgress now2 e <= 100.
Proof.
  intros Hest Hle. unfold ExecutableRef_GetProgress.
  destruct ((ExecutableRef_EstimatedDuration e =? 0) || (ExecutableRef_Timestamp e =? 0));
    [lia|].
  rewrite !elapsed_percent_fits.
  pose proof (sinceMillis_mono now1 now2 (ExecutableRef_Timestamp e) Hle) as Hm.
  assert (Hq : Z.quot (sinceMillis now1 (ExecutableRef_Timestamp e) * 100)
                      (ExecutableRef_EstimatedDuration e)
               <= Z.quot (sinceMillis now2 (ExecutableRef_Timestamp e) * 100)
                         (ExecutableRef_EstimatedDuration e))
    by (apply Z.quot_le_mono; lia).
  repeat match goal with
         | |- context [?a >? ?b] => destruct (Z.gtb_spec a b)
         | |- context [?a <? ?b] => destruct (Z.ltb_spec a b)
         end; lia.
Qed.

Lemma GetProgress_percentage_monotone_witness :
  0 <= ExecutableRef_GetProgress 1030000 runningExecutable
  /\ ExecutableRef_GetProgress 1030000 runningExecutable
     <= ExecutableRef_GetProgress 1090000 runningExecutable
  /\ ExecutableRef_GetProgress 1090000 runningExecutable <= 100.
Proof.
  apply (GetProgress_percentage_monotone 1030000 1090000 runningExecutable);
    [reflexivity|lia].
Defined.

Lemma length_repeat_string (s : string) (n : nat) :
  String.length (repeat_string s n) = (n * String.length s)%nat.
Proof.
  induction n as [|n IH]; [reflexivity|].
  cbn [repeat_string]. rewrite StringFacts.length_app, IH. reflexivity.
Qed.

Lemma strings_Repeat_cell (cell : string) (count : Z) :
  String.length cell = 3%nat ->
  count <= MaxInt64 / 3 ->
  strings_Repeat cell count =
  if count <? 0 then Panic else Ok (repeat_string cell (Z.to_nat count)).
Proof.
  intros Hl Hc. unfold strings_Repeat. rewrite Hl.
  destruct (Z.ltb_spec count 0); [reflexivity|].
  change (MaxInt64 / 3) with 3074457345618258602 in Hc.
  destruct (Z.gtb_spec (Z.of_nat 3 * count) MaxInt64) as [Hgt|_]; [|reflexivity].
  unfold MaxInt64 in Hgt. lia.
Qed.

(** How many cells of a bar are full, the product being in range. *)
Lemma filledCells_exact (p : ProgressBar) :
  MinInt64 <= Percent p * Width p <= MaxInt64 ->
  filledCells p = Z.min (Z.quot (Percent p * Width p) 100) (Width p).
Proof.
  intros H. unfold filledCells. rewrite wrap64_id by exact H.
  destruct (Z.gtb_spec (Z.quot (Percent p * Width p) 100) (Width p)); lia.
Qed.

Lemma quot_100_negative (z : Z) : Z.quot z 100 < 0 <-> z <= -100.
Proof. Z.to_euclidean_division_equations. lia. Qed.

(** What [Render] draws, and when it cannot. *)
Lemma Render_cells (p : ProgressBar) :
  0 <= Width p <= MaxInt64 / 3 ->
  MinInt64 <= Percent p * Width p <= MaxInt64 ->
  (Percent p * Width p <= -100 -> Render p = Panic) /\
  (-100 < Percent p * Width p ->
   let full := Z.min (Z.quot (Percent p * Width p) 100) (Width p) in
   0 <= full <= Width p /\
   Render p = Ok (repeat_string cellFull (Z.to_nat full)
                  ++ repeat_string cellEmpty (Z.to_nat (Width p - full))
                  ++ barLabel p)).
Proof.
  intros Hw Hprod.
  pose proof (filledCells_exact p Hprod) as Hf.
  pose proof (quot_100_negative (Percent p * Width p)) as Hneg.
  change (MaxInt64 / 3) with 3074457345618258602 in Hw.
  unfold Render. rewrite Hf.
  rewrite (strings_Repeat_cell cellFull) by
    (try reflexivity; change (MaxInt64 / 3) with 3074457345618258602; lia).
  split.
  - intros Hle.
    destruct (Z.ltb_spec (Z.min (Z.quot (Percent p * Width p) 100) (Width p)) 0);
      [reflexivity|lia].
  - intros Hgt. cbv zeta.
    assert (H0 : 0 <= Z.quot (Percent p * Width p) 100) by lia.
    split; [lia|].
    destruct (Z.ltb_spec (Z.min (Z.quot (Percent p * Width p) 100) (Width p)) 0);
      [lia|].
    cbn [bind].
    rewrite wrap64_id by (unfold MinInt64, MaxInt64; lia).
    rewrite (strings_Repeat_cell cellEmpty) by
      (try reflexivity; change (MaxInt64 / 3) with 3074457345618258602; lia).
    destruct (Z.ltb_spec (Width p - Z.min (Z.quot (Percent p * Width p) 100) (Width p)) 0);
      [lia|].
    cbn [bind]. unfold barLabel.
    destruct (ShowLabel p).
    + rewrite StringFacts.app_assoc. reflexivity.
    + rewrite StringFacts.app_empty_r. reflexivity.
Qed.

(** X4.  A progress bar of width [w] is drawn as [w] cells, the full ones
    first, their number being the percentage of [w] cut at [w]; drawing
    panics exactly when percentage times width is [-100] or less (a
    negative number of full cells). *)
Theorem Render_cells_or_panic (p : ProgressBar) :
  0 <= Width p <= MaxInt64 / 3 ->
  MinInt64 <= Percent p * Width p <= MaxInt64 ->
  (Percent p * Width p <= -100 -> Render p = Panic) /\
  (-100 < Percent p * Width p ->
   let full := Z.min (Z.quot (Percent p * Width p) 100) (Width p) in
   0 <= full <= Width p /\
   Render p = Ok (repeat_string cellFull (Z.to_nat full)
                  ++ repeat_string cellEmpty (Z.to_nat (Width p - full))
                  ++ barLabel p)).
Proof. exact (Render_cells p). Qed.

Lemma Render_cells_or_panic_witness :
  Render (NewProgressBar (-9) 12) = Panic /\
  Render (NewProgressBar 50 12) =
  Ok (repeat_string cellFull 6 ++ repeat_string cellEmpty 6 ++ "  50%").
Proof.
  split.
  - apply (Render_cells_or_panic (NewProgressBar (-9) 12)); vm_compute;
      (split; discriminate) || discriminate.
  - apply (Render_cells_or_panic (NewProgressBar 50 12)); vm_compute;
      (split; discriminate) || reflexivity.
Defined.

(** When [Render] panics, for the two uses the application makes of it. *)
Lemma Render_panic_iff (percent width : Z) :
  0 <= width <= 100 ->
  - 1000000000000000 <= percent <= 1000000000000000 ->
  Render (NewProgressBar percent width) = Panic <-> percent * width <= -100.
Proof.
  intros Hw Hp.
  destruct (Render_cells (NewProgressBar percent width)) as [Hpanic Hok].
  - cbn. change (MaxInt64 / 3) with 3074457345618258602. lia.
  - cbn. unfold MinInt64, MaxInt64. nia.
  - cbn [Percent Width NewProgressBar] in Hpanic, Hok. split.
    + intros HP. destruct (Z_le_gt_dec (percent * width) (-100)) as [H|H]; [exact H|].
      destruct (Hok ltac:(lia)) as [_ HR]. congruence.
    + exact Hpanic.
Qed.

Lemma bind_Panic_iff {A B} (o : Outcome A) (k : A -> Outcome B) :
  (forall a, k a <> Panic) -> (bind o k = Panic <-> o = Panic).
Proof.
  intros Hk. destruct o as [a|]; simpl; split; intros H; try reflexivity.
  - now apply Hk in H.
  - discriminate H.
Qed.

(** X5.  The build detail view panics while drawing the progress row of a
    running build exactly when the build's start lies after the clock
    reading by a twenty-fifth of the estimated duration or more: the
    progress is then [-4] per cent or less and the bar gets a negative
    number of full cells. *)
Theorem build_progress_row_panics_iff_clock_behind (now : Z) (b : Build) :
  Build_Building b = true ->
  0 < Build_EstimatedDuration b ->
  buildProgressRow now b = Panic <->
  25 * sinceMillis now (Build_Timestamp b) <= - Build_EstimatedDuration b.
Proof.
  intros Hb Hest. unfold buildProgressRow.
  rewrite Hb. destruct (Z.gtb_spec (Build_EstimatedDuration b) 0) as [_|]; [|lia].
  cbn [andb]. rewrite bind_Panic_iff by (intros a; discriminate).
  unfold Build_GetProgress. rewrite Hb.
  destruct (Z.eqb_spec (Build_EstimatedDuration b) 0) as [|_]; [lia|]. cbn [negb orb].
  rewrite elapsed_percent_fits.
  pose proof (sinceMillis_bounds now (Build_Timestamp b)) as HE.
  change maxDurationMillis with 9223372036854 in HE.
  set (E := sinceMillis now (Build_Timestamp b)) in *.
  set (est := Build_EstimatedDuration b) in *.
  assert (Hq : - 922337203685400 <= Z.quot (E * 100) est <= 922337203685400)
    by (Z.to_euclidean_division_equations; nia).
  rewrite Render_panic_iff.
  - destruct (Z.gtb_spec (Z.quot (E * 100) est) 100).
    + split; intros H'; [lia|]. Z.to_euclidean_division_equations. nia.
    + Z.to_euclidean_division_equations. nia.
  - lia.
  - destruct (Z.gtb_spec (Z.quot (E * 100) est) 100); lia.
Qed.

Lemma build_progress_row_panics_iff_clock_behind_witness :
  buildProgressRow 1995000 buildAhead = Panic.
Proof.
  apply (build_progress_row_panics_iff_clock_behind 1995000 buildAhead);
    [reflexivity | reflexivity | vm_compute; discriminate].
Defined.

(** With the clock past the start the row is drawn. *)
Example build_progress_row_drawn :
  buildProgressRow 2050000 buildAhead =
  Ok (Some ("  Progress:    " ++ repeat_string cellFull 15
            ++ repeat_string cellEmpty 15 ++ "  50%")).
Proof. vm_compute. reflexivity. Qed.

Lemma GetProgress_range (now : Z) (e : ExecutableRef) :
  0 <= ExecutableRef_GetProgress now e <= 100.
Proof.
  unfold ExecutableRef_GetProgress.
  destruct ((ExecutableRef_EstimatedDuration e =? 0) || (ExecutableRef_Timestamp e =? 0));
    [lia|].
  repeat match goal with
         | |- context [?a >? ?b] => destruct (Z.gtb_spec a b)
         | |- context [?a <? ?b] => destruct (Z.ltb_spec a b)
         end; lia.
Qed.

(** The progress shown for an executor: what it reports, or the estimate
    from the clock. *)
Lemma runningOfExecutor_progress (now : Z) (node : Node) (exec : Executor)
  (row : RunningBuildInfo) :
  In row (runningOfExecutor now node exec) ->
  Running_Progress row = Executor_Progress exec \/ 0 <= Running_Progress row <= 100.
Proof.
  unfold runningOfExecutor.
  destruct (Config.nonEmpty _); [|intros []].
  intros [<-|[]]. cbn [Running_Progress].
  destruct ((Executor_Progress exec =? 0)
            && (ExecutableRef_EstimatedDuration (Executor_CurrentExecutable exec) >? 0)
            && (ExecutableRef_Timestamp (Executor_CurrentExecutable exec) >? 0)).
  - right. apply GetProgress_range.
  - left. reflexivity.
Qed.

(** X6.  Every row of the running builds panel is drawn, with its twelve
    cells, as long as no executor reports a progress below [-8]
    (Jenkins reports [-1] for a progress it cannot estimate). *)
Theorem running_rows_are_drawn (now : Z) (m : DashboardModel) (row : RunningBuildInfo) :
  (forall node exec,
     In node (elems (nodes m)) -> In exec (elems (Node_Executors node)) ->
     -8 <= Executor_Progress exec <= 100) ->
  In row (elems (extractRunningBuilds now m)) ->
  exists full,
    0 <= full <= 12 /\
    runningProgressBar row =
    Ok (repeat_string cellFull (Z.to_nat full)
        ++ repeat_string cellEmpty (Z.to_nat (12 - full))
        ++ " " ++ fmt_3d (Running_Progress row) ++ "%").
Proof.
  intros Hall Hin.
  assert (Hp : -8 <= Running_Progress row <= 100).
  { unfold extractRunningBuilds in Hin.
    assert (Hin' : In row (flat_map
                             (fun node => flat_map (runningOfExecutor now node)
                                            (elems (Node_Executors node)))
                             (elems (nodes m)))).
    { destruct (flat_map _ (elems (nodes m))); [destruct Hin|exact Hin]. }
    apply in_flat_map in Hin' as (node & Hnode & Hin').
    apply in_flat_map in Hin' as (exec & Hexec & Hin').
    destruct (runningOfExecutor_progress now node exec row Hin') as [->|H]; [|lia].
    apply (Hall node exec Hnode Hexec). }
  destruct (Render_cells (NewProgressBar (Running_Progress row) 12))
    as [_ Hok].
  - cbn. change (MaxInt64 / 3) with 3074457345618258602. lia.
  - cbn. unfold MinInt64, MaxInt64. lia.
  - cbn [Percent Width NewProgressBar] in Hok.
    destruct (Hok ltac:(lia)) as [Hfull HR].
    eexists. split; [exact Hfull|]. exact HR.
Qed.

Lemma running_rows_are_drawn_witness :
  exists full,
    0 <= full <= 12 /\
    runningProgressBar (rowOf 1030000 unknownProgress) =
    Ok (repeat_string cellFull (Z.to_nat full)
        ++ repeat_string cellEmpty (Z.to_nat (12 - full))
        ++ " " ++ fmt_3d (-1) ++ "%").
Proof.
  apply (running_rows_are_drawn 1030000 (dashboardOfNodes [nodeOf [unknownProgress]])).
  - intros node exec [<-|[]] [<-|[]]. vm_compute. split; discriminate.
  - left. reflexivity.
Defined.

End ProgressProofs.

(* ===================================================================== *)
(** * The counters of the dashboard                                       *)
(* ===================================================================== *)

Module KPIProofs.

Import Models ModelMethods Tea Dashboard Rendering Sessions Notions.

(** The busy executors of a node are those that give a row. *)
Lemma BusyExecutors_rows (now : Z) (node : Node) :
  Node_BusyExecutors node =
  Z.of_nat (length (flat_map (runningOfExecutor now node) (elems (Node_Executors node)))).
Proof.
  unfold Node_BusyExecutors.
  assert (H : forall l acc,
             fold_left
               (fun count exec =>
                  if Config.nonEmpty (ExecutableRef_URL (Executor_CurrentExecutable exec))
                  then count + 1 else count) l acc
             = acc + Z.of_nat (length (flat_map (runningOfExecutor now node) l))).
  { induction l as [|e l IH]; intros acc; cbn [fold_left flat_map]; [simpl; lia|].
    rewrite IH, length_app. unfold runningOfExecutor at 2.
    destruct (Config.nonEmpty (ExecutableRef_URL (Executor_CurrentExecutable e)));
      simpl length; lia. }
  rewrite H. lia.
Qed.

Lemma BusyExecutors_nonneg (node : Node) : 0 <= Node_BusyExecutors node.
Proof. rewrite (BusyExecutors_rows 0). lia. Qed.

(** The node counters, with the rows the same nodes give. *)
Lemma node_counters (now : Z) (l : list Node) (on off total busy : Z) :
  match fold_left
          (fun '(on, off, total, busy) node =>
             if Node_Offline node then (on, off + 1, total, busy)
             else (on + 1, off, total + Node_NumExecutors node,
                   busy + Node_BusyExecutors node))
          l (on, off, total, busy)
  with
  | (on', off', _, busy') =>
      on' + off' = on + off + Z.of_nat (length l)
      /\ on <= on' /\ off <= off'
      /\ busy <= busy'
      /\ busy' - busy
         <= Z.of_nat (length (flat_map
                                (fun node => flat_map (runningOfExecutor now node)
                                                      (elems (Node_Executors node))) l))
  end.
Proof.
  revert on off total busy.
  induction l as [|node l IH]; intros on off total busy; cbn [fold_left flat_map length].
  - lia.
  - destruct (Node_Offline node).
    + specialize (IH on (off + 1) total busy).
      destruct (fold_left _ l _) as [[[on' off'] total'] busy'].
      rewrite length_app. lia.
    + specialize (IH (on + 1) off (total + Node_NumExecutors node)
                     (busy + Node_BusyExecutors node)).
      destruct (fold_left _ l _) as [[[on' off'] total'] busy'].
      rewrite length_app. pose proof (BusyExecutors_rows now node).
      pose proof (BusyExecutors_nonneg node). lia.
Qed.

Lemma count_if_bounds {A} (p : A -> bool) (l : list A) (acc : Z) :
  acc <= fold_left (fun n x => if p x then n + 1 else n) l acc <= acc + Z.of_nat (length l).
Proof.
  revert acc. induction l as [|x l IH]; intros acc; cbn [fold_left length]; [lia|].
  destruct (p x); [specialize (IH (acc + 1))|specialize (IH acc)]; lia.
Qed.

Lemma len_appended {A} (l : list A) : len (appended l) = Z.of_nat (length l).
Proof. destruct l; reflexivity. Qed.

Section WithSorter.

Context {sorter : SortSlice}.

Lemma key_keeps_data (sys : Sys) (k : Key) (m : DashboardModel) :
  nodes (fst (Update sys (KeyMsg k) m)) = nodes m
  /\ runningBuilds (fst (Update sys (KeyMsg k) m)) = runningBuilds m.
Proof.
  destruct m.
  unfold Update, LoadData, navigateDown, navigateUp, nextPanel, prevPanel,
    goToTop, goToBottom.
  repeat match goal with
         | |- context [if ?c then _ else _] => destruct c
         | |- context [match ?q with Some _ => _ | None => _ end] => destruct q
         end; split; reflexivity.
Qed.

Lemma Update_rowsFromNodes (sys : Sys) (msg : Msg) (m : DashboardModel) :
  rowsFromNodes m -> rowsFromNodes (fst (Update sys msg m)).
Proof.
  intros [t Ht]. unfold rowsFromNodes.
  destruct msg; try (exists t; exact Ht).
  - destruct (key_keeps_data sys k m) as [Hn Hr].
    exists t. rewrite Hr, Ht. unfold extractRunningBuilds. now rewrite Hn.
  - cbn [Update]. destruct (loading m); [|exists t; exact Ht].
    cbn. exists t. destruct m; exact Ht.
  - cbn [Update fst].
    pose proof (DashboardProofs.merge_nodes (now sys) d m) as Hn.
    pose proof (DashboardProofs.merge_runningBuilds (now sys) d m) as Hr.
    destruct (DashboardData_Nodes d) as [ns|].
    + exists (now sys). rewrite Hr. unfold extractRunningBuilds. rewrite Hn. reflexivity.
    + exists t. rewrite Hr, Ht. unfold extractRunningBuilds. now rewrite Hn.
Qed.

Lemma dashboardAfter_rowsFromNodes (events : list (Sys * Msg)) (m : DashboardModel) :
  rowsFromNodes m -> rowsFromNodes (dashboardAfter events m).
Proof.
  revert m. induction events as [|[sys msg] events IH]; intros m Hm; [exact Hm|].
  cbn [dashboardAfter fold_left fst snd]. apply IH, Update_rowsFromNodes, Hm.
Qed.

(** X7.  Whatever messages a dashboard has handled since it was created,
    the counters of its cards agree with each other and with its lists:
    every node is counted online or offline, the blocked items are among
    the queued ones, the busy executors (those of the online nodes) are
    no more than the running builds listed, and the failed builds are
    among the recent ones. *)
Theorem dashboard_counters_consistent (events : list (Sys * Msg)) (w h : Z) :
  let m := dashboardAfter events (NewDashboardModel w h) in
  let k := countKPIs m in
  (0 <= nodesOnline k /\ 0 <= nodesOffline k /\
   nodesOnline k + nodesOffline k = len (nodes m))
  /\ 0 <= queueBlocked k <= queueCount k
  /\ 0 <= busyExecutors k <= runningCount k
  /\ 0 <= failedCount k <= len (recentBuilds m).
Proof.
  intros m k.
  assert (Hm : rowsFromNodes m).
  { apply dashboardAfter_rowsFromNodes. exists 0. reflexivity. }
  destruct Hm as [t Ht]. subst k. unfold countKPIs.
  pose proof (node_counters t (elems (nodes m)) 0 0 0 0) as Hn.
  destruct (fold_left _ (elems (nodes m)) (0, 0, 0, 0)) as [[[on off] total] busy].
  assert (Hq : match queue m with
               | Some q =>
                   0 <= fold_left (fun n item => if QueueItem_Blocked item then n + 1 else n)
                          (elems (Queue_Items q)) 0 <= len (Queue_Items q)
               | None => True
               end).
  { destruct (queue m) as [q|]; [|exact I].
    pose proof (count_if_bounds QueueItem_Blocked (elems (Queue_Items q)) 0).
    unfold len. lia. }
  destruct (queue m) as [q|]; cbn [runningCount queueCount queueBlocked nodesOnline
    nodesOffline totalExecutors busyExecutors failedCount].
  all: rewrite Ht; unfold extractRunningBuilds; rewrite len_appended.
  all: pose proof (count_if_bounds
                     (fun b => String.eqb (Recent_Result b) "FAILURE"
                               || String.eqb (Recent_Color b) "red"
                               || String.eqb (Recent_Color b) "red_anime")
                     (elems (recentBuilds m)) 0) as Hf.
  all: cbv beta in Hf; unfold len in *; repeat split; lia.
Qed.

End WithSorter.

End KPIProofs.

(* ===================================================================== *)
(** * Text helpers of the user interface                                  *)
(* ===================================================================== *)

Module TextProofs.

Import Components.

Lemma repeat_string_snoc (s : string) (n : nat) :
  (repeat_string s n ++ s)%string = repeat_string s (S n).
Proof.
  induction n as [|n IH]; cbn [repeat_string].
  - StringFacts.sapp. now rewrite StringFacts.app_empty_r.
  - rewrite StringFacts.app_assoc, IH. reflexivity.
Qed.

(** The bar after [n] rounds of the loop of [theme.ProgressBar], [k]
    being the number of cells to fill. *)
Lemma bar_loop (k n : nat) (filled : Z) :
  k = Z.to_nat (Z.max 0 filled) ->
  fold_left
    (fun (bar : string) (i : nat) =>
       if Z.of_nat i <? filled then (bar ++ cellFull)%string
       else (bar ++ cellEmpty)%string)
    (seq 0 n) EmptyString
  = (repeat_string cellFull (Nat.min n k) ++ repeat_string cellEmpty (n - Nat.min n k))%string.
Proof.
  intros Hk. induction n as [|n IH]; [reflexivity|].
  rewrite seq_S, fold_left_app, IH. cbn [fold_left Nat.add].
  destruct (Z.ltb_spec (Z.of_nat n) filled) as [Hlt|Hge].
  - assert (Hn : (n < k)%nat) by lia.
    rewrite !Nat.min_l by lia. rewrite !Nat.sub_diag.
    cbn [repeat_string]. rewrite !StringFacts.app_empty_r.
    apply repeat_string_snoc.
  - assert (Hn : (k <= n)%nat) by lia.
    rewrite !Nat.min_r by lia.
    rewrite StringFacts.app_assoc, repeat_string_snoc.
    replace (S n - k)%nat with (S (n - k)) by lia. reflexivity.
Qed.

(** X8.  The bar of [theme.ProgressBar] always has as many cells as its
    width (ten when the width asked for is below five), the full ones
    first; their number is the percentage of the width, cut at the width
    and at zero: a negative percentage gives an empty bar. *)
Theorem theme_ProgressBar_cells (percent width : Z) :
  let w := if width <? 5 then 10 else width in
  let full := Z.max 0 (Z.min (Z.quot (wrap64 (percent * w)) 100) w) in
  0 <= full <= w /\
  Theme.ProgressBar percent width
  = (repeat_string cellFull (Z.to_nat full)
     ++ repeat_string cellEmpty (Z.to_nat (w - full)))%string.
Proof.
  intros w full.
  assert (Hw : 5 <= w) by (subst w; destruct (Z.ltb_spec width 5); lia).
  split; [subst full; lia|].
  unfold Theme.ProgressBar. fold w.
  set (filled := if Z.quot (wrap64 (percent * w)) 100 >? w then w
                 else Z.quot (wrap64 (percent * w)) 100).
  assert (Hf : filled = Z.min (Z.quot (wrap64 (percent * w)) 100) w).
  { subst filled. destruct (Z.gtb_spec (Z.quot (wrap64 (percent * w)) 100) w); lia. }
  rewrite (bar_loop (Z.to_nat (Z.max 0 filled)) (Z.to_nat w) filled eq_refl).
  subst full. rewrite <- Hf.
  replace (Nat.min (Z.to_nat w) (Z.to_nat (Z.max 0 filled)))
    with (Z.to_nat (Z.max 0 filled)) by lia.
  replace (Z.to_nat w - Z.to_nat (Z.max 0 filled))%nat
    with (Z.to_nat (w - Z.max 0 filled)) by lia.
  reflexivity.
Qed.

(** X9.  [truncate] panics exactly on a negative limit; otherwise its
    result has the length of the text or the limit, whichever is
    smaller, and is the text itself when that fits, its first bytes
    when the limit is three or less, and else its first [max - 3] bytes
    followed by three dots. *)
Theorem truncate_fits_or_panics (s : string) (max : Z) :
  (max < 0 /\ truncate s max = Panic)
  \/ (0 <= max /\
      exists r,
        truncate s max = Ok r
        /\ Z.of_nat (String.length r) = Z.min (Z.of_nat (String.length s)) max
        /\ (r = s
            \/ (max <= 3 /\ r = substring 0 (Z.to_nat max) s)
            \/ (3 < max /\ r = (substring 0 (Z.to_nat (max - 3)) s ++ "...")%string))).
Proof.
  unfold truncate, slice_to.
  destruct (Z.leb_spec (Z.of_nat (String.length s)) max) as [Hfit|Hlong].
  - right. split; [lia|]. exists s. split; [reflexivity|]. split; [lia|]. now left.
  - destruct (Z.leb_spec max 3) as [H3|H3].
    + destruct (Z.ltb_spec max 0) as [Hneg|Hpos]; cbn [orb].
      * left. split; [exact Hneg|reflexivity].
      * right. split; [exact Hpos|].
        destruct (Z.ltb_spec (Z.of_nat (String.length s)) max); [lia|].
        eexists. split; [reflexivity|]. split.
        -- rewrite StringFacts.substring_0_length. lia.
        -- right. left. split; [exact H3|reflexivity].
    + right. split; [lia|].
      destruct (Z.ltb_spec (max - 3) 0); [lia|].
      destruct (Z.ltb_spec (Z.of_nat (String.length s)) (max - 3)); [lia|].
      cbn [orb bind]. eexists. split; [reflexivity|]. split.
      * rewrite StringFacts.length_app, StringFacts.substring_0_length.
        change (String.length "...") with 3%nat. lia.
      * right. right. split; [exact H3|reflexivity].
Qed.

End TextProofs.

(* ===================================================================== *)
(** * The decimal numerals of the paths                                   *)
(* ===================================================================== *)

Module ItoaProofs.

Import Api Notions.

Ltac digit_cases r H :=
  assert (H' : r = 0 \/ r = 1 \/ r = 2 \/ r = 3 \/ r = 4 \/ r = 5 \/ r = 6
               \/ r = 7 \/ r = 8 \/ r = 9) by lia;
  clear H;
  destruct H' as [->|[->|[->|[->|[->|[->|[->|[->|[->| ->]]]]]]]]].

Lemma digitByte_string (r : Z) (d : Decimal.uint) :
  0 <= r <= 9 ->
  String (digitByte r) (NilEmpty.string_of_uint d)
  = NilEmpty.string_of_uint (consDigit r d).
Proof. intros H. digit_cases r H; reflexivity. Qed.

Lemma consDigit_revapp (r : Z) (l d : Decimal.uint) :
  Decimal.revapp (consDigit r l) d = Decimal.revapp l (consDigit r d).
Proof.
  unfold consDigit. destruct r as [|p|p]; try reflexivity.
  all: do 4 (try destruct p as [p|p|]); reflexivity.
Qed.

Lemma consDigit_of_lu (r : Z) (l : Decimal.uint) :
  0 <= r <= 9 ->
  Z.of_N (DecimalPos.Unsigned.of_lu (consDigit r l))
  = r + 10 * Z.of_N (DecimalPos.Unsigned.of_lu l).
Proof.
  intros H. digit_cases r H; cbn [consDigit DecimalPos.Unsigned.of_lu]; lia.
Qed.

Lemma headed_consDigit (r : Z) (d : Decimal.uint) :
  1 <= r <= 9 -> headed (consDigit r d).
Proof.
  intros H.
  assert (H' : r = 1 \/ r = 2 \/ r = 3 \/ r = 4 \/ r = 5 \/ r = 6
               \/ r = 7 \/ r = 8 \/ r = 9) by lia.
  destruct H' as [->|[->|[->|[->|[->|[->|[->|[->| ->]]]]]]]];
    split; try reflexivity; discriminate.
Qed.

(** The loop of [itoa] writes the digits of [n], least significant
    first, in front of what it is given. *)
Lemma itoa_loop_digits :
  forall n : Z,
  0 <= n ->
  forall d : Decimal.uint,
    exists l : Decimal.uint,
      itoa_loop n (NilEmpty.string_of_uint d)
      = NilEmpty.string_of_uint (Decimal.revapp l d)
      /\ Z.of_N (DecimalPos.Unsigned.of_lu l) = n
      /\ (n = 0 -> l = Decimal.Nil)
      /\ (0 < n -> forall d0, headed (Decimal.revapp l d0)).
Proof.
  intros n Hn. revert n Hn Hn.
  apply (Z_lt_induction
           (fun n => 0 <= n -> forall d : Decimal.uint,
              exists l : Decimal.uint,
                itoa_loop n (NilEmpty.string_of_uint d)
                = NilEmpty.string_of_uint (Decimal.revapp l d)
                /\ Z.of_N (DecimalPos.Unsigned.of_lu l) = n
                /\ (n = 0 -> l = Decimal.Nil)
                /\ (0 < n -> forall d0, headed (Decimal.revapp l d0)))).
  intros n IH Hn d.
  rewrite itoa_loop_equation_1.
  destruct (Z_gt_dec n 0) as [Hpos|Hzero]; cbn [itoa_loop_unfold_clause_1].
  - assert (Hr : 0 <= Z.rem n 10 <= 9) by (Z.to_euclidean_division_equations; lia).
    assert (Hq : 0 <= Z.quot n 10 < n) by (Z.to_euclidean_division_equations; lia).
    rewrite (digitByte_string _ _ Hr).
    destruct (IH (Z.quot n 10) Hq (proj1 Hq) (consDigit (Z.rem n 10) d))
      as (l & Hl & Hv & Hz & Hh).
    exists (consDigit (Z.rem n 10) l). split; [|split; [|split]].
    + rewrite consDigit_revapp. exact Hl.
    + rewrite (consDigit_of_lu _ _ Hr), Hv. Z.to_euclidean_division_equations. lia.
    + lia.
    + intros _ d0. rewrite consDigit_revapp.
      destruct (Z.eq_dec (Z.quot n 10) 0) as [Hq0|Hq0].
      * rewrite (Hz Hq0). cbn [Decimal.revapp]. apply headed_consDigit.
        Z.to_euclidean_division_equations. lia.
      * apply Hh. lia.
  - exists Decimal.Nil. repeat split; try reflexivity; try lia.
    assert (n = 0) by lia. subst n. reflexivity.
Qed.

Lemma unorm_headed (d : Decimal.uint) : headed d -> Decimal.unorm d = d.
Proof.
  intros [Hz Hn]. unfold Decimal.unorm. rewrite Hz. destruct d; congruence.
Qed.

(** The loop on a positive number gives its numeral. *)
Lemma itoa_loop_pos (p : positive) :
  itoa_loop (Z.pos p) EmptyString = NilEmpty.string_of_uint (Pos.to_uint p).
Proof.
  destruct (itoa_loop_digits (Z.pos p) ltac:(lia) Decimal.Nil) as (l & Hl & Hv & _ & Hh).
  change (NilEmpty.string_of_uint Decimal.Nil) with EmptyString in Hl.
  rewrite Hl. f_equal.
  change (Decimal.revapp l Decimal.Nil) with (Decimal.rev l).
  assert (Hof : N.of_uint (Decimal.rev l) = N.pos p).
  { unfold N.of_uint. rewrite DecimalPos.Unsigned.of_lu_rev. lia. }
  pose proof (DecimalN.Unsigned.to_of (Decimal.rev l)) as Hto.
  rewrite Hof in Hto. cbn [N.to_uint] in Hto. rewrite Hto.
  symmetry. apply unorm_headed. apply (Hh ltac:(lia) Decimal.Nil).
Qed.

(** X10.  For every [int] but the smallest, [itoa] writes the decimal
    numeral of its argument, the one [%d] prints, and reading the
    numeral gives the argument back. *)
Theorem itoa_decimal (n : Z) :
  MinInt64 < n <= MaxInt64 ->
  itoa n = fmt_d n
  /\ option_map Z.of_int (NilEmpty.int_of_string (itoa n)) = Some n.
Proof.
  intros Hn.
  assert (H : itoa n = fmt_d n).
  { unfold itoa, fmt_d. destruct n as [|p|p]; [reflexivity| |].
    - change (Z.pos p =? 0) with false. change (Z.pos p <? 0) with false.
      cbv iota. rewrite itoa_loop_pos. reflexivity.
    - change (Z.neg p =? 0) with false. change (Z.neg p <? 0) with true.
      cbv iota. change (- Z.neg p) with (Z.pos p).
      assert (Hw : wrap64 (Z.pos p) = Z.pos p).
      { unfold wrap64, MinInt64, MaxInt64 in *. rewrite Z.mod_small by lia. lia. }
      rewrite Hw, itoa_loop_pos. reflexivity. }
  split; [exact H|].
  rewrite H. unfold fmt_d. rewrite NilEmpty.isi. cbn [option_map].
  now rewrite DecimalZ.of_to.
Qed.

Lemma itoa_decimal_witness :
  itoa 2048 = fmt_d 2048
  /\ option_map Z.of_int (NilEmpty.int_of_string (itoa 2048)) = Some 2048.
Proof. apply (itoa_decimal 2048). vm_compute. split; [reflexivity|discriminate]. Defined.

(** The numerals of [TestItoa], and the smallest [int], whose negation
    wraps: only the sign is written. *)
Example itoa_tests :
  itoa 0 = "0" /\ itoa 1 = "1" /\ itoa 42 = "42" /\ itoa 123 = "123"
  /\ itoa (-5) = "-5" /\ itoa MinInt64 = "-".
Proof. repeat split; vm_compute; reflexivity. Qed.

End ItoaProofs.

(* ===================================================================== *)
(** * The path encoding loses nothing                                     *)
(* ===================================================================== *)

Module PathDecodingProofs.

Import Jenkins Decoding StringFacts.

Lemma unhex_upperhex (n : nat) : (n < 16)%nat -> unhex (upperhex n) = n.
Proof. intros Hn. do 16 (destruct n as [|n]; [reflexivity|]). lia. Qed.

Lemma percent_is_escaped (c : ascii) :
  shouldEscape_pathSegment c = false -> Ascii.eqb c "%" = false.
Proof.
  intros H. destruct (Ascii.eqb_spec c "%") as [->|]; [discriminate H|reflexivity].
Qed.

Lemma unescape_PathEscape (s : string) : unescape (url_PathEscape s) = s.
Proof.
  induction s as [|c r IH]; [reflexivity|].
  cbn [url_PathEscape]. destruct (shouldEscape_pathSegment c) eqn:E.
  - unfold percentByte. sapp. cbn [unescape].
    change (Ascii.eqb "%" "%") with true. cbv iota. rewrite IH.
    pose proof (nat_ascii_bounded c) as Hc.
    rewrite !unhex_upperhex.
    + rewrite Nat.mul_comm, <- Nat.div_mod_eq, ascii_nat_embedding. reflexivity.
    + apply Nat.mod_upper_bound. lia.
    + apply Nat.Div0.div_lt_upper_bound. lia.
  - cbn [unescape]. rewrite (percent_is_escaped c E), IH. reflexivity.
Qed.

Lemma Split_nonempty (s : string) (sep : ascii) : strings_Split s sep <> [].
Proof.
  destruct s as [|c r]; cbn [strings_Split]; [discriminate|].
  destruct (Ascii.eqb c sep); [discriminate|].
  destruct (strings_Split r sep); discriminate.
Qed.

(** [strings.Join] undoes [strings.Split]. *)
Lemma Join_Split (s : string) (sep : ascii) :
  strings_Join (strings_Split s sep) (String sep EmptyString) = s.
Proof.
  induction s as [|c r IH]; [reflexivity|].
  cbn [strings_Split].
  pose proof (Split_nonempty r sep) as Hne.
  destruct (strings_Split r sep) as [|h t]; [congruence|].
  destruct (Ascii.eqb_spec c sep) as [->|_].
  - change (strings_Join (EmptyString :: h :: t) (String sep EmptyString))
      with (EmptyString ++ String sep EmptyString
            ++ strings_Join (h :: t) (String sep EmptyString))%string.
    rewrite IH. sapp. reflexivity.
  - destruct t as [|h' t].
    + cbn [strings_Join] in IH |- *. now rewrite IH.
    + change (strings_Join (String c h :: h' :: t) (String sep EmptyString))
        with (String c h ++ String sep EmptyString
              ++ strings_Join (h' :: t) (String sep EmptyString))%string.
      change (strings_Join (h :: h' :: t) (String sep EmptyString))
        with (h ++ String sep EmptyString
              ++ strings_Join (h' :: t) (String sep EmptyString))%string in IH.
      rewrite <- IH at 1. sapp. reflexivity.
Qed.

Lemma Split_segment (x t : string) :
  string_existsb (Ascii.eqb "/") x = false ->
  strings_Split (x ++ String "/" t) "/" = x :: strings_Split t "/".
Proof.
  induction x as [|c x IH]; intros Hx.
  - reflexivity.
  - cbn [string_existsb] in Hx. apply orb_false_elim in Hx as [Hc Hx].
    sapp. cbn [strings_Split]. rewrite Ascii.eqb_sym, Hc, (IH Hx). reflexivity.
Qed.

Lemma Split_whole (x : string) :
  string_existsb (Ascii.eqb "/") x = false -> strings_Split x "/" = [x].
Proof.
  induction x as [|c x IH]; intros Hx; [reflexivity|].
  cbn [string_existsb] in Hx. apply orb_false_elim in Hx as [Hc Hx].
  cbn [strings_Split]. rewrite Ascii.eqb_sym, Hc, (IH Hx). reflexivity.
Qed.

(** The segments of a path are every second piece between its slashes. *)
Lemma evens_Split_Join (es : list string) :
  es <> [] ->
  Forall (fun e => string_existsb (Ascii.eqb "/") e = false) es ->
  evens (strings_Split (strings_Join es "/job/") "/") = es.
Proof.
  induction es as [|x es IH]; intros Hne Hall; [congruence|].
  inversion Hall as [|? ? Hx Hes]; subst.
  destruct es as [|y es].
  - cbn [strings_Join]. rewrite (Split_whole x Hx). reflexivity.
  - change (strings_Join (x :: y :: es) "/job/")
      with (x ++ "/job/" ++ strings_Join (y :: es) "/job/")%string.
    change ("/job/" ++ strings_Join (y :: es) "/job/")%string
      with (String "/" ("job" ++ String "/" (strings_Join (y :: es) "/job/")))%string.
    rewrite (Split_segment x _ Hx), (Split_segment "job" _ eq_refl).
    cbn [evens]. rewrite IH; [reflexivity|discriminate|exact Hes].
Qed.

Lemma encodeJobPath_unfold (s : string) :
  encodeJobPath s = strings_Join (map url_PathEscape (strings_Split s "/")) "/job/".
Proof.
  unfold encodeJobPath. f_equal.
  exact (PathProofs.range_loop_fill url_PathEscape (strings_Split s "/") []).
Qed.

(** The name is read back from its encoded path. *)
Lemma decodeJobPath_encodeJobPath (s : string) : decodeJobPath (encodeJobPath s) = s.
Proof.
  unfold decodeJobPath. rewrite encodeJobPath_unfold, evens_Split_Join.
  - rewrite map_map.
    rewrite (map_ext _ (fun x => x) (fun x => unescape_PathEscape x)), map_id.
    apply (Join_Split s "/").
  - pose proof (Split_nonempty s "/"). destruct (strings_Split s "/"); [congruence|discriminate].
  - induction (strings_Split s "/") as [|x l IHl]; cbn [map]; constructor;
      [apply PathProofs.url_PathEscape_no_slash | exact IHl].
Qed.

(** X11.  [encodeJobPath] is injective: two item names with the same
    encoded path are the same name. *)
Theorem encodeJobPath_injective (a b : string) :
  encodeJobPath a = encodeJobPath b -> a = b.
Proof.
  intros H.
  rewrite <- (decodeJobPath_encodeJobPath a), <- (decodeJobPath_encodeJobPath b).
  now rewrite H.
Qed.

Lemma encodeJobPath_injective_witness :
  decodeJobPath "team%20a/job/app" = "team a/app".
Proof.
  apply (encodeJobPath_injective (decodeJobPath "team%20a/job/app") "team a/app").
  reflexivity.
Defined.

End PathDecodingProofs.

(* ===================================================================== *)
(** * What every request of the client carries                           *)
(* ===================================================================== *)

Module RequestProofs.

Import Jenkins Scenario Notions.

Section WithEnv.

Variable env : Env.

Lemma buildRequest_onBehalfOf (c c' : Client) (method path : string) :
  sameIdentity c c' -> onBehalfOf c (buildRequest c' method path).
Proof.
  intros (Hb & Hu & Ha). unfold onBehalfOf, buildRequest.
  cbn [reqBasicAuth reqHeader reqURL]. rewrite Hb, Hu, Ha.
  split; [reflexivity|]. split; [|exists path; reflexivity].
  unfold Header_Get, Header_Set. apply lookup_insert_eq.
Qed.

(** One pass: one token and at most the request it built. *)
Lemma attempt_new (method path : string) (c : Client) (w : World) :
  exists new,
    snd (attempt env method path c w)
    = {| waits := S (waits w); sent := (new ++ sent w)%list |}
    /\ (new = [] \/ new = [buildRequest c method path]).
Proof.
  destruct (ClientProofs.attempt_world env method path c w) as [H|H].
  - exists []. split; [exact H|now left].
  - exists [buildRequest c method path]. split; [exact H|now right].
Qed.

Lemma Forall_at_most_one {A} (P : A -> Prop) (q : A) (new : list A) :
  new = [] \/ new = [q] -> P q -> Forall P new /\ (length new <= 1)%nat.
Proof.
  intros [-> | ->] Hq; split; simpl; try lia; constructor; [exact Hq|constructor].
Qed.

(** X12.  A GET, and any request of a client that has already tried the
    crumb issuer, is a single pass: one token of the limiter, at most
    the one HTTP request, no crumb request, and the client as it was. *)
Theorem single_pass_without_negotiation
  (method path : string) (c : Client) (w : World) :
  String.eqb method MethodGet || crumbTested c = true ->
  exists r w',
    doRequest env callDepth method path c w = Some (r, c, w')
    /\ waits w' = S (waits w)
    /\ (sent w' = sent w \/ sent w' = buildRequest c method path :: sent w).
Proof.
  intros H. unfold callDepth.
  rewrite ClientProofs.doRequest_flat.
  - eexists _, _. split; [reflexivity|].
    destruct (ClientProofs.attempt_world env method path c w) as [-> | ->];
      cbn [waits sent]; split; auto.
  - destruct (String.eqb method MethodGet), (crumbTested c); try reflexivity.
    discriminate H.
Qed.


End WithEnv.

Lemma single_pass_without_negotiation_witness :
  exists r w',
    doRequest envC callDepth MethodGet "/api/json" clientB freshWorld
    = Some (r, clientB, w')
    /\ waits w' = 1%nat
    /\ (sent w' = [] \/ sent w' = [buildRequest clientB MethodGet "/api/json"]).
Proof.
  apply (single_pass_without_negotiation envC MethodGet "/api/json" clientB freshWorld).
  reflexivity.
Defined.

End RequestProofs.

(* ===================================================================== *)
(** * The calls of the API                                                *)
(* ===================================================================== *)

Module ApiProofs.

Import Jenkins Models Api Examples Notions.

Section WithEnv.

Variable env : Env.

(** What a GET that returns a response has done. *)
Lemma GET_response (path : string) (c c' : Client) (w w' : World)
  (status : Z) (body : string) :
  doRequest env callDepth MethodGet path c w = Some (Ret (status, body), c', w') ->
  transport env (sent w) (buildRequest c MethodGet path) = Response status body
  /\ c' = c
  /\ w' = {| waits := S (waits w); sent := buildRequest c MethodGet path :: sent w |}.
Proof.
  unfold callDepth. rewrite ClientProofs.doRequest_flat
    by (change (String.eqb MethodGet MethodGet) with true; apply andb_false_r).
  unfold Scenario.attempt.
  destruct (limiter_Wait env (waits w)); [discriminate|].
  destruct (newRequest env MethodGet (baseURL c ++ path)); [discriminate|].
  cbv zeta. cbn [waits sent fst snd].
  destruct (transport env (sent w) (buildRequest c MethodGet path)) as [e|st bd];
    [discriminate|].
  destruct (st =? StatusUnauthorized); [discriminate|].
  destruct (st =? StatusForbidden); [discriminate|].
  cbn [fst snd]. intros H. injection H as -> -> <- <-. repeat split.
Qed.

(** X14.  The text [getText] returns is the head of the body of a
    response with status 200: its first [maxBytes] bytes, the whole body
    when that is shorter and nothing for a limit of zero or less; the
    call has sent the one GET and left the client as it was. *)
Theorem getText_returns_head
  (path : string) (maxBytes : Z) (c c' : Client) (w w' : World) (text : string) :
  getText env path maxBytes c w = Some (Ret text, c', w') ->
  exists body,
    transport env (sent w) (buildRequest c MethodGet path) = Response StatusOK body
    /\ text = substring 0 (Z.to_nat maxBytes) body
    /\ Z.of_nat (String.length text)
       = Z.max 0 (Z.min maxBytes (Z.of_nat (String.length body)))
    /\ c' = c
    /\ sent w' = buildRequest c MethodGet path :: sent w.
Proof.
  unfold getText.
  destruct (doRequest env callDepth MethodGet path c w) as [[[r c1] w1]|] eqn:E;
    [|discriminate].
  destruct r as [[status body]|e]; [|discriminate].
  destruct (GET_response _ _ _ _ _ _ _ E) as (Ht & -> & ->).
  destruct (Z.eqb_spec status StatusOK) as [->|]; [|discriminate].
  cbn [negb]. intros H. injection H as <- <- <-.
  exists body. split; [exact Ht|]. split; [reflexivity|].
  split; [|split; reflexivity].
  unfold limitRead. rewrite StringFacts.substring_0_length. lia.
Qed.

Variable dec : Decoders.
Context {sorter : SortSlice}.

Lemma reads_refl (k : nat) (w : World) : reads k w w.
Proof. exists []. split; [reflexivity|]. split; [simpl; lia|constructor]. Qed.

Lemma reads_trans (j k : nat) (w1 w2 w3 : World) :
  reads j w1 w2 -> reads k w2 w3 -> reads (j + k) w1 w3.
Proof.
  intros (n1 & H1 & L1 & G1) (n2 & H2 & L2 & G2).
  exists (n2 ++ n1)%list. rewrite H2, H1, app_assoc, length_app.
  split; [reflexivity|]. split; [lia|]. apply Forall_app. split; assumption.
Qed.

Lemma reads_le (j k : nat) (w w' : World) : (j <= k)%nat -> reads j w w' -> reads k w w'.
Proof. intros Hjk (n & H & L & G). exists n. repeat split; try assumption. lia. Qed.

(** A GET returns, as a single read that leaves the client alone. *)
Lemma GET_reads (path : string) (c : Client) (w : World) :
  exists r w',
    doRequest env callDepth MethodGet path c w = Some (r, c, w') /\ reads 1 w w'.
Proof.
  unfold callDepth. rewrite ClientProofs.doRequest_flat
    by (change (String.eqb MethodGet MethodGet) with true; apply andb_false_r).
  eexists _, _. split; [reflexivity|].
  destruct (ClientProofs.attempt_world env MethodGet path c w) as [-> | ->].
  - exists []. split; [reflexivity|]. split; [simpl; lia|constructor].
  - exists [buildRequest c MethodGet path]. split; [reflexivity|].
    split; [simpl; lia|]. constructor; [reflexivity|constructor].
Qed.

Lemma getJSON_reads {A} (decode : string -> Result A) (path : string)
  (c : Client) (w : World) :
  exists r w', getJSON env decode path c w = Some (r, c, w') /\ reads 1 w w'.
Proof.
  unfold getJSON. destruct (GET_reads path c w) as (r & w' & -> & Hr).
  destruct r as [[status body]|e]; [|eauto].
  destruct (negb (status =? StatusOK)); [eauto|].
  destruct (decode body); eauto.
Qed.

(** [GetPipelineRun] never reports an error: it asks the workflow API,
    then Blue Ocean, and returns the run or nil. *)
Lemma GetPipelineRun_reads (jobName : string) (buildNumber : Z)
  (c : Client) (w : World) :
  exists run w',
    GetPipelineRun env dec jobName buildNumber c w = Some ((run, None), c, w')
    /\ reads 2 w w'.
Proof.
  unfold GetPipelineRun, getPipelineRunFromWFAPI.
  destruct (getJSON_reads (decodeWFAPIRun dec)
              (buildPath jobName buildNumber ++ "/wfapi/describe") c w)
    as (r1 & w1 & -> & H1).
  assert (Hblue : exists run w',
             getPipelineRunFromBlueOcean env dec jobName buildNumber c w1
             = Some ((run, None), c, w') /\ reads 2 w w').
  { unfold getPipelineRunFromBlueOcean.
    destruct (getJSON_reads (decodeStages dec)
                (blueOceanRunPath jobName buildNumber ++ "/nodes/") c w1)
      as (r2 & w2 & -> & H2).
    pose proof (reads_trans _ _ _ _ _ H1 H2) as H12.
    destruct r2; eauto. }
  destruct r1 as [wfRun|e]; [|exact Hblue].
  eexists _, _. split; [reflexivity|]. apply (reads_le 1); [lia|exact H1].
Qed.

Lemma sameButStages_insert (i : nat) (b : BuildRef) (s : slice Stage)
  (builds : list BuildRef) :
  builds !! i = Some b ->
  sameButStages (<[i := BuildRef_setStages s b]> builds) builds.
Proof.
  intros Hi. unfold sameButStages.
  rewrite list_fmap_insert. change (BuildRef_setStages None (BuildRef_setStages s b))
    with (BuildRef_setStages None b).
  apply list_insert_id. rewrite list_lookup_fmap, Hi. reflexivity.
Qed.

(** The loop of [GetJob]: [n] rounds from index [i] touch the stages of
    the builds [i .. i + n - 1] only, with two reads a round at most. *)
Lemma stagesLoop_reads (jobName : string) (n : nat) :
  forall (i : nat) (builds : list BuildRef) (c : Client) (w : World),
  exists builds' w',
    stagesLoop env dec jobName n i builds c w = Some (builds', c, w')
    /\ reads (2 * n) w w'
    /\ sameButStages builds' builds
    /\ drop (i + n) builds' = drop (i + n) builds.
Proof.
  induction n as [|n IH]; intros i builds c w; cbn [stagesLoop].
  - exists builds, w. split; [reflexivity|]. split; [apply reads_refl|].
    split; reflexivity.
  - destruct (builds !! i) as [b|] eqn:Hi.
    + destruct (GetPipelineRun_reads jobName (BuildRef_Number b) c w)
        as (run & w1 & -> & H1).
      set (builds1 := match run with
                      | Some r => <[i := BuildRef_setStages (PipelineRun_Stages r) b]> builds
                      | None => builds
                      end).
      assert (Hsame : sameButStages builds1 builds
                      /\ drop (S i) builds1 = drop (S i) builds).
      { subst builds1. destruct run as [r|]; [|split; reflexivity].
        split; [apply sameButStages_insert, Hi|].
        apply drop_insert_lt. lia. }
      destruct Hsame as [Hsame Hdrop].
      destruct (IH (S i) builds1 c w1) as (builds' & w' & -> & H2 & Hs & Hd).
      exists builds', w'. split; [reflexivity|].
      split; [apply (reads_le (2 + 2 * n)); [lia|exact (reads_trans _ _ _ _ _ H1 H2)]|].
      split; [unfold sameButStages in *; congruence|].
      replace (i + S n)%nat with (S i + n)%nat by lia. rewrite Hd.
      rewrite <- !drop_drop, Hdrop. reflexivity.
    + exists builds, w. split; [reflexivity|]. split; [apply reads_refl|].
      split; reflexivity.
Qed.

(** X15.  [GetJob] returns after at most 21 HTTP requests, all of them
    GETs, and leaves the client as it was.  When the detail cannot be
    fetched it returns the error after the one request; otherwise it
    returns the decoded detail in which the builds differ from the
    decoded ones in their stages at most, those from the eleventh on not
    at all: a failure to fetch stages is never an error. *)
Theorem GetJob_stages_of_first_ten (jobName : string) (c : Client) (w : World) :
  exists r w',
    GetJob env dec jobName c w = Some (r, c, w')
    /\ reads 21 w w'
    /\ match r with
       | (None, Some _) => reads 1 w w'
       | (Some job', None) =>
           exists body job,
             transport env (sent w) (buildRequest c MethodGet (GetJob_path jobName))
             = Response StatusOK body
             /\ decodeJobDetail dec body = Ret job
             /\ JobDetail_setBuilds None job' = JobDetail_setBuilds None job
             /\ sameButStages (elems (JobDetail_Builds job')) (elems (JobDetail_Builds job))
             /\ drop 10 (elems (JobDetail_Builds job')) = drop 10 (elems (JobDetail_Builds job))
       | _ => False
       end.
Proof.
  unfold GetJob, getJSON.
  destruct (GET_reads (GetJob_path jobName) c w) as (r & w1 & E & H1).
  rewrite E.
  destruct r as [[status body]|e].
  - destruct (GET_response _ _ _ _ _ _ _ E) as (Ht & _ & _).
    destruct (Z.eqb_spec status StatusOK) as [->|]; cbn [negb].
    + destruct (decodeJobDetail dec body) as [job|e] eqn:Ed.
      * destruct (stagesLoop_reads jobName 10 0 (elems (JobDetail_Builds job)) c w1)
          as (builds' & w' & -> & H2 & Hs & Hd).
        eexists _, _. split; [reflexivity|].
        split; [apply (reads_le (1 + 2 * 10)); [lia|exact (reads_trans _ _ _ _ _ H1 H2)]|].
        exists body, job. split; [exact Ht|]. split; [exact Ed|].
        clear Ed. destruct job as [? ? ? ? ? ? ? ? [bs|]];
          cbn [JobDetail_Builds JobDetail_setBuilds elems] in *.
        -- split; [reflexivity|]. split; [exact Hs|exact Hd].
        -- repeat split.
      * eexists _, _. split; [reflexivity|].
        split; [apply (reads_le 1); [lia|exact H1]|exact H1].
    + eexists _, _. split; [reflexivity|].
      split; [apply (reads_le 1); [lia|exact H1]|exact H1].
  - eexists _, _. split; [reflexivity|].
    split; [apply (reads_le 1); [lia|exact H1]|exact H1].
Qed.

(** [getText] in terms of what its GET meets. *)
Lemma getText_served (path : string) (maxBytes : Z) (c : Client) (w : World) :
  exists r,
    getText env path maxBytes c w = Some (r, c, afterGET env c path w)
    /\ match served env c path w with
       | Some body => r = Ret (substring 0 (Z.to_nat maxBytes) body)
       | None => exists e, r = Err e
       end.
Proof.
  unfold getText, callDepth. rewrite ClientProofs.doRequest_flat
    by (change (String.eqb MethodGet MethodGet) with true; apply andb_false_r).
  unfold Scenario.attempt, served, afterGET.
  destruct (limiter_Wait env (waits w)); [eexists; split; [reflexivity|eauto]|].
  destruct (newRequest env MethodGet (baseURL c ++ path));
    [eexists; split; [reflexivity|eauto]|].
  cbv zeta. cbn [waits sent].
  destruct (transport env (sent w) (buildRequest c MethodGet path)) as [e|st bd];
    [eexists; split; [reflexivity|eauto]|].
  destruct (Z.eqb_spec st StatusUnauthorized) as [->|_];
    [eexists; split; [reflexivity|cbn; eauto]|].
  destruct (Z.eqb_spec st StatusForbidden) as [->|_];
    [eexists; split; [reflexivity|cbn; eauto]|].
  cbn [fst snd]. destruct (st =? StatusOK); cbn [negb];
    eexists; (split; [reflexivity|eauto]).
Qed.

Lemma afterGET_reads (path : string) (c : Client) (w : World) :
  reads 1 w (afterGET env c path w).
Proof.
  unfold afterGET.
  destruct (limiter_Wait env (waits w));
    [exists []; split; [reflexivity|split; [simpl; lia|constructor]]|].
  destruct (newRequest env MethodGet (baseURL c ++ path));
    [exists []; split; [reflexivity|split; [simpl; lia|constructor]]|].
  exists [buildRequest c MethodGet path]. split; [reflexivity|].
  split; [simpl; lia|]. constructor; [reflexivity|constructor].
Qed.


End WithEnv.

(** ** The status Blue Ocean stages add up to *)

Lemma isFailed_FAILED (status : string) : isFailed status = false -> status <> "FAILED".
Proof. intros H ->. discriminate H. Qed.

Lemma isRunning_RUNNING (status : string) : isRunning status = false -> status <> "RUNNING".
Proof. intros H ->. discriminate H. Qed.

Lemma statusLoop_failed (stages : list Stage) (run : PipelineRun) :
  Exists (fun s => isFailed (Stage_Status s) = true) stages ->
  PipelineRun_Status (statusLoop stages run) = "FAILED"
  /\ PipelineRun_Result (statusLoop stages run) = "FAILURE".
Proof.
  revert run. induction stages as [|s stages IH]; intros run Hex.
  - inversion Hex.
  - cbn [statusLoop]. destruct (isFailed (Stage_Status s)) eqn:Ef; [split; reflexivity|].
    assert (Hex' : Exists (fun s => isFailed (Stage_Status s) = true) stages).
    { inversion Hex; subst; [congruence|assumption]. }
    destruct (isRunning (Stage_Status s)); [apply IH, Hex'|].
    destruct (String.eqb (Stage_Status s) "UNSTABLE"
              && negb (String.eqb (PipelineRun_Status run) "RUNNING"));
      [apply IH, Hex'|].
    destruct (String.eqb (PipelineRun_Status run) ""); apply IH, Hex'.
Qed.

Lemma statusLoop_not_failed (stages : list Stage) (run : PipelineRun) :
  Forall (fun s => isFailed (Stage_Status s) = false) stages ->
  PipelineRun_Status (statusLoop stages run) = "FAILED" ->
  PipelineRun_Status run = "FAILED".
Proof.
  revert run. induction stages as [|s stages IH]; intros run Hall H; [exact H|].
  inversion Hall as [|? ? Hs Hall']; subst.
  cbn [statusLoop] in H. rewrite Hs in H.
  destruct (isRunning (Stage_Status s)); [apply IH in H; [discriminate H|exact Hall']|].
  destruct (String.eqb (Stage_Status s) "UNSTABLE"
            && negb (String.eqb (PipelineRun_Status run) "RUNNING"));
    [apply IH in H; [discriminate H|exact Hall']|].
  destruct (String.eqb (PipelineRun_Status run) "") eqn:Ee; [|apply IH; assumption].
  apply IH in H; [|exact Hall']. cbn [PipelineRun_Status set_status] in H.
  now apply isFailed_FAILED in Hs.
Qed.

Lemma statusLoop_running (stages : list Stage) (run : PipelineRun) :
  Forall (fun s => isFailed (Stage_Status s) = false) stages ->
  (PipelineRun_Status (statusLoop stages run) = "RUNNING"
   <-> PipelineRun_Status run = "RUNNING"
       \/ Exists (fun s => isRunning (Stage_Status s) = true) stages).
Proof.
  revert run. induction stages as [|s stages IH]; intros run Hall.
  - cbn [statusLoop]. split; [now left|]. intros [H|H]; [exact H|inversion H].
  - inversion Hall as [|? ? Hs Hall']; subst.
    cbn [statusLoop]. rewrite Hs.
    destruct (isRunning (Stage_Status s)) eqn:Er.
    + rewrite (IH _ Hall'). cbn [PipelineRun_Status set_status].
      split; intros _; [right; now left|now left].
    + assert (Hex : Exists (fun s => isRunning (Stage_Status s) = true) (s :: stages)
                    <-> Exists (fun s => isRunning (Stage_Status s) = true) stages).
      { split; intros H; [|now right]. inversion H; subst; [congruence|assumption]. }
      rewrite Hex.
      destruct (String.eqb_spec (PipelineRun_Status run) "RUNNING") as [Hrun|Hrun].
      * rewrite andb_false_r. rewrite Hrun. cbn [String.eqb Ascii.eqb].
        rewrite (IH _ Hall'). tauto.
      * rewrite andb_true_r.
        destruct (String.eqb_spec (Stage_Status s) "UNSTABLE") as [Hu|Hu].
        -- rewrite (IH _ Hall'). cbn [PipelineRun_Status set_status].
           split; intros [H|H]; first [discriminate H | contradiction | now right].
        -- destruct (String.eqb_spec (PipelineRun_Status run) "") as [He|He].
           ++ rewrite (IH _ Hall'). cbn [PipelineRun_Status set_status].
              apply isRunning_RUNNING in Er.
              split; intros [H|H]; first [contradiction | now right].
           ++ apply (IH _ Hall').
Qed.

Lemma runOfStages_status (buildNumber : Z) (stages : slice Stage) :
  exists run0,
    PipelineRun_Status run0 = EmptyString
    /\ PipelineRun_Status (runOfStages buildNumber stages)
       = PipelineRun_Status (statusLoop (elems stages) run0)
    /\ PipelineRun_Result (runOfStages buildNumber stages)
       = PipelineRun_Result (statusLoop (elems stages) run0).
Proof.
  unfold runOfStages. eexists. split; [|split].
  2: { destruct (elems stages) as [|first rest] eqn:E; [reflexivity|].
       destruct (last (first :: rest)); reflexivity. }
  - reflexivity.
  - destruct (elems stages) as [|first rest] eqn:E; [reflexivity|].
    destruct (last (first :: rest)); reflexivity.
Qed.

(** X16.  The run made of Blue Ocean stages is FAILED, with the result
    FAILURE, exactly when one of its stages is; when none is, it is
    RUNNING exactly when one of its stages is running. *)
Theorem blueOcean_status_of_stages (buildNumber : Z) (stages : slice Stage) :
  let run := runOfStages buildNumber stages in
  let failed := Exists (fun s => isFailed (Stage_Status s) = true) (elems stages) in
  let running := Exists (fun s => isRunning (Stage_Status s) = true) (elems stages) in
  (PipelineRun_Status run = "FAILED" <-> failed)
  /\ (failed -> PipelineRun_Result run = "FAILURE")
  /\ (~ failed -> (PipelineRun_Status run = "RUNNING" <-> running)).
Proof.
  intros run failed running. subst run failed running.
  destruct (runOfStages_status buildNumber stages) as (run0 & H0 & -> & ->).
  assert (Hdec : Exists (fun s => isFailed (Stage_Status s) = true) (elems stages)
                 \/ Forall (fun s => isFailed (Stage_Status s) = false) (elems stages)).
  { induction (elems stages) as [|s l IHl]; [right; constructor|].
    destruct (isFailed (Stage_Status s)) eqn:E; [left; now left|].
    destruct IHl as [H|H]; [left; now right|right; now constructor]. }
  split; [|split].
  - split; [|apply statusLoop_failed].
    intros H. destruct Hdec as [Hex|Hall]; [exact Hex|].
    apply (statusLoop_not_failed _ _ Hall) in H. rewrite H0 in H. discriminate H.
  - apply statusLoop_failed.
  - intros Hnot. destruct Hdec as [Hex|Hall]; [contradiction|].
    rewrite (statusLoop_running _ _ Hall), H0.
    split; [intros [H|H]; [discriminate H|exact H]|now right].
Qed.

Lemma getText_returns_head_witness :
  exists body,
    transport (envServing "line 1 of the console") []
      (buildRequest clientA MethodGet "/job/app/7/consoleText")
    = Response StatusOK body
    /\ "line 1" = substring 0 (Z.to_nat 6) body
    /\ Z.of_nat (String.length "line 1")
       = Z.max 0 (Z.min 6 (Z.of_nat (String.length body)))
    /\ clientA = clientA
    /\ [buildRequest clientA MethodGet "/job/app/7/consoleText"]
       = [buildRequest clientA MethodGet "/job/app/7/consoleText"].
Proof.
  apply (getText_returns_head (envServing "line 1 of the console")
           "/job/app/7/consoleText" 6 clientA clientA emptyWorld
           {| waits := 1;
              sent := [buildRequest clientA MethodGet "/job/app/7/consoleText"] |}
           "line 1").
  reflexivity.
Defined.

End ApiProofs.

(* ===================================================================== *)
(** * The outline of the controller                                       *)
(* ===================================================================== *)

Module OutlineProofs.

Import Tea App Outline Scenario Sessions.

Lemma option_map_id {A} (o : option A) : option_map (fun x => x) o = o.
Proof. destruct o; reflexivity. Qed.

Section WithSorter.

Context {sorter : SortSlice}.

Lemma Dashboard_merge_panel (t : Z) (d : DashboardData) (dm : Dashboard.DashboardModel) :
  Dashboard.selectedPanel (Dashboard.merge t d dm) = Dashboard.selectedPanel dm.
Proof.
  unfold Dashboard.merge.
  destruct (DashboardData_RootInfo d), (DashboardData_Nodes d), (DashboardData_Queue d),
    (DashboardData_Jobs d), (DashboardData_Error d); reflexivity.
Qed.

(** The panel of the dashboard follows [panelAfter]. *)
Lemma Dashboard_Update_panel (sys : Sys) (msg : Msg) (dm : Dashboard.DashboardModel) :
  Dashboard.selectedPanel (fst (Dashboard.Update sys msg dm))
  = panelAfter msg (Dashboard.selectedPanel dm).
Proof.
  destruct msg; try reflexivity.
  - cbn [Dashboard.Update panelAfter].
    destruct (String.eqb_spec (key_String k) "tab") as [->|Htab]; [reflexivity|].
    destruct (String.eqb_spec (key_String k) "shift+tab") as [->|Hstab]; [reflexivity|].
    unfold Dashboard.LoadData, Dashboard.navigateDown, Dashboard.navigateUp,
      Dashboard.goToTop, Dashboard.goToBottom.
    repeat match goal with
           | |- context [if ?c then _ else _] => destruct c
           | |- context [match ?q with Some _ => _ | None => _ end] => destruct q
           end; reflexivity.
  - cbn [Dashboard.Update panelAfter]. destruct (Dashboard.loading dm); reflexivity.
  - cbn [Dashboard.Update panelAfter fst]. apply Dashboard_merge_panel.
Qed.

Lemma summary_loadTabData (m : Model) : summary (fst (loadTabData m)) = summary m.
Proof.
  unfold loadTabData.
  destruct (activeTab m =? TabDashboard).
  { destruct (dashboardModel m) as [d|] eqn:E; [|reflexivity].
    unfold summary. cbn. rewrite E. reflexivity. }
  destruct (activeTab m =? TabViews).
  { destruct (viewsModel m) as [v|] eqn:E; [|reflexivity].
    unfold summary. cbn. rewrite E. reflexivity. }
  destruct (activeTab m =? TabBuilds); [|reflexivity].
  destruct (buildsModel m) as [b|] eqn:E; [|reflexivity].
  unfold summary. cbn. rewrite E. reflexivity.
Qed.

Lemma summary_updateActiveTab (sys : Sys) (msg : Msg) (m m' : Model) (cmd : Cmd) :
  updateActiveTab sys msg m = Ok (m', cmd) ->
  summary m'
  = if activeTab m =? TabDashboard
    then with_panel (option_map (panelAfter msg) (s_panel (summary m))) (summary m)
    else summary m.
Proof.
  unfold updateActiveTab.
  destruct (activeTab m =? TabDashboard).
  { destruct (dashboardModel m) as [d|] eqn:E.
    - pose proof (Dashboard_Update_panel sys msg d) as Hp.
      destruct (Dashboard.Update sys msg d) as [d' c]. intros [= <- _].
      unfold summary, with_panel. cbn. rewrite E. cbn. cbn in Hp. rewrite Hp.
      reflexivity.
    - intros [= <- _]. unfold summary, with_panel. cbn. rewrite E. reflexivity. }
  destruct (activeTab m =? TabViews).
  { destruct (viewsModel m) as [v|] eqn:E; [|intros [= <- _]; reflexivity].
    destruct (Views.Update sys msg v) as [[v' c]|]; [|discriminate].
    intros [= <- _]. unfold summary. cbn. rewrite E. reflexivity. }
  destruct (activeTab m =? TabBuilds); [|intros [= <- _]; reflexivity].
  destruct (buildsModel m) as [b|] eqn:E; [|intros [= <- _]; reflexivity].
  destruct (Builds.Update sys msg b) as [[b' c]|]; [|discriminate].
  intros [= <- _]. unfold summary. cbn. rewrite E. reflexivity.
Qed.

Lemma summary_delegate (sys : Sys) (msg : Msg) (cmds : list Cmd) (m m' : Model) (cmd : Cmd) :
  delegate sys msg cmds m = Ok (m', cmd) ->
  summary m' = absDelegate msg (summary m).
Proof.
  unfold delegate, absDelegate. cbn [s_state s_tab summary].
  destruct (state m) eqn:Es.
  - destruct (setupModel m) as [sm|] eqn:E; [|intros [= <- _]; reflexivity].
    destruct (Setup.Update msg sm). intros [= <- _].
    unfold summary. cbn. rewrite E, Es. reflexivity.
  - intros [= <- _]. reflexivity.
  - destruct (updateActiveTab sys msg m) as [[m1 c1]|] eqn:E; [|discriminate].
    intros [= <- _]. cbn [fst]. apply (summary_updateActiveTab _ _ _ _ _ E).
  - intros [= <- _]. reflexivity.
Qed.

Lemma summary_windowSize (w h : Z) (m : Model) : summary (windowSize w h m) = summary m.
Proof.
  destruct m as [? ? ? ? ? ? ? ? sm dm vm bm ? ? ?].
  destruct sm, dm, vm, bm; reflexivity.
Qed.

Lemma summary_loadAndSchedule (m : Model) : summary (fst (loadAndSchedule m)) = summary m.
Proof.
  unfold loadAndSchedule. pose proof (summary_loadTabData m) as H.
  destruct (loadTabData m). exact H.
Qed.

Lemma summary_switchTab (tab : Z) (m m' : Model) (cmd : Cmd) :
  switchTab tab m = Ok (m', cmd) -> summary m' = with_tab tab (summary m).
Proof.
  unfold switchTab. intros H. injection H as H. apply (f_equal fst) in H. cbn [fst] in H.
  rewrite <- H, summary_loadTabData. reflexivity.
Qed.

(** The summary of the controller follows [absUpdate]. *)
Lemma summary_Update (sys : Sys) (msg : Msg) (m m' : Model) (cmd : Cmd) :
  Update sys msg m = Ok (m', cmd) ->
  summary m' = absUpdate sys msg (summary m).
Proof.
  intros HU. destruct msg; cbn [Update absUpdate] in *;
    try exact (summary_delegate _ _ _ _ _ _ HU).
  - unfold globalKey in HU. unfold absKey. cbn [s_state s_help s_tab summary].
    repeat match type of HU with
           | context [if ?b then _ else _] => destruct b
           end;
      first [ exact (summary_delegate _ _ _ _ _ _ HU)
            | exact (summary_switchTab _ _ _ _ HU)
            | injection HU as <- _; reflexivity ].
  - injection HU as <- _. apply summary_windowSize.
  - cbn [config set_config] in HU. destruct (Save sys cfg); injection HU as <- _; reflexivity.
  - injection HU as HU. apply (f_equal fst) in HU. cbn [fst] in HU.
    rewrite <- HU, summary_loadAndSchedule. reflexivity.
  - injection HU as <- _. reflexivity.
  - destruct (AppState_eqb (state m) StateReady && autoRefreshEnabled m).
    + injection HU as HU. apply (f_equal fst) in HU. cbn [fst] in HU.
      rewrite <- HU. apply summary_loadAndSchedule.
    + injection HU as <- _. reflexivity.
Qed.

Lemma summary_run (events : list (Sys * Msg)) (m m' : Model) :
  run events m = Ok m' ->
  summary m' = fold_left (fun a ev => absUpdate (fst ev) (snd ev) a) events (summary m).
Proof.
  revert m. induction events as [|[sys msg] events IH]; intros m H; cbn [run fold_left] in *.
  - now injection H as <-.
  - destruct (Update sys msg m) as [[m1 c]|] eqn:E; [|discriminate].
    cbn [bind fst snd] in *. rewrite (IH _ H), (summary_Update _ _ _ _ _ E). reflexivity.
Qed.

End WithSorter.

Lemma absDelegate_wellFormed (msg : Msg) (a : Summary) :
  wellFormed a -> wellFormed (absDelegate msg a).
Proof.
  intros H. pose proof H as (Ht & Hr & Hs). unfold absDelegate.
  destruct (s_state a) eqn:Es; try exact H.
  destruct (s_tab a =? TabDashboard); [|exact H].
  unfold wellFormed. cbn. rewrite Es. split; [exact Ht|]. split; [|discriminate].
  intros _. destruct (Hr eq_refl) as (Hc & Hp & Hv & Hb).
  repeat split; try assumption. destruct (s_panel a); [discriminate|congruence].
Qed.

Lemma rem3_range (t : Z) (k : Z) : 0 <= t -> 0 <= k -> 0 <= Z.rem (t + k) 3 <= 2.
Proof. intros. Z.to_euclidean_division_equations. lia. Qed.

Lemma absUpdate_wellFormed (sys : Sys) (msg : Msg) (a : Summary) :
  wellFormed a -> wellFormed (absUpdate sys msg a).
Proof.
  intros H. pose proof H as (Ht & Hr & Hs).
  destruct msg; cbn [absUpdate]; try (apply absDelegate_wellFormed; exact H);
    try exact H.
  - unfold absKey.
    repeat match goal with
           | |- context [if ?b then _ else _] => destruct b eqn:?
           end;
      try (apply absDelegate_wellFormed; exact H); try exact H;
      unfold wellFormed; cbn;
      repeat match goal with
             | E : _ && _ = true |- _ => apply andb_prop in E as [? ?]
             end;
      try (destruct (s_state a); try discriminate;
           repeat split; try discriminate; try (apply Hr; reflexivity);
           try (apply rem3_range; lia); unfold TabDashboard, TabViews, TabBuilds; lia).
  - destruct (Save sys cfg); unfold wellFormed; cbn;
      (split; [exact Ht|]); split; discriminate.
  - unfold wellFormed. cbn. split; [exact Ht|]. split; [|discriminate].
    intros _. repeat split. discriminate.
  - unfold wellFormed. cbn. split; [exact Ht|]. split; discriminate.
Qed.

(** X17.  In every state the controller can reach from [NewModel] the
    active tab is one of the three; when the state is ready the client
    and the three tab models are there, and when it is setup the wizard
    is: no message is ever dropped for want of the model it is for. *)
Theorem reachable_controller_is_well_formed
  {sorter : SortSlice} (cfg : Config.Config) (events : list (Sys * Msg)) (m : Model) :
  run events (NewModel cfg) = Ok m ->
  0 <= activeTab m <= 2
  /\ (state m = StateReady ->
      client m <> None /\ dashboardModel m <> None
      /\ viewsModel m <> None /\ buildsModel m <> None)
  /\ (state m = StateSetup -> setupModel m <> None).
Proof.
  intros Hrun.
  assert (Hwf : wellFormed (summary m)).
  { rewrite (summary_run _ _ _ Hrun).
    assert (H0 : wellFormed (summary (NewModel cfg))).
    { unfold NewModel. destruct (negb (Config.IsConfigured cfg));
        unfold wellFormed; cbn; (split; [unfold TabDashboard; lia|]); split;
        try discriminate.
      intros _. reflexivity. }
    revert H0. generalize (summary (NewModel cfg)). clear Hrun.
    induction events as [|[sys msg] events IH]; intros a Ha; [exact Ha|].
    cbn [fold_left fst snd]. apply IH, absUpdate_wellFormed, Ha. }
  destruct Hwf as (Ht & Hr & Hs). cbn [summary s_tab s_state s_client s_panel
    s_views s_builds s_setup] in *.
  split; [exact Ht|]. split.
  - intros E. destruct (Hr E) as (Hc & Hp & Hv & Hb).
    destruct (client m), (dashboardModel m), (viewsModel m), (buildsModel m);
      try discriminate; try (now elim Hp); repeat split; discriminate.
  - intros E. specialize (Hs E). destruct (setupModel m); [discriminate|discriminate Hs].
Qed.

Lemma reachable_controller_is_well_formed_witness :
  0 <= activeTab modelOnViews <= 2
  /\ (state modelOnViews = StateReady ->
      client modelOnViews <> None /\ dashboardModel modelOnViews <> None
      /\ viewsModel modelOnViews <> None /\ buildsModel modelOnViews <> None)
  /\ (state modelOnViews = StateSetup -> setupModel modelOnViews <> None).
Proof.
  apply (reachable_controller_is_well_formed (sorter := insertionSort)
           cfgB switchedToViews modelOnViews).
  vm_compute. reflexivity.
Defined.

(** Without the help overlay a message leaves the dashboard on the panel
    it opens with. *)
Lemma absUpdate_first_panel (sys : Sys) (msg : Msg) (a : Summary) :
  keyOf msg <> Some "?" ->
  s_help a = false /\ (s_panel a = None \/ s_panel a = Some Dashboard.PanelRunning) ->
  s_help (absUpdate sys msg a) = false
  /\ (s_panel (absUpdate sys msg a) = None
      \/ s_panel (absUpdate sys msg a) = Some Dashboard.PanelRunning).
Proof.
  intros Hkey (Hh & Hp).
  assert (Hother : forall msg', panelAfter msg' Dashboard.PanelRunning = Dashboard.PanelRunning
                                \/ exists k, msg' = KeyMsg k
                                   /\ (key_String k = "tab" \/ key_String k = "shift+tab")).
  { intros msg'; destruct msg' as [k| | | | | | | | | | | ]; try (left; reflexivity).
    cbn [panelAfter].
    destruct (String.eqb_spec (key_String k) "tab") as [E|_];
      [right; exists k; auto|].
    destruct (String.eqb_spec (key_String k) "shift+tab") as [E|_];
      [right; exists k; auto|]. left. reflexivity. }
  assert (Hdel : forall msg',
             (forall k, msg' = KeyMsg k ->
                        (key_String k = "tab" \/ key_String k = "shift+tab") ->
                        s_state a <> StateReady) ->
             s_help (absDelegate msg' a) = false
             /\ (s_panel (absDelegate msg' a) = None
                 \/ s_panel (absDelegate msg' a) = Some Dashboard.PanelRunning)).
  { intros msg' Hn. unfold absDelegate.
    destruct (s_state a) eqn:Es; try (split; [exact Hh|exact Hp]).
    destruct (s_tab a =? TabDashboard); [|split; [exact Hh|exact Hp]].
    cbn. split; [exact Hh|]. destruct Hp as [->| ->]; [left; reflexivity|].
    right. cbn. destruct (Hother msg') as [->|(k & -> & Hk)]; [reflexivity|].
    now elim (Hn k eq_refl Hk). }
  destruct msg; cbn [absUpdate];
    try (apply Hdel; intros k0 E; discriminate E);
    try (split; [exact Hh|exact Hp]).
  - cbn [keyOf] in Hkey. unfold absKey. rewrite Hh. cbn [negb].
    rewrite !andb_true_r.
    destruct (String.eqb_spec (key_String k) "?") as [E|_]; [now rewrite E in Hkey|].
    cbn [andb].
    repeat match goal with
           | |- context [if ?b then _ else _] =>
               lazymatch b with
               | context [if _ then _ else _] => fail
               | _ => destruct b eqn:?
               end
           end;
      first [ split; [exact Hh|exact Hp]
            | split; [reflexivity|exact Hp]
            | apply Hdel; intros k0 E [Ht|Ht]; injection E as <-; intros Hr;
              rewrite Ht, Hr in *; cbn in *; discriminate ].
  - destruct (Save sys cfg); split; first [exact Hh | exact Hp].
  - split; [exact Hh|right; reflexivity].
Qed.

(** X18.  As long as the help overlay has not been asked for (no [?]
    key), the dashboard stays on the running-builds panel whatever else
    is pressed: [tab] and [shift+tab] are taken by the controller for
    the tab bar before the dashboard sees them. *)
Theorem dashboard_panel_fixed_without_help
  {sorter : SortSlice} (cfg : Config.Config) (events : list (Sys * Msg)) (m : Model) :
  List.Forall (fun ev => keyOf (snd ev) <> Some "?") events ->
  run events (NewModel cfg) = Ok m ->
  showHelp m = false
  /\ forall d, dashboardModel m = Some d ->
               Dashboard.selectedPanel d = Dashboard.PanelRunning.
Proof.
  intros Hkeys Hrun.
  assert (H : s_help (summary m) = false
              /\ (s_panel (summary m) = None
                  \/ s_panel (summary m) = Some Dashboard.PanelRunning)).
  { rewrite (summary_run _ _ _ Hrun).
    assert (H0 : s_help (summary (NewModel cfg)) = false
                 /\ (s_panel (summary (NewModel cfg)) = None
                     \/ s_panel (summary (NewModel cfg)) = Some Dashboard.PanelRunning)).
    { unfold NewModel. destruct (negb (Config.IsConfigured cfg)); cbn; auto. }
    revert H0. generalize (summary (NewModel cfg)). clear Hrun.
    induction Hkeys as [|[sys msg] events Hk _ IH]; intros a Ha; [exact Ha|].
    cbn [fold_left fst snd]. apply IH, absUpdate_first_panel; assumption. }
  destruct H as (Hh & Hp). cbn [summary s_help s_panel] in Hh, Hp.
  split; [exact Hh|]. intros d E. rewrite E in Hp. cbn in Hp.
  destruct Hp as [Hp|Hp]; [discriminate|now injection Hp].
Qed.

Lemma dashboard_panel_fixed_without_help_witness :
  showHelp modelAfterTabs = false
  /\ forall d, dashboardModel modelAfterTabs = Some d ->
               Dashboard.selectedPanel d = Dashboard.PanelRunning.
Proof.
  apply (dashboard_panel_fixed_without_help (sorter := insertionSort)
           cfgB tabsPressed modelAfterTabs).
  - unfold tabsPressed. repeat constructor; cbn; discriminate.
  - vm_compute. reflexivity.
Defined.

(** With the overlay open the same key does reach the dashboard. *)
Example panel_moves_under_help :
  option_map Dashboard.selectedPanel (dashboardModel modelAfterHelpTab)
  = Some Dashboard.PanelNodes.
Proof. vm_compute. reflexivity. Qed.

End OutlineProofs.

(* ===================================================================== *)
(** * The first-run wizard                                                *)
(* ===================================================================== *)

Module SetupProofs.

Import Tea Setup Sessions.

Lemma textinput_Update_focus (msg : Msg) (t : TextInput) :
  focus (fst (textinput_Update msg t)) = focus t.
Proof.
  unfold textinput_Update. destruct (focus t) eqn:E; [|exact E].
  destruct msg as [k| | | | | | | | | | | ]; try exact E.
  destruct k as [r|n]; [exact E|].
  destruct (String.eqb_spec n "backspace") as [->|Hn]; [exact E|].
  repeat match goal with
         | |- context [match ?x with _ => _ end] => destruct x; try exact E
         end.
Qed.

Lemma updateFocus_follows (m : SetupModel) :
  0 <= focusedField m <= 3 -> focusFollowsField (updateFocus m).
Proof.
  intros H. unfold focusFollowsField, updateFocus, FieldURL, FieldUsername, FieldToken.
  cbn.
  destruct (focusedField m =? 0) eqn:E0; cbn; rewrite ?E0;
    [repeat split; try lia; apply Z.eqb_eq in E0; rewrite E0; reflexivity|].
  destruct (focusedField m =? 1) eqn:E1; cbn; rewrite ?E0, ?E1;
    [repeat split; try lia; apply Z.eqb_eq in E1; rewrite E1; reflexivity|].
  destruct (focusedField m =? 2) eqn:E2; cbn; rewrite ?E0, ?E1, ?E2;
    repeat split; lia.
Qed.

Lemma nextField_follows (m : SetupModel) :
  0 <= focusedField m <= 3 -> focusFollowsField (nextField m).
Proof.
  intros H. apply updateFocus_follows. cbn.
  Z.to_euclidean_division_equations. lia.
Qed.

Lemma prevField_follows (m : SetupModel) :
  0 <= focusedField m <= 3 -> focusFollowsField (prevField m).
Proof.
  intros H. apply updateFocus_follows. cbn.
  Z.to_euclidean_division_equations. lia.
Qed.

Lemma updateInputs_follows (msg : Msg) (m : SetupModel) :
  focusFollowsField m -> focusFollowsField (fst (updateInputs msg m)).
Proof.
  unfold focusFollowsField, updateInputs. intros (Hr & Hu & Hn & Ht).
  pose proof (textinput_Update_focus msg (urlInput m)) as Hfu.
  pose proof (textinput_Update_focus msg (usernameInput m)) as Hfn.
  pose proof (textinput_Update_focus msg (tokenInput m)) as Hft.
  destruct (textinput_Update msg (urlInput m)) as [tu cu].
  destruct (textinput_Update msg (usernameInput m)) as [tn cn].
  destruct (textinput_Update msg (tokenInput m)) as [tt ct].
  cbn [fst] in Hfu, Hfn, Hft.
  destruct (focusedField m =? FieldURL) eqn:E0; cbn; rewrite ?E0;
    [rewrite Hfu; auto|].
  destruct (focusedField m =? FieldUsername) eqn:E1; cbn; rewrite ?E0, ?E1;
    [rewrite Hfn; auto|].
  destruct (focusedField m =? FieldToken) eqn:E2; cbn; rewrite ?E0, ?E1, ?E2;
    [rewrite Hft; auto|].
  auto.
Qed.

Lemma Update_follows (msg : Msg) (m : SetupModel) :
  focusFollowsField m -> focusFollowsField (fst (Update msg m)).
Proof.
  intros H. pose proof H as (Hr & Hu & Hn & Ht).
  destruct msg as [k| | | | | | | | | | | ];
    try exact (updateInputs_follows _ _ H).
  - cbn [Update].
    destruct (String.eqb (key_String k) "ctrl+c"); [exact H|].
    destruct (String.eqb (key_String k) "tab" || String.eqb (key_String k) "down");
      [exact (nextField_follows _ Hr)|].
    destruct (String.eqb (key_String k) "shift+tab" || String.eqb (key_String k) "up");
      [exact (prevField_follows _ Hr)|].
    destruct (String.eqb (key_String k) "enter"); [|exact (updateInputs_follows _ _ H)].
    destruct (focusedField m =? FieldSubmit); [|exact (nextField_follows _ Hr)].
    unfold testAndSave.
    destruct (negb _ || negb _ || negb _); exact H.
  - cbn [Update].
    match goal with |- context [match ?x with Some _ => _ | None => _ end] => destruct x end;
      exact H.
Qed.

(** X19.  In the first-run wizard the keyboard focus always is where the
    field marker says: whatever has been typed or pressed since the
    wizard opened, the marker is one of the four fields and an input has
    the focus exactly when it is the marked one (none on the submit
    button). *)
Theorem setup_focus_follows_field (msgs : list Msg) :
  focusFollowsField (setupAfter msgs NewSetupModel).
Proof.
  unfold setupAfter.
  assert (H0 : focusFollowsField NewSetupModel).
  { unfold focusFollowsField. cbn. repeat split; first [reflexivity | unfold FieldURL; lia]. }
  revert H0. generalize NewSetupModel.
  induction msgs as [|msg msgs IH]; intros m Hm; [exact Hm|].
  cbn [fold_left]. apply IH, Update_follows, Hm.
Qed.

End SetupProofs.

(* ===================================================================== *)
(** * The pager of the builds tab                                         *)
(* ===================================================================== *)

Module PagerProofs.

Import Models Tea Builds Sessions.

Ltac split_cases H :=
  repeat first
    [ progress cbn [bind fst snd] in H
    | discriminate H
    | match type of H with
      | context [if ?b then _ else _] => destruct b
      | context [match ?x with _ => _ end] => destruct x
      | bind ?o _ = _ => destruct o
      end ].

Section WithSorter.

Context {sorter : SortSlice}.

Lemma SetTotalPages_PerPage (items : Z) (p p' : Paginator) :
  SetTotalPages items p = Ok p' -> PerPage p' = PerPage p.
Proof.
  unfold SetTotalPages. intros H.
  destruct (items <? 1); [now injection H as <-|].
  destruct (PerPage p =? 0); [discriminate|]. now injection H as <-.
Qed.

Lemma merge_pager (t : Z) (d : BuildsData) (m m' : BuildsModel) :
  merge t d m = Ok m' ->
  pageSize m' = pageSize m /\ PerPage (paginator m') = PerPage (paginator m).
Proof.
  unfold merge. intros H.
  destruct (BuildsData_JobDetail d) as [jd|].
  - cbn [pageSize set_jobDetail set_builds set_totalBuilds set_loading set_lastUpdate] in H.
    match type of H with
    | context [if ?b then _ else _] => destruct b; [discriminate H|]
    end.
    match type of H with
    | context [SetTotalPages ?i ?p] =>
        pose proof (SetTotalPages_PerPage i p) as Hp;
        destruct (SetTotalPages i p) as [p'|]; [|discriminate H]
    end.
    specialize (Hp _ eq_refl). cbn [bind] in H.
    injection H as <-.
    destruct (BuildsData_Jobs d), (BuildsData_BuildDetail d), (BuildsData_PipelineRun d),
      (Config.nonEmpty (BuildsData_LogContent d)), (BuildsData_Error d);
      cbn in *; try destruct (followLog m); cbn; (split; [reflexivity|exact Hp]).
  - cbn [bind] in H. injection H as <-.
    destruct (BuildsData_Jobs d), (BuildsData_BuildDetail d), (BuildsData_PipelineRun d),
      (Config.nonEmpty (BuildsData_LogContent d)), (BuildsData_Error d);
      cbn; try destruct (followLog m); cbn; (split; reflexivity).
Qed.

Lemma Update_pager (sys : Sys) (msg : Msg) (m m' : BuildsModel) (c : Cmd) :
  Update sys msg m = Ok (m', c) ->
  pageSize m' = pageSize m /\ PerPage (paginator m') = PerPage (paginator m).
Proof.
  intros H. destruct msg as [k|? ?|?|?|?| | | |?|?|?|d];
    try (injection H as <- _; split; reflexivity).
  - cbn [Update] in H.
    unfold searchKey, logSearchKey, back, enter, openLog, refresh, selectedURL,
      navigateDown, navigateUp, goToTop, goToBottom, pageDown, pageUp, highlightLogSearch,
      fetchJobDetail, fetchBuildDetail, fetchBuildLog, fetchStageLog, LoadData in H.
    split_cases H; injection H as <- _; split; reflexivity.
  - cbn [Update] in H. destruct (loading m); [|injection H as <- _; split; reflexivity].
    destruct (spinner_Update SpinnerTickMsg (spinner m)). injection H as <- _.
    split; reflexivity.
  - cbn [Update] in H.
    destruct (merge (now sys) d m) as [m1|] eqn:E; [|discriminate H].
    cbn [bind] in H. injection H as <- _. exact (merge_pager _ _ _ _ E).
Qed.

Lemma buildsAfter_pager (events : list (Sys * Msg)) (m m' : BuildsModel) :
  buildsAfter events m = Ok m' ->
  pageSize m' = pageSize m /\ PerPage (paginator m') = PerPage (paginator m).
Proof.
  revert m. induction events as [|[sys msg] events IH]; intros m H; cbn [buildsAfter] in H.
  - injection H as <-. split; reflexivity.
  - destruct (Update sys msg m) as [[m1 c]|] eqn:E; [|discriminate H].
    cbn [bind fst] in H. destruct (IH _ H) as (-> & ->). exact (Update_pager _ _ _ _ _ E).
Qed.

Lemma pages_of_pages (n : Z) :
  1 <= n ->
  let items := Z.quot (n + 20 - 1) 20 in
  (items <? 1) = false
  /\ Z.quot items 20 + (if Z.rem items 20 >? 0 then 1 else 0) = (n + 399) / 400.
Proof.
  intros Hn items. subst items.
  rewrite Z.quot_div_nonneg by lia.
  assert (H1 : 1 <= (n + 20 - 1) / 20) by (apply Z.div_le_lower_bound; lia).
  split; [lia|].
  rewrite Z.quot_div_nonneg, Z.rem_mod_nonneg by lia.
  replace ((n + 399) / 400) with (((n + 20 - 1) / 20 + 19) / 20).
  2:{ replace 400 with (20 * 20) by reflexivity.
      rewrite <- Z.div_div by lia.
      replace (n + 399) with ((n + 20 - 1) + 19 * 20) by lia.
      rewrite Z.div_add by lia. reflexivity. }
  set (q := (n + 20 - 1) / 20) in *.
  destruct (q mod 20 >? 0) eqn:E.
  - pose proof (Z.div_mod q 20 ltac:(lia)). pose proof (Z.mod_pos_bound q 20 ltac:(lia)).
    apply Z.div_unique with (r := q mod 20 - 1); lia.
  - pose proof (Z.div_mod q 20 ltac:(lia)). pose proof (Z.mod_pos_bound q 20 ltac:(lia)).
    apply Z.div_unique with (r := 19); lia.
Qed.

(** X20.  In the builds tab as any series of messages leaves it, merging
    a data message never divides by zero.  A job detail in the message
    sets the build total to the number of builds listed, and with at
    least one build the pager's page total to that number divided by
    400, rounded up: the page count is computed from a page count. *)
Theorem builds_merge_pages
  (w h : Z) (events : list (Sys * Msg)) (m : BuildsModel) (t : Z) (d : BuildsData) :
  buildsAfter events (NewBuildsModel w h) = Ok m ->
  exists m', merge t d m = Ok m'
    /\ match BuildsData_JobDetail d with
       | Some jd =>
           totalBuilds m' = len (builds m')
           /\ TotalPages (paginator m')
              = if totalBuilds m' <? 1 then TotalPages (paginator m)
                else (totalBuilds m' + 399) / 400
       | None => paginator m' = paginator m /\ totalBuilds m' = totalBuilds m
       end.
Proof.
  intros Hrun. destruct (buildsAfter_pager _ _ _ Hrun) as (Hs & Hp).
  cbn [NewBuildsModel pageSize paginator PerPage] in Hs, Hp.
  unfold merge.
  destruct (BuildsData_JobDetail d) as [jd|].
  - cbn [pageSize set_jobDetail set_builds set_totalBuilds set_loading set_lastUpdate
         totalBuilds builds paginator].
    replace (pageSize match BuildsData_Jobs d with
                      | Some js => set_jobs (SortJobsByLastBuild (Some js))
                                     (set_lastUpdate (Some t) (set_loading false m))
                      | None => set_lastUpdate (Some t) (set_loading false m)
                      end) with 20 by (destruct (BuildsData_Jobs d); cbn; congruence).
    replace (paginator match BuildsData_Jobs d with
                      | Some js => set_jobs (SortJobsByLastBuild (Some js))
                                     (set_lastUpdate (Some t) (set_loading false m))
                      | None => set_lastUpdate (Some t) (set_loading false m)
                      end) with (paginator m) by (destruct (BuildsData_Jobs d); reflexivity).
    change (20 =? 0) with false. cbv iota.
    set (n := len (SortBuildsByNumber (JobDetail_Builds jd))).
    unfold SetTotalPages. rewrite Hp. change (20 =? 0) with false. cbv iota.
    assert (Hn : 0 <= n) by (unfold n, len; lia).
    destruct (n <? 1) eqn:En.
    + assert (n = 0) by lia.
      replace (Z.quot (n + 20 - 1) 20 <? 1) with true
        by (subst n; replace (len _) with 0 by congruence; reflexivity).
      cbn [bind]. eexists. split; [reflexivity|].
      destruct (BuildsData_Jobs d), (BuildsData_BuildDetail d), (BuildsData_PipelineRun d),
        (Config.nonEmpty (BuildsData_LogContent d)), (BuildsData_Error d);
        cbn; try destruct (followLog m); cbn; fold n; rewrite En; split; reflexivity.
    + destruct (pages_of_pages n ltac:(lia)) as (Hi & Ht). cbv zeta in Hi, Ht.
      rewrite Hi. cbn [bind]. eexists. split; [reflexivity|].
      destruct (BuildsData_Jobs d), (BuildsData_BuildDetail d), (BuildsData_PipelineRun d),
        (Config.nonEmpty (BuildsData_LogContent d)), (BuildsData_Error d);
        cbn; try destruct (followLog m); cbn; fold n; rewrite En; (split; [reflexivity|exact Ht]).
  - cbn [bind]. eexists. split; [reflexivity|].
    destruct (BuildsData_Jobs d), (BuildsData_BuildDetail d), (BuildsData_PipelineRun d),
      (Config.nonEmpty (BuildsData_LogContent d)), (BuildsData_Error d);
      cbn; try destruct (followLog m); cbn; split; reflexivity.
Qed.

End WithSorter.

Lemma builds_merge_pages_witness :
  exists m', merge (sorter := insertionSort) 2000 (detailWithBuilds 45) buildsModelBrowsed = Ok m'
    /\ totalBuilds m' = len (builds m')
    /\ TotalPages (paginator m')
       = if totalBuilds m' <? 1 then TotalPages (paginator buildsModelBrowsed)
         else (totalBuilds m' + 399) / 400.
Proof.
  apply (builds_merge_pages (sorter := insertionSort) 80 24 buildsBrowsed
           buildsModelBrowsed 2000 (detailWithBuilds 45)).
  vm_compute. reflexivity.
Defined.

End PagerProofs.
